(** * ANBD pipeline: classification, response execution and lifecycle

    A shallow embedding of the Python sources of the ANBD demonstration
    platform (routes/rca_type1.py, routes/trigger_response.py,
    routes/preprocess.py, utils/core.py, utils/data_generator.py, app.py,
    config.py, db/models/response.py) together with the properties of its
    specification that were checked against them.

    Python dictionaries used as maps are [gmap string _]; dictionaries whose
    insertion order is observable (dict literals that are serialised) are
    association lists; tables of rows are lists in row order. *)

From Stdlib Require Import ZArith QArith Lia.
From stdpp Require Import base strings gmap list pretty.

Close Scope Q_scope.
Open Scope string_scope.

(** ** Python values *)

Module Py.

(** A Python [float]: a finite float is represented by the rational it
    denotes, which is what comparisons between numbers observe. *)
Inductive pyfloat : Type :=
| Finite (q : Q)
| PosInf
| NegInf
| NaN.

(** A Python number as it occurs in a feature dictionary. *)
Inductive pynum : Type :=
| PInt (z : Z)
| PFloat (f : pyfloat).

Definition as_float (x : pynum) : pyfloat :=
  match x with
  | PInt z => Finite (inject_Z z)
  | PFloat f => f
  end.

Definition Qgtb (a b : Q) : bool := negb (Qle_bool a b).

Definition float_gt (a b : pyfloat) : bool :=
  match a, b with
  | NaN, _ | _, NaN => false
  | Finite x, Finite y => Qgtb x y
  | _, PosInf => false
  | PosInf, _ => true
  | NegInf, _ => false
  | Finite _, NegInf => true
  end.

(** [a > b] on numbers; mixed int/float comparison is exact in Python. *)
Definition gt (a b : pynum) : bool := float_gt (as_float a) (as_float b).

(** [math.isfinite] *)
Definition isfinite (x : pynum) : bool :=
  match as_float x with
  | Finite _ => true
  | _ => false
  end.

(** Exceptions that the modelled code can raise. *)
Inductive exn : Type :=
| KeyError (key : string)
| IndexError (msg : string)
| DatabaseError (msg : string).

Inductive result (A : Type) : Type :=
| Ok (a : A)
| Raise (e : exn).
Arguments Ok {A} a.
Arguments Raise {A} e.

(** Sequencing: an exception raised by the first computation is the
    outcome of the whole. *)
#[global] Instance result_bind : MBind result := fun A B k m =>
  match m with
  | Ok a => k a
  | Raise e => Raise e
  end.

(** [d.get(k, dflt)] *)
Definition get {V} (d : gmap string V) (k : string) (dflt : V) : V :=
  default dflt (d !! k).

(** [d[k]], raising [KeyError] on a missing key *)
Definition index {V} (d : gmap string V) (k : string) : result V :=
  match d !! k with
  | Some v => Ok v
  | None => Raise (KeyError k)
  end.

End Py.

(** ** config.py *)

Module Config.

(** [Config.IMPORTANT_FEATURES] *)
Definition IMPORTANT_FEATURES : list string :=
  [ "Flow Duration"; "Total Fwd Packets"; "Total Backward Packets";
    "Total Length of Fwd Packets"; "Total Length of Bwd Packets";
    "Fwd Packet Length Max"; "Fwd Packet Length Mean"; "Fwd Packet Length Std";
    "Bwd Packet Length Max"; "Bwd Packet Length Mean"; "Bwd Packet Length Std";
    "Flow Bytes/s"; "Flow Packets/s"; "Flow IAT Mean"; "Flow IAT Std";
    "Flow IAT Max"; "Flow IAT Min"; "Fwd IAT Total"; "Fwd Header Length";
    "Bwd Header Length"; "Min Packet Length"; "Max Packet Length";
    "Packet Length Mean"; "Packet Length Std"; "Packet Length Variance";
    "ACK Flag Count"; "Down/Up Ratio"; "Average Packet Size";
    "Avg Bwd Segment Size"; "Subflow Fwd Bytes"; "Init_Win_bytes_forward";
    "Init_Win_bytes_backward"; "Idle Mean"; "Idle Max"; "Idle Min" ].

(** [Config.RCA_TYPE1_FEATURES] *)
Definition RCA_TYPE1_FEATURES : list string :=
  [ "Flow Duration"; "Total Length of Fwd Packets"; "Total Length of Bwd Packets";
    "Flow Bytes/s"; "Flow Packets/s"; "Fwd Header Length"; "Bwd Header Length";
    "Max Packet Length"; "Packet Length Mean" ].

(** The nine configurable constants of a threshold table. *)
Record Thresholds : Type := {
  flow_bytes_per_sec : Py.pynum;
  flow_packets_per_sec : Py.pynum;
  total_fwd_packets : Py.pynum;
  total_bwd_packets : Py.pynum;
  fwd_header_length : Py.pynum;
  bwd_header_length : Py.pynum;
  max_packet_length : Py.pynum;
  packet_length_mean : Py.pynum;
  flow_duration : Py.pynum
}.

(** The nested dictionary in the layout of [Config.RCA_TYPE1_THRESHOLDS]. *)
Definition thresholds_dict (t : Thresholds) : gmap string (gmap string Py.pynum) :=
  <[ "bandwidth_saturation" :=
       <[ "flow_bytes_per_sec" := flow_bytes_per_sec t ]>
       (<[ "flow_packets_per_sec" := flow_packets_per_sec t ]> ∅) ]>
  (<[ "throughput_anomalies" :=
       <[ "total_fwd_packets" := total_fwd_packets t ]>
       (<[ "total_bwd_packets" := total_bwd_packets t ]> ∅) ]>
  (<[ "unusual_header_length" :=
       <[ "fwd_header_length" := fwd_header_length t ]>
       (<[ "bwd_header_length" := bwd_header_length t ]> ∅) ]>
  (<[ "unusual_packet_size" :=
       <[ "max_packet_length" := max_packet_length t ]>
       (<[ "packet_length_mean" := packet_length_mean t ]> ∅) ]>
  (<[ "unusual_flow_duration" :=
       <[ "flow_duration" := flow_duration t ]> ∅ ]> ∅)))).

(** The default values of [Config.RCA_TYPE1_THRESHOLDS]. *)
Definition default_thresholds : Thresholds := {|
  flow_bytes_per_sec := Py.PInt 1000000;
  flow_packets_per_sec := Py.PInt 1000;
  total_fwd_packets := Py.PInt 10000;
  total_bwd_packets := Py.PInt 10000;
  fwd_header_length := Py.PInt 100;
  bwd_header_length := Py.PInt 100;
  max_packet_length := Py.PInt 1500;
  packet_length_mean := Py.PInt 1000;
  flow_duration := Py.PInt 300000000
|}.

Definition RCA_TYPE1_THRESHOLDS : gmap string (gmap string Py.pynum) :=
  thresholds_dict default_thresholds.

(** [Config.RESPONSE_PLAYBOOKS['type1']] *)
Definition type1_playbooks : gmap string string :=
  <[ "bandwidth_saturation" := "response/playbooks/type1/bandwidth_saturation_fix.yml" ]>
  (<[ "throughput_anomaly" := "response/playbooks/type1/throughput_anomaly_fix.yml" ]>
  (<[ "header_length" := "response/playbooks/type1/header_length_fix.yml" ]>
  (<[ "packet_size" := "response/playbooks/type1/packet_size_fix.yml" ]>
  (<[ "flow_duration" := "response/playbooks/type1/flow_duration_fix.yml" ]> ∅)))).

(** [Config.RESPONSE_PLAYBOOKS['type2']] *)
Definition type2_playbooks : gmap string string :=
  <[ "latency" := "response/playbooks/type2/latency_fix.yml" ]>
  (<[ "error_rate" := "response/playbooks/type2/error_rate_fix.yml" ]>
  (<[ "flapping_links" := "response/playbooks/type2/flapping_links_fix.yml" ]>
  (<[ "connectivity" := "response/playbooks/type2/connectivity_fix.yml" ]>
  (<[ "packet_loss" := "response/playbooks/type2/packet_loss_fix.yml" ]> ∅)))).

(** [Config.RESPONSE_PLAYBOOKS] *)
Definition RESPONSE_PLAYBOOKS : gmap string (gmap string string) :=
  <[ "type1" := type1_playbooks ]> (<[ "type2" := type2_playbooks ]> ∅).

End Config.

(** ** routes/rca_type1.py *)

Module RcaType1.

Import Py.

(** [thresholds[group][name]] *)
Definition threshold (thresholds : gmap string (gmap string pynum))
    (group name : string) : result pynum :=
  g ← index thresholds group; index g name.

(** [classify_anomaly_type(features, thresholds)].  Python's [or] is lazy:
    the right operand, and with it the second threshold lookup, is only
    evaluated when the left comparison is false. *)
Definition classify_anomaly_type (features : gmap string pynum)
    (thresholds : gmap string (gmap string pynum)) : result (option string) :=
  t ← threshold thresholds "bandwidth_saturation" "flow_bytes_per_sec";
  if gt (get features "Flow Bytes/s" (PInt 0)) t then Ok (Some "bandwidth_saturation") else
  t ← threshold thresholds "bandwidth_saturation" "flow_packets_per_sec";
  if gt (get features "Flow Packets/s" (PInt 0)) t then Ok (Some "bandwidth_saturation") else
  t ← threshold thresholds "throughput_anomalies" "total_fwd_packets";
  if gt (get features "Total Length of Fwd Packets" (PInt 0)) t then Ok (Some "throughput_anomaly") else
  t ← threshold thresholds "throughput_anomalies" "total_bwd_packets";
  if gt (get features "Total Length of Bwd Packets" (PInt 0)) t then Ok (Some "throughput_anomaly") else
  t ← threshold thresholds "unusual_header_length" "fwd_header_length";
  if gt (get features "Fwd Header Length" (PInt 0)) t then Ok (Some "header_length") else
  t ← threshold thresholds "unusual_header_length" "bwd_header_length";
  if gt (get features "Bwd Header Length" (PInt 0)) t then Ok (Some "header_length") else
  t ← threshold thresholds "unusual_packet_size" "max_packet_length";
  if gt (get features "Max Packet Length" (PInt 0)) t then Ok (Some "packet_size") else
  t ← threshold thresholds "unusual_packet_size" "packet_length_mean";
  if gt (get features "Packet Length Mean" (PInt 0)) t then Ok (Some "packet_size") else
  t ← threshold thresholds "unusual_flow_duration" "flow_duration";
  if gt (get features "Flow Duration" (PInt 0)) t then Ok (Some "flow_duration") else
  Ok None.

(** *** The classification as the specification words it *)

(** The fixed evaluation order of the five categories. *)
Definition category_order : list string :=
  [ "bandwidth_saturation"; "throughput_anomaly"; "header_length";
    "packet_size"; "flow_duration" ].

(** A feature's value, a missing feature counting as zero. *)
Definition feature (features : gmap string pynum) (name : string) : pynum :=
  match features !! name with
  | Some v => v
  | None => PInt 0
  end.

(** The threshold predicate of a category: some feature of the category
    exceeds its configured constant. *)
Definition predicate (features : gmap string pynum) (t : Config.Thresholds)
    (category : string) : bool :=
  if decide (category = "bandwidth_saturation") then
    gt (feature features "Flow Bytes/s") (Config.flow_bytes_per_sec t)
    || gt (feature features "Flow Packets/s") (Config.flow_packets_per_sec t)
  else if decide (category = "throughput_anomaly") then
    gt (feature features "Total Length of Fwd Packets") (Config.total_fwd_packets t)
    || gt (feature features "Total Length of Bwd Packets") (Config.total_bwd_packets t)
  else if decide (category = "header_length") then
    gt (feature features "Fwd Header Length") (Config.fwd_header_length t)
    || gt (feature features "Bwd Header Length") (Config.bwd_header_length t)
  else if decide (category = "packet_size") then
    gt (feature features "Max Packet Length") (Config.max_packet_length t)
    || gt (feature features "Packet Length Mean") (Config.packet_length_mean t)
  else if decide (category = "flow_duration") then
    gt (feature features "Flow Duration") (Config.flow_duration t)
  else false.

(** The first category of the fixed order whose predicate holds. *)
Definition first_match (features : gmap string pynum) (t : Config.Thresholds)
    : option string :=
  List.find (predicate features t) category_order.

(** The feature dictionaries of [test_rule_classification]. *)
Definition test_features (bytes_s packets_s fwd bwd : Z) : gmap string pynum :=
  <[ "Flow Bytes/s" := PInt bytes_s ]>
  (<[ "Flow Packets/s" := PInt packets_s ]>
  (<[ "Total Length of Fwd Packets" := PInt fwd ]>
  (<[ "Total Length of Bwd Packets" := PInt bwd ]>
  (<[ "Fwd Header Length" := PInt 20 ]>
  (<[ "Bwd Header Length" := PInt 20 ]>
  (<[ "Max Packet Length" := PInt 1500 ]>
  (<[ "Packet Length Mean" := PInt 500 ]>
  (<[ "Flow Duration" := PInt 60000000 ]> ∅)))))))).

End RcaType1.

(** ** db/models/events.py and db/models/response.py *)

(** A [datetime] is the number of microseconds since the epoch; a
    [timedelta] is a number of microseconds. *)
Definition total_seconds (td : Z) : Q := Qmake td 1000000.

Module Event.

Record t : Type := mk {
  id : Z;
  log_id : string;
  timestamp : Z;
  src_ip : string;
  dst_ip : string;
  src_port : option Z;
  dst_port : option Z;
  is_anomalous : bool
}.

End Event.

(** Values of the dictionaries that [to_dict] builds. *)
Inductive json : Type :=
| JNull
| JBool (b : bool)
| JInt (z : Z)
| JStr (s : string)
| JTime (isoformat_of : Z)
| JDict (d : gmap string Py.pynum).

Definition json_opt {A} (f : A -> json) (o : option A) : json :=
  match o with
  | Some a => f a
  | None => JNull
  end.

Module Response.

(** A row of the [responses] table.  The [Text] column [re_features]
    holds the JSON text of a feature dictionary and is represented by that
    dictionary. *)
Record t : Type := mk {
  id : Z;
  log_id : string;
  anomaly_id : string;
  timestamp : Z;
  src_ip : string;
  dst_ip : string;
  src_port : option Z;
  dst_port : option Z;
  anomaly_type1 : option string;
  re_features : option (gmap string Py.pynum);
  res_type1 : option string;
  anomaly_type2 : option string;
  res_type2 : option string;
  success : bool;
  duration_ms : option Z
}.

(** [set_features]: [json.dumps(features_dict) if features_dict else None];
    an empty dictionary is falsy. *)
Definition set_features (features_dict : gmap string Py.pynum) (r : t) : t :=
  mk (id r) (log_id r) (anomaly_id r) (timestamp r) (src_ip r) (dst_ip r)
     (src_port r) (dst_port r) (anomaly_type1 r)
     (if decide (features_dict = ∅) then None else Some features_dict)
     (res_type1 r) (anomaly_type2 r) (res_type2 r) (success r) (duration_ms r).

(** [get_features] *)
Definition get_features (r : t) : gmap string Py.pynum :=
  match re_features r with
  | Some d => d
  | None => ∅
  end.

(** [to_dict], in the order of the dictionary literal *)
Definition to_dict (r : t) : list (string * json) :=
  [ ("id", JInt (id r));
    ("log_id", JStr (log_id r));
    ("anomaly_id", JStr (anomaly_id r));
    ("timestamp", JTime (timestamp r));
    ("src_ip", JStr (src_ip r));
    ("dst_ip", JStr (dst_ip r));
    ("src_port", json_opt JInt (src_port r));
    ("dst_port", json_opt JInt (dst_port r));
    ("anomaly_type1", json_opt JStr (anomaly_type1 r));
    ("re_features", JDict (get_features r));
    ("res_type1", json_opt JStr (res_type1 r));
    ("anomaly_type2", json_opt JStr (anomaly_type2 r));
    ("res_type2", json_opt JStr (res_type2 r));
    ("success", JBool (success r));
    ("duration_ms", json_opt JInt (duration_ms r)) ].

(** [d.get(name)] on such a dictionary *)
Definition field (name : string) (d : list (string * json)) : option json :=
  snd <$> List.find (fun entry => bool_decide (entry.1 = name)) d.

End Response.

(** ** routes/trigger_response.py *)

Module TriggerResponse.

Import Py.

(** The two tables, each in row order. *)
Record Store : Type := mkStore {
  events : list Event.t;
  responses : list Response.t
}.

(** What one execution observes of its environment: the identifier that
    [generate_anomaly_id] returns, the clock, the position that
    [random.choice] draws, the measured
    [int((time.time() - start_time) * 1000)], and the text [str(e)] of the
    [DetachedInstanceError] that the ORM raises when an attribute of a row
    is read after [session.commit()] and [close_db_session(session)]; the
    text names the address of the object. *)
Record Sim : Type := mkSim {
  generated_anomaly_id : string;
  utcnow : Z;
  drawn : nat;
  elapsed_ms : Z;
  detached_error : string
}.

(** [random.choice(seq)] drawing position [i] *)
Definition choice {A} (i : nat) (seq : list A) : result A :=
  match seq !! (i mod length seq)%nat with
  | Some x => Ok x
  | None => Raise (IndexError "Cannot choose from an empty sequence")
  end.

(** [str(e)] *)
Definition str (e : exn) : string :=
  match e with
  | KeyError k => "'" ++ k ++ "'"
  | IndexError msg => msg
  | DatabaseError msg => msg
  end.

(** An entry of an [actions_map]. *)
Record Actions : Type := mkActions {
  type : string;
  actions : list string
}.

(** The dictionaries that the [execute_type*_response] functions return. *)
Module ResponseResult.
Record t : Type := mk {
  success : bool;
  response_type : string;
  duration_ms : Z;
  actions_taken : option (list string);
  playbook_used : option string;
  error : option string
}.
End ResponseResult.

(** The dictionaries that the [trigger_response*_internal] functions
    return: [{'success': False, 'error': ...}] or
    [{'success': True, 'anomaly_id': ..., 'response_result': ...}]. *)
Inductive TriggerResult : Type :=
| Failure (error : string)
| Success (anomaly_id : string) (response_result : ResponseResult.t).

(** [get_type1_response_actions] *)
Definition get_type1_response_actions (anomaly_type : string) : Actions :=
  let actions_map : gmap string Actions :=
    <[ "bandwidth_saturation" := mkActions "bandwidth_optimization"
         ["Applied traffic shaping"; "Enabled QoS policies"; "Increased buffer sizes"] ]>
    (<[ "throughput_anomaly" := mkActions "throughput_optimization"
         ["Optimized TCP window size"; "Adjusted flow control"; "Updated routing metrics"] ]>
    (<[ "header_length" := mkActions "header_normalization"
         ["Applied header compression"; "Filtered malformed packets"; "Updated protocol settings"] ]>
    (<[ "packet_size" := mkActions "packet_optimization"
         ["Configured MTU discovery"; "Applied fragmentation rules"; "Optimized packet sizes"] ]>
    (<[ "flow_duration" := mkActions "flow_management"
         ["Adjusted connection timeouts"; "Applied flow limits"; "Optimized session handling"] ]>
     ∅)))) in
  get actions_map anomaly_type (mkActions "generic_fix" ["Applied generic mitigation"]).

(** [get_type2_response_actions] *)
Definition get_type2_response_actions (anomaly_type : string) : Actions :=
  let actions_map : gmap string Actions :=
    <[ "high_latency" := mkActions "latency_mitigation"
         ["Optimized routing paths"; "Adjusted interface priorities"; "Applied traffic prioritization"] ]>
    (<[ "high_error_rates" := mkActions "error_correction"
         ["Reset interface counters"; "Applied error correction"; "Updated interface configuration"] ]>
    (<[ "connectivity_issues" := mkActions "connectivity_restore"
         ["Restarted network services"; "Cleared ARP tables"; "Applied routing updates"] ]>
    (<[ "packet_loss" := mkActions "loss_prevention"
         ["Increased buffer sizes"; "Applied packet prioritization"; "Optimized queue management"] ]>
    (<[ "flapping_links" := mkActions "link_stabilization"
         ["Applied dampening policies"; "Stabilized interface"; "Updated link parameters"] ]>
     ∅)))) in
  get actions_map anomaly_type
    (mkActions "generic_network_fix" ["Applied generic network mitigation"]).

(** [not x] for a value that is a string or [None] *)
Definition falsy (x : option string) : bool :=
  match x with
  | None => true
  | Some s => bool_decide (s = EmptyString)
  end.

(** [execute_type1_response].  The [except] clause turns an exception of
    the body into the ['error'] result. *)
Definition execute_type1_response (sim : Sim) (anomaly_type : string)
    (event : Event.t) : ResponseResult.t :=
  let body : result ResponseResult.t :=
    playbooks ← index Config.RESPONSE_PLAYBOOKS "type1";
    let playbook_path := playbooks !! anomaly_type in
    if falsy playbook_path then
      Ok (ResponseResult.mk false "unknown" 0 None None
            (Some ("No playbook found for " ++ anomaly_type)))
    else
      let response_actions := get_type1_response_actions anomaly_type in
      success ← choice (drawn sim) (replicate 9 true ++ [false])%list;
      let duration_ms := elapsed_ms sim in
      Ok (ResponseResult.mk success (type response_actions) duration_ms
            (Some (actions response_actions)) playbook_path None) in
  match body with
  | Ok response_result => response_result
  | Raise e => ResponseResult.mk false "error" 0 None None (Some (str e))
  end.

(** [execute_type2_response] *)
Definition execute_type2_response (sim : Sim) (anomaly_type : string)
    (response_record : Response.t) : ResponseResult.t :=
  let body : result ResponseResult.t :=
    playbooks ← index Config.RESPONSE_PLAYBOOKS "type2";
    let playbook_path := playbooks !! anomaly_type in
    if falsy playbook_path then
      Ok (ResponseResult.mk false "unknown" 0 None None
            (Some ("No playbook found for " ++ anomaly_type)))
    else
      let response_actions := get_type2_response_actions anomaly_type in
      success ← choice (drawn sim) (replicate 85 true ++ replicate 15 false)%list;
      let duration_ms := elapsed_ms sim in
      Ok (ResponseResult.mk success (type response_actions) duration_ms
            (Some (actions response_actions)) playbook_path None) in
  match body with
  | Ok response_result => response_result
  | Raise e => ResponseResult.mk false "error" 0 None None (Some (str e))
  end.

(** [session.query(Event).filter(Event.log_id == log_id).first()] *)
Definition first_event (log_id : string) (rows : list Event.t) : option Event.t :=
  List.find (fun e => bool_decide (Event.log_id e = log_id)) rows.

(** The position of the row that
    [session.query(Response).filter(Response.log_id == log_id).first()]
    returns. *)
Fixpoint first_response (log_id : string) (rows : list Response.t) : option nat :=
  match rows with
  | [] => None
  | r :: rest =>
      if bool_decide (Response.log_id r = log_id) then Some 0%nat
      else S <$> first_response log_id rest
  end.

(** The primary key that the database gives to an added row. *)
Definition next_id (rows : list Response.t) : Z :=
  (1 + foldr (fun r m => Z.max (Response.id r) m) 0 rows)%Z.

(** [trigger_response1_internal] *)
Definition trigger_response1_internal (sim : Sim) (log_id anomaly_type : string)
    (re_features : gmap string pynum) (session : Store) : TriggerResult * Store :=
  match first_event log_id (events session) with
  | None => (Failure "Event not found", session)
  | Some event =>
      let anomaly_id := generated_anomaly_id sim in
      let response_result := execute_type1_response sim anomaly_type event in
      let response :=
        Response.mk (next_id (responses session)) log_id anomaly_id (utcnow sim)
          (Event.src_ip event) (Event.dst_ip event)
          (Event.src_port event) (Event.dst_port event)
          (Some anomaly_type) None
          (Some (ResponseResult.response_type response_result))
          None None
          (ResponseResult.success response_result)
          (Some (ResponseResult.duration_ms response_result)) in
      let response := Response.set_features re_features response in
      (Success anomaly_id response_result,
       mkStore (events session) (responses session ++ [response])%list)
  end.

(** The assignments that [trigger_response2_internal] makes to the row. *)
Definition type2_update (anomaly_type : string) (response_result : ResponseResult.t)
    (response : Response.t) : Response.t :=
  Response.mk (Response.id response) (Response.log_id response)
    (Response.anomaly_id response) (Response.timestamp response)
    (Response.src_ip response) (Response.dst_ip response)
    (Response.src_port response) (Response.dst_port response)
    (Response.anomaly_type1 response) (Response.re_features response)
    (Response.res_type1 response)
    (Some anomaly_type)
    (Some (ResponseResult.response_type response_result))
    (if negb (ResponseResult.success response_result) then false
     else Response.success response)
    (Response.duration_ms response).

(** [trigger_response2_internal].  The session factory of db/database.py
    is [sessionmaker(bind=..., autocommit=False, autoflush=False)], which
    expires every row on commit.  When the row is found, [session.commit()]
    stores the update and [close_db_session(session)] detaches the row, so
    the next statement, which reads [response.anomaly_id] for
    [send_response_update], raises [DetachedInstanceError]: the update is
    not broadcast and the [except] clause returns
    [{'success': False, 'error': str(e)}]. *)
Definition trigger_response2_internal (sim : Sim) (log_id anomaly_type : string)
    (session : Store) : TriggerResult * Store :=
  match first_response log_id (responses session) with
  | None => (Failure "Response record not found", session)
  | Some i =>
      match responses session !! i with
      | None => (Failure "Response record not found", session)
      | Some response =>
          let response_result := execute_type2_response sim anomaly_type response in
          let response' := type2_update anomaly_type response_result response in
          (Failure (detached_error sim),
           mkStore (events session) (<[ i := response' ]> (responses session)))
      end
  end.

End TriggerResponse.

(** ** utils/core.py *)

Module StateManager.

Record t : Type := mk {
  _monitoring : bool;
  _start_time : option Z
}.

(** [__init__] *)
Definition init : t := mk false None.

Definition is_monitoring (self : t) : bool := _monitoring self.

(** [set_monitoring(status)], the clock reading [utcnow] *)
Definition set_monitoring (utcnow : Z) (status : bool) (self : t) : t :=
  mk status (if status then Some utcnow else None).

Definition get_status (self : t) : string :=
  if _monitoring self then "running" else "stopped".

(** [get_uptime]: a [datetime] is truthy, [None] is not *)
Definition get_uptime (utcnow : Z) (self : t) : Q :=
  match _start_time self with
  | Some start_time => total_seconds (utcnow - start_time)
  | None => 0%Q
  end.

(** The states that the calls of [set_monitoring] lead to. *)
Inductive reachable : t -> Prop :=
| reachable_init : reachable init
| reachable_set utcnow status self :
    reachable self -> reachable (set_monitoring utcnow status self).

End StateManager.

(** ** app.py: the life cycle of [ANBDLogGenerator] *)

Module ANBDLogGenerator.

(** The [threading.Thread] object, identified by its target. *)
Inductive Thread : Type := ThreadOf (target : string).

Record t : Type := mk {
  is_running : bool;
  generation_thread : option Thread;
  _start_time : option Z;
  _stop_time : option Z
}.

(** [__init__] *)
Definition init : t := mk false None None None.

(** The ['system_status'] messages given to [socketio.emit]. *)
Record SystemStatus : Type := mkStatus {
  state : string;
  message : string;
  start_time : option Z;
  stop_time : option Z;
  uptime : Q
}.

(** [get_uptime], the clock reading [now] *)
Definition get_uptime (now : Z) (self : t) : Q :=
  match (if is_running self then _start_time self else None) with
  | Some start_time => total_seconds (now - start_time)
  | None =>
      match _start_time self, _stop_time self with
      | Some start_time, Some stop_time => total_seconds (stop_time - start_time)
      | _, _ => 0%Q
      end
  end.

(** [start_generation]: the returned flag, the object afterwards and the
    messages emitted *)
Definition start_generation (now : Z) (self : t) : bool * t * list SystemStatus :=
  if is_running self then (false, self, [])
  else
    let self' := mk true (Some (ThreadOf "_generation_loop")) (Some now) (_stop_time self) in
    (true, self', [mkStatus "running" "System started" (Some now) None 0%Q]).

(** [stop_generation] *)
Definition stop_generation (now : Z) (self : t) : bool * t * list SystemStatus :=
  if negb (is_running self) then (false, self, [])
  else
    let self' := mk false (generation_thread self) (_start_time self) (Some now) in
    let uptime := get_uptime now self' in
    (true, self', [mkStatus "stopped" "System stopped" None (Some now) uptime]).

(** The replies of the HTTP routes: the JSON object and the status code. *)
Definition Reply : Type := list (string * string) * Z.

(** [start_system] *)
Definition start_system (now : Z) (log_generator : t) : Reply * t :=
  let '(started, log_generator', _) := start_generation now log_generator in
  if started
  then ([("message", "System started successfully"); ("status", "running")], 200%Z,
        log_generator')
  else ([("error", "System already running")], 400%Z, log_generator').

(** [stop_system] *)
Definition stop_system (now : Z) (log_generator : t) : Reply * t :=
  let '(stopped, log_generator', _) := stop_generation now log_generator in
  if stopped
  then ([("message", "System stopped successfully"); ("status", "stopped")], 200%Z,
        log_generator')
  else ([("error", "System not running")], 400%Z, log_generator').

(** One call of the control surface. *)
Inductive call : Type := Start (now : Z) | Stop (now : Z).

Definition run (c : call) (self : t) : t :=
  match c with
  | Start now => (start_generation now self).1.2
  | Stop now => (stop_generation now self).1.2
  end.

(** The states that calls of [start_generation] and [stop_generation]
    lead to. *)
Inductive reachable : t -> Prop :=
| reachable_init : reachable init
| reachable_run c self : reachable self -> reachable (run c self).

End ANBDLogGenerator.

(** ** The [random] and [uuid] modules *)

(** Code that reads and writes a state [S] and may raise. *)
Definition St (S A : Type) : Type := S -> Py.result A * S.

#[global] Instance St_ret {S} : MRet (St S) := fun A a s => (Py.Ok a, s).

#[global] Instance St_bind {S} : MBind (St S) := fun A B k m s =>
  match m s with
  | (Py.Ok a, s') => k a s'
  | (Py.Raise e, s') => (Py.Raise e, s')
  end.

(** [raise e] *)
Definition raise {S A} (e : Py.exn) : St S A := fun s => (Py.Raise e, s).

(** [try: body except Exception as e: handler(e)] *)
Definition try_except {S A} (body : St S A) (handler : Py.exn -> St S A) : St S A :=
  fun s =>
    match body s with
    | (Py.Ok a, s') => (Py.Ok a, s')
    | (Py.Raise e, s') => handler e s'
    end.

Module Random.

(** A state [S] that carries a random source.  [uniform] and [randint]
    return a float and an integer for the given bounds; the float, drawn
    between finite bounds, is finite and is given as the rational it
    denotes.  [randbelow n] is the position that [choice] draws in a
    sequence of length [n]; [choices weights] is the position that
    [choices(population, weights, k=1)] draws. *)
Class Source (S : Type) : Type := {
  draw_randint : Z -> Z -> S -> Z * S;
  draw_uniform : Q -> Q -> S -> Q * S;
  randbelow : nat -> S -> nat * S;
  draw_choices : list Z -> S -> nat * S;
  draw_uuid4 : S -> string * S;
  randbelow_lt : forall n s, (0 < n)%nat -> ((randbelow n s).1 < n)%nat;
  draw_choices_lt : forall w s, (0 < length w)%nat -> ((draw_choices w s).1 < length w)%nat
}.

Section Functions.

Context {S : Type} `{Source S}.

Definition randint (a b : Z) : St S Z :=
  fun s => let '(n, s') := draw_randint a b s in (Py.Ok n, s').

Definition uniform (a b : Q) : St S Q :=
  fun s => let '(x, s') := draw_uniform a b s in (Py.Ok x, s').

Definition uuid4 : St S string :=
  fun s => let '(u, s') := draw_uuid4 s in (Py.Ok u, s').

(** [random.choice(seq)], which raises [IndexError] on an empty
    sequence *)
Definition choice {A} (seq : list A) : St S A :=
  match seq with
  | [] => raise (Py.IndexError "Cannot choose from an empty sequence")
  | _ =>
      fun s =>
        let '(i, s') := randbelow (length seq) s in
        match seq !! i with
        | Some x => (Py.Ok x, s')
        | None => (Py.Raise (Py.IndexError "list index out of range"), s')
        end
  end.

(** [random.choices(population, weights=weights, k=1)[0]] *)
Definition choices {A} (population : list A) (weights : list Z) : St S A :=
  fun s =>
    let '(i, s') := draw_choices weights s in
    match population !! i with
    | Some x => (Py.Ok x, s')
    | None => (Py.Raise (Py.IndexError "list index out of range"), s')
    end.

End Functions.

(** [round(x)] to the nearest integer, ties to even *)
Definition round_half_even (x : Q) : Z :=
  let n := Qnum x in
  let d := Zpos (Qden x) in
  let q := (n / d)%Z in
  match (2 * (n mod d) ?= d)%Z with
  | Lt => q
  | Gt => (q + 1)%Z
  | Eq => if Z.even q then q else (q + 1)%Z
  end.

(** [round(x, ndigits)], as the decimal it denotes *)
Definition round (x : Q) (ndigits : nat) : Q :=
  Qmake (round_half_even (x * inject_Z (10 ^ Z.of_nat ndigits))%Q)
        (Z.to_pos (10 ^ Z.of_nat ndigits)).

End Random.

(** A value of a generated record: a number or a string. *)
Inductive pyval : Type :=
| VNum (n : Py.pynum)
| VStr (s : string).

Definition VInt (z : Z) : pyval := VNum (Py.PInt z).
Definition VFloat (q : Q) : pyval := VNum (Py.PFloat (Py.Finite q)).

(** [isinstance(v, (int, float)) and math.isfinite(v)] *)
Definition finite_number (v : pyval) : bool :=
  match v with
  | VNum n => Py.isfinite n
  | VStr _ => false
  end.

Section DictLiteral.

Context {S : Type}.

(** A dictionary literal [{key: expression, ...}]: the expressions are
    evaluated in the order in which they are written. *)
Fixpoint dict_literal (entries : list (string * St S pyval))
    : St S (list (string * pyval)) :=
  match entries with
  | [] => mret []
  | (key, expression) :: rest =>
      v ← expression;
      d ← dict_literal rest;
      mret ((key, v) :: d)
  end.

Context `{Random.Source S}.

(** [round(random.uniform(a, b), ndigits)] *)
Definition round_uniform (a b : Q) (ndigits : nat) : St S pyval :=
  x ← Random.uniform a b; mret (VFloat (Random.round x ndigits)).

(** [random.uniform(a, b)] *)
Definition uniform (a b : Q) : St S pyval :=
  x ← Random.uniform a b; mret (VFloat x).

(** [random.randint(a, b)] *)
Definition randint (a b : Z) : St S pyval :=
  n ← Random.randint a b; mret (VInt n).

End DictLiteral.

(** ** routes/rca_type2.py *)

Module RcaType2.

Import Py.

(** The dictionary that a check returns, without the text of its report:
    a check that passes has no ['anomaly_type'] and no ['severity']. *)
Record Check : Type := mkCheck {
  anomaly_detected : bool;
  anomaly_type : option string;
  severity : option string
}.

Definition passed : Check := mkCheck false None None.

Definition detected (anomaly_type severity : string) : Check :=
  mkCheck true (Some anomaly_type) (Some severity).

(** What [run_troubleshooting_simulation] returns, without the text. *)
Record Troubleshooting : Type := mkTroubleshooting {
  found : option string;
  found_severity : string
}.

Section WithSource.

Context {S : Type} `{Random.Source S}.

(** [check_latency] *)
Definition check_latency : St S Check :=
  avg_latency ← Random.uniform 1 200;
  if Qgtb avg_latency 100
  then mret (detected "high_latency" (if Qgtb avg_latency 150 then "high" else "medium"))
  else mret passed.

(** [check_error_rates] *)
Definition check_error_rates : St S Check :=
  error_rate ← Random.uniform 0 10;
  if Qgtb error_rate 2
  then mret (detected "high_error_rates" (if Qgtb error_rate 5 then "high" else "medium"))
  else mret passed.

(** [check_connectivity] *)
Definition check_connectivity : St S Check :=
  connectivity_success ← Random.choice [true; true; true; false];
  if negb connectivity_success
  then mret (detected "connectivity_issues" "high")
  else mret passed.

(** [check_packet_loss] *)
Definition check_packet_loss : St S Check :=
  packet_loss ← Random.uniform 0 15;
  if Qgtb packet_loss 3
  then mret (detected "packet_loss" (if Qgtb packet_loss 8 then "high" else "medium"))
  else mret passed.

(** [check_interface_flapping] *)
Definition check_interface_flapping : St S Check :=
  flapping_detected ← Random.choice [false; false; false; true];
  if flapping_detected : bool
  then interface ← Random.choice ["GigabitEthernet0/1"; "FastEthernet1/0"; "eth0"];
       mret (detected "flapping_links" "medium")
  else mret passed.

(** [run_troubleshooting_simulation]: the five checks are all run, in this
    order, and the first that detected an anomaly is reported. *)
Definition run_troubleshooting_simulation : St S Troubleshooting :=
  try_except
    (latency ← check_latency;
     error_rates ← check_error_rates;
     connectivity ← check_connectivity;
     packet_loss ← check_packet_loss;
     flapping ← check_interface_flapping;
     let checks := [latency; error_rates; connectivity; packet_loss; flapping] in
     match List.find anomaly_detected checks with
     | Some check =>
         mret (mkTroubleshooting (anomaly_type check) (default EmptyString (severity check)))
     | None => mret (mkTroubleshooting None "normal")
     end)
    (fun e => mret (mkTroubleshooting None "error")).

End WithSource.

(** A check passed, or detected the anomaly type [category]. *)
Definition reports (category : string) (check : Check) : Prop :=
  check = passed ∨ ∃ severity, check = detected category severity.

(** The [anomaly_type] values of the five checks, in the order of the
    checks. *)
Definition check_anomaly_types : list string :=
  [ "high_latency"; "high_error_rates"; "connectivity_issues";
    "packet_loss"; "flapping_links" ].

End RcaType2.

(** ** app.py: [generate_realistic_features] *)

Module Features.

Section WithSource.

Context {S : Type} `{Random.Source S}.

(** [generate_realistic_features] *)
Definition generate_realistic_features : St S (list (string * pyval)) :=
  dict_literal
    [ ("Flow Duration", round_uniform 0.1 30.0 3);
      ("Total Fwd Packets", randint 1 1000);
      ("Total Backward Packets", randint 1 500);
      ("Total Length of Fwd Packets", randint 64 65535);
      ("Total Length of Bwd Packets", randint 64 32768);
      ("Fwd Packet Length Max", round_uniform 64 1500 2);
      ("Fwd Packet Length Mean", round_uniform 200 1000 2);
      ("Fwd Packet Length Std", round_uniform 50 300 2);
      ("Bwd Packet Length Max", round_uniform 64 1500 2);
      ("Bwd Packet Length Mean", round_uniform 200 800 2);
      ("Bwd Packet Length Std", round_uniform 50 250 2);
      ("Flow Bytes/s", round_uniform 100 10000000 2);
      ("Flow Packets/s", round_uniform 1 10000 2);
      ("Flow IAT Mean", round_uniform 0.001 5.0 4);
      ("Flow IAT Std", round_uniform 0.001 2.0 4);
      ("Flow IAT Max", round_uniform 0.1 10.0 3);
      ("Flow IAT Min", round_uniform 0.0001 0.1 4);
      ("Fwd IAT Total", round_uniform 0.1 100.0 3);
      ("Fwd Header Length", round_uniform 20 60 2);
      ("Bwd Header Length", round_uniform 20 60 2);
      ("Min Packet Length", round_uniform 64 200 2);
      ("Max Packet Length", round_uniform 1000 1500 2);
      ("Packet Length Mean", round_uniform 300 800 2);
      ("Packet Length Std", round_uniform 100 400 2);
      ("Packet Length Variance", round_uniform 10000 160000 2);
      ("ACK Flag Count", randint 0 100);
      ("Down/Up Ratio", round_uniform 0.1 5.0 3);
      ("Average Packet Size", round_uniform 200 1200 2);
      ("Avg Bwd Segment Size", round_uniform 200 1000 2);
      ("Subflow Fwd Bytes", randint 64 65535);
      ("Init_Win_bytes_forward", randint 8192 65536);
      ("Init_Win_bytes_backward", randint 8192 65536);
      ("Idle Mean", round_uniform 0.1 10.0 3);
      ("Idle Max", round_uniform 1.0 50.0 3);
      ("Idle Min", round_uniform 0.01 1.0 4) ].

End WithSource.

End Features.

(** ** utils/data_generator.py *)

Module DataGenerator.

(** The fields of a [DataGenerator] that [_generate_network_row] reads. *)
Record t : Type := mk {
  device_ips : list string;
  vlan_ips : list string
}.

(** The five columns of network metadata that precede the flow features. *)
Definition metadata_columns : list string :=
  [ "Timestamp"; "Src IP"; "Dst IP"; "Src Port"; "Dst Port" ].

Section WithSource.

Context {S : Type} `{Random.Source S}.

(** [_generate_network_row]; [timestamp] is the text
    [datetime.now().isoformat()] *)
Definition _generate_network_row (self : t) (timestamp : string)
    : St S (list (string * pyval)) :=
  let all_ips := (device_ips self ++ vlan_ips self)%list in
  let all_ips :=
    if bool_decide (length all_ips < 2)%nat
    then ["192.168.1.1"; "192.168.1.2"; "192.168.10.1"; "192.168.20.1"]
    else all_ips in
  src_ip ← Random.choice all_ips;
  dst_ip ← Random.choice (filter (fun ip => ip ≠ src_ip) all_ips);
  base_packets ← Random.randint 1 1000;
  per_packet ← Random.randint 64 1500;
  let base_bytes := (base_packets * per_packet)%Z in
  flow_duration ← Random.randint 1000 300000000;
  dict_literal
    [ ("Timestamp", mret (VStr timestamp));
      ("Src IP", mret (VStr src_ip));
      ("Dst IP", mret (VStr dst_ip));
      ("Src Port", randint 1024 65535);
      ("Dst Port", Random.choice (VInt <$> [80; 443; 22; 25; 53; 21; 23; 993; 995]%Z));
      ("Flow Duration", mret (VInt flow_duration));
      ("Total Fwd Packets", mret (VInt base_packets));
      ("Total Backward Packets", randint 1 base_packets);
      ("Total Length of Fwd Packets", mret (VInt base_bytes));
      ("Total Length of Bwd Packets", randint 64 base_bytes);
      ("Fwd Packet Length Max", randint 64 1500);
      ("Fwd Packet Length Mean", randint 64 800);
      ("Fwd Packet Length Std", uniform 0 100);
      ("Bwd Packet Length Max", randint 64 1500);
      ("Bwd Packet Length Mean", randint 64 800);
      ("Bwd Packet Length Std", uniform 0 100);
      ("Flow Bytes/s", uniform 100 1000000);
      ("Flow Packets/s", uniform 1 1000);
      ("Flow IAT Mean", uniform 0 10000);
      ("Flow IAT Std", uniform 0 5000);
      ("Flow IAT Max", uniform 0 50000);
      ("Flow IAT Min", uniform 0 1000);
      ("Fwd IAT Total", uniform 0 100000);
      ("Fwd Header Length", randint 20 100);
      ("Bwd Header Length", randint 20 100);
      ("Min Packet Length", mret (VInt 64));
      ("Max Packet Length", randint 64 1500);
      ("Packet Length Mean", randint 64 800);
      ("Packet Length Std", uniform 0 200);
      ("Packet Length Variance", uniform 0 40000);
      ("ACK Flag Count", randint 0 base_packets);
      ("Down/Up Ratio", uniform 0 10);
      ("Average Packet Size", randint 64 800);
      ("Avg Bwd Segment Size", randint 0 800);
      ("Subflow Fwd Bytes", randint 0 base_bytes);
      ("Init_Win_bytes_forward", randint 0 65535);
      ("Init_Win_bytes_backward", randint 0 65535);
      ("Idle Mean", uniform 0 10000);
      ("Idle Max", uniform 0 50000);
      ("Idle Min", uniform 0 1000) ].

End WithSource.

End DataGenerator.

(** ** app.py: the generation batch *)

Module App.

Import Py.

(** A row of the [events] table of app.py. *)
Module Event.
Record t : Type := mk {
  id : Z;
  log_id : string;
  timestamp : Z;
  src_ip : string;
  dst_ip : string;
  src_port : Z;
  dst_port : Z;
  status : string;
  features : list (string * pyval);
  created_at : Z
}.
End Event.

(** A row of the [responses] table of app.py. *)
Module Response.
Record t : Type := mk {
  id : Z;
  log_id : string;
  anomaly_id : string;
  timestamp : Z;
  src_ip : string;
  dst_ip : string;
  src_port : Z;
  dst_port : Z;
  anomaly_type1 : string;
  anomaly_type2 : string;
  res_type1 : string;
  res_type2 : string;
  features : list (string * pyval);
  confidence_score : Q;
  execution_time : Q;
  status : string;
  created_at : Z
}.
End Response.

(** The messages given to [socketio.emit]. *)
Inductive Emitted : Type :=
| new_event (e : Event.t)
| new_response (r : Response.t).

(** The database: the committed rows, the number of commits attempted so
    far, and which of the attempts raise. *)
Record Db : Type := mkDb {
  events : list Event.t;
  responses : list Response.t;
  commits : nat;
  commit_raises : nat -> bool
}.

(** The process: its random source, the clock, the database, the messages
    emitted and the lines printed. *)
Record World (rng : Type) : Type := mkWorld {
  random_state : rng;
  clock : Z;
  db : Db;
  emitted : list Emitted;
  printed : list string
}.
Arguments mkWorld {rng}.
Arguments random_state {rng}.
Arguments clock {rng}.
Arguments db {rng}.
Arguments emitted {rng}.
Arguments printed {rng}.

Section WithSource.

Context {rng : Type} `{Random.Source rng}.

Definition with_random {A} (f : rng -> A * rng) (w : World rng) : A * World rng :=
  let '(a, s) := f (random_state w) in
  (a, mkWorld s (clock w) (db w) (emitted w) (printed w)).

#[global, refine] Instance world_source : Random.Source (World rng) := {|
  Random.draw_randint a b := with_random (Random.draw_randint a b);
  Random.draw_uniform a b := with_random (Random.draw_uniform a b);
  Random.randbelow n := with_random (Random.randbelow n);
  Random.draw_choices weights := with_random (Random.draw_choices weights);
  Random.draw_uuid4 := with_random Random.draw_uuid4
|}.
Proof.
  - intros n w Hn. unfold with_random.
    pose proof (Random.randbelow_lt n (random_state w) Hn) as Hlt.
    destruct (Random.randbelow n (random_state w)). exact Hlt.
  - intros weights w Hn. unfold with_random.
    pose proof (Random.draw_choices_lt weights (random_state w) Hn) as Hlt.
    destruct (Random.draw_choices weights (random_state w)). exact Hlt.
Defined.

(** [datetime.now(SRI_LANKA_TZ)] and [datetime.utcnow()] *)
Definition now : St (World rng) Z := fun w => (Ok (clock w), w).

Definition emit (m : Emitted) : St (World rng) unit :=
  fun w => (Ok tt, mkWorld (random_state w) (clock w) (db w)
                     (emitted w ++ [m])%list (printed w)).

Definition print (line : string) : St (World rng) unit :=
  fun w => (Ok tt, mkWorld (random_state w) (clock w) (db w)
                     (emitted w) (printed w ++ [line])%list).

(** [db.session.add(row); db.session.commit()]: the commit either
    raises, and nothing is written, or writes the row; [write] gives the
    row as it is stored and the tables with it. *)
Definition add_commit {A} (write : Db -> A * Db) : St (World rng) A :=
  fun w =>
    let d := db w in
    let attempted := mkDb (events d) (responses d) (S (commits d)) (commit_raises d) in
    if commit_raises d (commits d) then
      (Raise (DatabaseError "commit failed"),
       mkWorld (random_state w) (clock w) attempted (emitted w) (printed w))
    else
      let '(row, d') := write attempted in
      (Ok row, mkWorld (random_state w) (clock w) d' (emitted w) (printed w)).

(** [db.session.rollback()]: the rows of a failed commit were never
    written *)
Definition rollback : St (World rng) unit := mret tt.

Definition next_event_id (rows : list Event.t) : Z :=
  (1 + foldr (fun r m => Z.max (Event.id r) m) 0 rows)%Z.

Definition next_response_id (rows : list Response.t) : Z :=
  (1 + foldr (fun r m => Z.max (Response.id r) m) 0 rows)%Z.

Definition save_event (row : Z -> Event.t) : St (World rng) Event.t :=
  add_commit (fun d =>
    let e := row (next_event_id (events d)) in
    (e, mkDb (events d ++ [e])%list (responses d) (commits d) (commit_raises d))).

Definition save_response (row : Z -> Response.t) : St (World rng) Response.t :=
  add_commit (fun d =>
    let r := row (next_response_id (responses d)) in
    (r, mkDb (events d) (responses d ++ [r])%list (commits d) (commit_raises d))).

(** [self.network_devices], each group in the order of its literal *)
Definition routers : list (string * list string) :=
  [ ("CORE-RO-1", ["192.168.60.2"; "192.168.60.14"; "192.168.60.17";
                   "192.168.60.25"; "192.168.60.29"; "192.168.61.1"]);
    ("CORE-RO-2", ["192.168.60.6"; "192.168.60.10"; "192.168.60.21";
                   "192.168.60.26"; "192.168.60.30"]);
    ("DT-RO-1", ["192.168.60.1"; "192.168.60.5"]);
    ("DT-RO-2", ["192.168.60.9"; "192.168.60.13"]);
    ("EDGE-FW", ["192.168.60.18"; "192.168.60.22"; "192.168.137.2"]) ].

Definition end_devices : list (string * list string) :=
  [ ("VLAN10", ["192.168.10.1"; "192.168.10.2"]);
    ("VLAN20", ["192.168.20.1"; "192.168.20.2"]);
    ("VLAN30", ["192.168.30.1"; "192.168.30.2"]);
    ("VLAN40", ["192.168.40.1"; "192.168.40.2"]);
    ("Ubuntu", ["192.168.61.2"]) ].

(** [get_all_ips] *)
Definition get_all_ips : list string :=
  (concat (snd <$> routers) ++ concat (snd <$> end_devices))%list.

Definition anomaly_type1_list : list string :=
  [ "bandwidth_saturation"; "throughput_anomaly"; "unusual_header_length";
    "unusual_packet_size"; "unusual_flow_duration" ].

Definition anomaly_type2_list : list string :=
  [ "high_latency"; "high_error_rates"; "flapping_links";
    "connectivity_issues"; "high_packet_loss" ].

(** [self.response_types] *)
Definition response_types : gmap string (gmap string (list string)) :=
  <[ "type1" :=
       <[ "bandwidth_saturation" := ["qos_adjustment"; "traffic_shaping"; "load_balancing"] ]>
       (<[ "throughput_anomaly" := ["interface_optimization"; "buffer_tuning"; "mtu_adjustment"] ]>
       (<[ "unusual_header_length" := ["header_compression"; "protocol_optimization"] ]>
       (<[ "unusual_packet_size" := ["fragmentation_fix"; "mss_clamping"] ]>
       (<[ "unusual_flow_duration" := ["timeout_adjustment"; "session_optimization"] ]> ∅)))) ]>
  (<[ "type2" :=
       <[ "high_latency" := ["route_optimization"; "interface_reset"; "priority_queuing"] ]>
       (<[ "high_error_rates" := ["interface_diagnostics"; "cable_check"; "duplex_fix"] ]>
       (<[ "flapping_links" := ["interface_stabilization"; "dampening_config"] ]>
       (<[ "connectivity_issues" := ["routing_table_refresh"; "arp_clear"; "interface_bounce"] ]>
       (<[ "high_packet_loss" := ["buffer_increase"; "congestion_control"; "interface_optimization"] ]> ∅)))) ]> ∅).

(** A dictionary subscript inside stateful code. *)
Definition subscript {V} (d : gmap string V) (k : string) : St (World rng) V :=
  fun w => (index d k, w).

(** [generate_and_save_response] *)
Definition generate_and_save_response (event : Event.t)
    (features : list (string * pyval)) : St (World rng) unit :=
  try_except
    (anomaly_type1 ← Random.choice anomaly_type1_list;
     anomaly_type2 ← Random.choice anomaly_type2_list;
     type1 ← subscript response_types "type1";
     candidates1 ← subscript type1 anomaly_type1;
     res_type1 ← Random.choice candidates1;
     type2 ← subscript response_types "type2";
     candidates2 ← subscript type2 anomaly_type2;
     res_type2 ← Random.choice candidates2;
     let re_features :=
       filter (fun kv => kv.1 ∈ Config.RCA_TYPE1_FEATURES) features in
     anomaly_id ← Random.uuid4;
     utcnow ← now;
     seconds ← Random.randint 1 30;
     confidence ← Random.uniform 0.7 0.99;
     execution ← Random.uniform 0.5 5.0;
     status ← Random.choice ["success"; "partial"; "failed"];
     created ← now;
     response ← save_response (fun id =>
       Response.mk id (Event.log_id event) anomaly_id
         (utcnow + seconds * 1000000)%Z
         (Event.src_ip event) (Event.dst_ip event)
         (Event.src_port event) (Event.dst_port event)
         anomaly_type1 anomaly_type2 res_type1 res_type2 re_features
         (Random.round confidence 3) (Random.round execution 2) status created);
     _ ← emit (new_response response);
     print ("Generated response: " ++ anomaly_type1 ++ " + " ++ anomaly_type2
            ++ " -> " ++ res_type1 ++ " + " ++ res_type2))
    (fun e =>
       _ ← print ("Error generating response: " ++ TriggerResponse.str e);
       rollback).

(** [for _ in range(n): body] *)
Fixpoint for_range (n : nat) (body : St (World rng) unit) : St (World rng) unit :=
  match n with
  | O => mret tt
  | S n' => _ ← body; for_range n' body
  end.

(** The body of the loop of [generate_and_save_events]: one event. *)
Definition generate_one_event (all_ips : list string) : St (World rng) unit :=
  src_ip ← Random.choice all_ips;
  dst_ip ← Random.choice (filter (fun ip => ip ≠ src_ip) all_ips);
  src_port ← Random.randint 1024 65535;
  dst_port ← Random.choice [22; 23; 53; 80; 443; 993; 995; 3306; 5432; 8080]%Z;
  status ← Random.choices ["normal"; "anomalous"] [75; 25]%Z;
  features ← Features.generate_realistic_features;
  log_id ← Random.uuid4;
  stamp ← now;
  event ← save_event (fun id =>
    Event.mk id log_id stamp src_ip dst_ip src_port dst_port status features stamp);
  _ ← emit (new_event event);
  _ ← (if decide (status = "anomalous")
       then generate_and_save_response event features
       else mret tt);
  print ("Generated event: " ++ src_ip ++ ":" ++ pretty src_port ++ " -> "
         ++ dst_ip ++ ":" ++ pretty dst_port ++ " (" ++ status ++ ")").

(** [generate_and_save_events]: the [try] encloses the whole loop *)
Definition generate_and_save_events : St (World rng) unit :=
  try_except
    (let all_ips := get_all_ips in
     num_events ← Random.randint 3 8;
     for_range (Z.to_nat num_events) (generate_one_event all_ips))
    (fun e =>
       _ ← print ("Error generating events: " ++ TriggerResponse.str e);
       rollback).

End WithSource.

End App.

(** ** routes/preprocess.py *)

Module Preprocess.

Import Py.

(** A row of the data frame, with what the helpers that catch their own
    exceptions return for it: [_extract_metadata(row)],
    [_extract_important_features(row)], [generate_log_id()] and, of
    [_forward_to_prediction], [None] or the ['is_anomalous'] entry of the
    prediction.  [session_closed] tells whether the calls below
    [_forward_to_prediction] have closed the session of the thread: the
    [scoped_session] of db/database.py gives every [get_db_session()] of a
    thread the same session, and [trigger_response1_internal],
    [analyze_network_troubleshooting] and [trigger_response2_internal]
    close it with [close_db_session(session)].  A prediction that finds
    the flow anomalous has run [analyze_network_troubleshooting], which
    closes the session unless an exception is raised before it does. *)
Record Row : Type := mkRow {
  timestamp : Z;
  src_ip : string;
  dst_ip : string;
  src_port : option Z;
  dst_port : option Z;
  imp_features : gmap string pynum;
  log_id : string;
  prediction_result : option bool;
  session_closed : bool
}.

(** The session, the two counters of [process_csv_file] and the lines given
    to [logger.error]. *)
Record State : Type := mkState {
  events : list Event.t;
  commits : nat;
  commit_raises : nat -> bool;
  processed_count : nat;
  anomaly_count : nat;
  logged : list string
}.

(** [session.commit()] of the pending change [write] *)
Definition commit (write : list Event.t -> list Event.t) : St State unit :=
  fun s =>
    if commit_raises s (commits s) then
      (Raise (DatabaseError "commit failed"),
       mkState (events s) (S (commits s)) (commit_raises s)
         (processed_count s) (anomaly_count s) (logged s))
    else
      (Ok tt,
       mkState (write (events s)) (S (commits s)) (commit_raises s)
         (processed_count s) (anomaly_count s) (logged s)).

Definition count_anomaly : St State unit :=
  fun s => (Ok tt, mkState (events s) (commits s) (commit_raises s)
                     (processed_count s) (S (anomaly_count s)) (logged s)).

Definition count_processed : St State unit :=
  fun s => (Ok tt, mkState (events s) (commits s) (commit_raises s)
                     (S (processed_count s)) (anomaly_count s) (logged s)).

Definition log_error (line : string) : St State unit :=
  fun s => (Ok tt, mkState (events s) (commits s) (commit_raises s)
                     (processed_count s) (anomaly_count s) (logged s ++ [line])%list).

Definition next_id (rows : list Event.t) : Z :=
  (1 + foldr (fun r m => Z.max (Event.id r) m) 0 rows)%Z.

(** [event.is_anomalous = True] on the row with primary key [id] *)
Definition mark_anomalous (id : Z) (rows : list Event.t) : list Event.t :=
  (fun e =>
     if bool_decide (Event.id e = id)
     then Event.mk (Event.id e) (Event.log_id e) (Event.timestamp e) (Event.src_ip e)
            (Event.dst_ip e) (Event.src_port e) (Event.dst_port e) true
     else e) <$> rows.

(** The [try] block of the loop of [process_csv_file].  A session that
    has been closed has detached [event]: the assignment
    [event.is_anomalous = True] then changes the object only, and the
    [session.commit()] that follows has nothing to store. *)
Definition save_and_predict (row : Row) : St State unit :=
  fun s =>
    let id := next_id (events s) in
    let event := Event.mk id (log_id row) (timestamp row) (src_ip row) (dst_ip row)
                   (src_port row) (dst_port row) false in
    (_ ← commit (fun rows => rows ++ [event])%list;
     _ ← (if bool_decide (prediction_result row = Some true)
          then _ ← count_anomaly;
               commit (if session_closed row then (fun rows => rows)
                       else mark_anomalous id)
          else mret tt);
     count_processed) s.

(** The body of the loop of [process_csv_file]: the [try] block and its
    [except] clause, which logs, rolls back and continues. *)
Definition process_row (row : Row) : St State unit :=
  try_except (save_and_predict row)
    (fun e => log_error ("Error processing row: " ++ TriggerResponse.str e)).

(** [for _, row in df.iterrows(): ...] *)
Fixpoint for_rows (rows : list Row) : St State unit :=
  match rows with
  | [] => mret tt
  | row :: rest => _ ← process_row row; for_rows rest
  end.

(** The dictionaries that [process_csv_file] returns. *)
Inductive Summary : Type :=
| Processed (processed_count anomaly_count : nat)
| Failed (error : string).

(** The counters as the returned dictionary reports them. *)
Definition summary : St State Summary :=
  fun s => (Ok (Processed (processed_count s) (anomaly_count s)), s).

(** [process_csv_file]; [read_csv] is the outcome of
    [pd.read_csv(file_path)] *)
Definition process_csv_file (read_csv : result (list Row)) (s : State) : Summary * State :=
  let body : St State Summary :=
    df ← ((fun s => (read_csv, s)) : St State (list Row));
    _ ← for_rows df;
    summary in
  match body (mkState (events s) (commits s) (commit_raises s) 0 0 (logged s)) with
  | (Ok result, s') => (result, s')
  | (Raise e, s') =>
      (Failed (TriggerResponse.str e),
       mkState (events s') (commits s') (commit_raises s') (processed_count s')
         (anomaly_count s')
         (logged s' ++ [("Error processing CSV file: " ++ TriggerResponse.str e)%string])%list)
  end.

End Preprocess.

(** ** A scripted random source *)

Module Scripted.

(** A source whose state counts the draws made and whose draws follow a
    script: at draw [n] an integer or a float is the lower bound when
    [script n] is zero and the upper bound otherwise, and a position is
    [script n] modulo the length of the sequence. *)
Record t : Type := mk {
  draws : nat;
  script : nat -> nat
}.

Definition step (s : t) : t := mk (S (draws s)) (script s).

Definition level (s : t) : nat := script s (draws s).

#[global, refine] Instance source : Random.Source t := {|
  Random.draw_randint a b s := (if level s is O then a else b, step s);
  Random.draw_uniform a b s := (if level s is O then a else b, step s);
  Random.randbelow n s := (level s mod n, step s)%nat;
  Random.draw_choices weights s := (level s mod length weights, step s)%nat;
  Random.draw_uuid4 s := ("uuid-" ++ pretty (draws s), step s)
|}.
Proof.
  - intros n s Hn. cbn. apply Nat.mod_upper_bound. lia.
  - intros w s Hn. cbn. apply Nat.mod_upper_bound. lia.
Defined.

End Scripted.

(** ** Sample data *)

Module Samples.

Import TriggerResponse.

Definition event1 : Event.t :=
  Event.mk 1 "log_20240101_000000_ab12cd34" 1704067200000000
    "192.168.10.1" "192.168.60.1" (Some 40000%Z) (Some 443%Z) true.

(** A store in which the event is recorded and no response exists yet. *)
Definition session0 : Store := mkStore [event1] [].

(** The text of a [DetachedInstanceError]. *)
Definition detached : string :=
  "Instance <Response at 0x7f3a5c1d2e80> is not bound to a Session; attribute refresh operation cannot proceed (Background on this error at: https://sqlalche.me/e/20/bhk3)".

(** Stage 1 succeeds: position 0 of [[True] * 9 + [False]]. *)
Definition sim1_success : Sim :=
  mkSim "anomaly_20240101_000001_0000aaaa" 1704067201000000 0 1500 detached.

(** Stage 1 fails: position 9 of [[True] * 9 + [False]]. *)
Definition sim1_failure : Sim :=
  mkSim "anomaly_20240101_000001_0000bbbb" 1704067201000000 9 1500 detached.

(** Stage 2 succeeds: position 0 of [[True] * 85 + [False] * 15]. *)
Definition sim2_success : Sim :=
  mkSim "anomaly_20240101_000002_0000cccc" 1704067205000000 0 4200 detached.

(** Stage 2 fails: position 90 of [[True] * 85 + [False] * 15]. *)
Definition sim2_failure : Sim :=
  mkSim "anomaly_20240101_000002_0000dddd" 1704067205000000 90 4200 detached.

Definition re_features1 : gmap string Py.pynum :=
  RcaType1.test_features 2000000 2000 1000 1000.

(** The store after Stage 1 has written its row for [event1]. *)
Definition session1 : Store :=
  (trigger_response1_internal sim1_success (Event.log_id event1)
     "bandwidth_saturation" re_features1 session0).2.

(** The row that Stage 1 has written. *)
Definition row1 : Response.t :=
  Response.set_features re_features1
    (Response.mk 1 (Event.log_id event1) (generated_anomaly_id sim1_success)
       (utcnow sim1_success) (Event.src_ip event1) (Event.dst_ip event1)
       (Event.src_port event1) (Event.dst_port event1)
       (Some "bandwidth_saturation") None (Some "bandwidth_optimization")
       None None true (Some 1500%Z)).

(** The process of app.py before a batch: an empty database whose commits
    raise as [commit_raises] says, and a scripted source. *)
Definition world (script : nat -> nat) (commit_raises : nat -> bool)
    : App.World Scripted.t :=
  App.mkWorld (Scripted.mk 0 script) 0 (App.mkDb [] [] 0 commit_raises) [] [].

(** Every draw is the lower bound or the first position: batches of three
    flows, none anomalous. *)
Definition lowest (n : nat) : nat := 0.

(** Every draw is the upper bound or the second position: batches of eight
    flows, all anomalous. *)
Definition second (n : nat) : nat := 1.

(** The draw [k] is the upper bound or the last of four positions, the
    others are the lowest. *)
Definition only (k n : nat) : nat := if bool_decide (n = k) then 3%nat else 0%nat.

(** Only the second commit raises. *)
Definition second_commit_raises (n : nat) : bool := bool_decide (n = 1%nat).

(** Three rows of a data frame and a session for [process_csv_file]. *)
Definition frame : list Preprocess.Row :=
  [ Preprocess.mkRow 0 "192.168.1.1" "192.168.1.2" (Some 1024%Z) (Some 80%Z) ∅
      "log_a" (Some false) false;
    Preprocess.mkRow 0 "192.168.1.2" "192.168.10.1" (Some 1025%Z) (Some 443%Z) ∅
      "log_b" (Some false) false;
    Preprocess.mkRow 0 "192.168.10.1" "192.168.20.1" (Some 1026%Z) (Some 22%Z) ∅
      "log_c" (Some true) true ].

Definition csv_session (commit_raises : nat -> bool) : Preprocess.State :=
  Preprocess.mkState [] 0 commit_raises 0 0 [].

End Samples.

(** ** config.py: the network topology *)

Module Topology.

(** An entry of [Config.NETWORK_DEVICES]: the three keys that every entry
    of the table has, the interfaces in the order of their dictionary. *)
Record Device : Type := mkDevice {
  type : string;
  management_ip : string;
  interfaces : list (string * string)
}.

(** An entry of [Config.VLANS]. *)
Record Vlan : Type := mkVlan {
  subnet : string;
  gateway : string;
  devices : list string;
  switch : string;
  router : string
}.

(** [Config.NETWORK_DEVICES], in the order of the dictionary *)
Definition NETWORK_DEVICES : list (string * Device) :=
  [ ("CORE-RO-1", mkDevice "cisco_router" "192.168.61.1"
       [ ("FastEthernet0/0", "192.168.60.2"); ("FastEthernet1/0", "192.168.60.14");
         ("FastEthernet1/1", "192.168.60.17"); ("FastEthernet2/0", "192.168.60.25");
         ("FastEthernet2/1", "192.168.60.29"); ("FastEthernet3/0", "192.168.61.1") ]);
    ("CORE-RO-2", mkDevice "cisco_router" "192.168.60.26"
       [ ("FastEthernet1/0", "192.168.60.6"); ("FastEthernet0/0", "192.168.60.10");
         ("FastEthernet1/1", "192.168.60.21"); ("FastEthernet2/0", "192.168.60.26");
         ("FastEthernet2/1", "192.168.60.30") ]);
    ("DT-RO-1", mkDevice "cisco_router" "192.168.60.1"
       [ ("FastEthernet1/0", "192.168.60.1"); ("FastEthernet1/1", "192.168.60.5") ]);
    ("DT-RO-2", mkDevice "cisco_router" "192.168.60.9"
       [ ("FastEthernet1/0", "192.168.60.9"); ("FastEthernet1/1", "192.168.60.13") ]);
    ("EDGE-FW", mkDevice "cisco_asa" "192.168.60.18"
       [ ("GigabitEthernet0/0", "192.168.60.18"); ("GigabitEthernet0/1", "192.168.60.22");
         ("GigabitEthernet0/2", "192.168.137.2") ]);
    ("Ubuntu-Gateway", mkDevice "linux_server" "192.168.61.2"
       [ ("eth0", "192.168.61.2") ]) ].

(** [Config.VLANS] *)
Definition VLANS : list (string * Vlan) :=
  [ ("VLAN10", mkVlan "192.168.10.0/24" "192.168.10.1"
       ["192.168.10.1"; "192.168.10.2"] "AC-SW-1" "DT-RO-1");
    ("VLAN20", mkVlan "192.168.20.0/24" "192.168.20.1"
       ["192.168.20.1"; "192.168.20.2"] "AC-SW-2" "DT-RO-1");
    ("VLAN30", mkVlan "192.168.30.0/24" "192.168.30.1"
       ["192.168.30.1"; "192.168.30.2"] "AC-SW-3" "DT-RO-2");
    ("VLAN40", mkVlan "192.168.40.0/24" "192.168.40.1"
       ["192.168.40.1"; "192.168.40.2"] "AC-SW-4" "DT-RO-2") ].

(** The test that the loop of [get_device_by_ip] makes on one device: the
    management address, then each interface address. *)
Definition has_address (ip_address : string) (device_config : Device) : bool :=
  bool_decide (management_ip device_config = ip_address)
  || bool_decide (ip_address ∈ (interfaces device_config).*2).

(** [get_device_by_ip] on the table [network_devices]; [None] stands for
    the pair [(None, None)]. *)
Definition get_device_by_ip (network_devices : list (string * Device))
    (ip_address : string) : option (string * Device) :=
  List.find (fun entry => has_address ip_address entry.2) network_devices.

End Topology.

(** ** utils/data_generator.py: the address pool and the clean-up *)

Module Generator.

(** [_extract_device_ips]: [if ip] drops the empty address. *)
Definition _extract_device_ips (network_devices : list (string * Topology.Device))
    : list string :=
  let ips :=
    concat ((fun entry =>
               Topology.management_ip entry.2 :: (Topology.interfaces entry.2).*2)
            <$> network_devices) in
  filter (fun ip => ip ≠ EmptyString) ips.

(** [_extract_vlan_ips] *)
Definition _extract_vlan_ips (vlans : list (string * Topology.Vlan)) : list string :=
  concat ((fun entry => Topology.devices entry.2) <$> vlans).

(** The two address lists that [__init__] computes. *)
Definition init (network_devices : list (string * Topology.Device))
    (vlans : list (string * Topology.Vlan)) : DataGenerator.t :=
  DataGenerator.mk (_extract_device_ips network_devices) (_extract_vlan_ips vlans).

(** The addresses from which [_generate_network_row] draws. *)
Definition pool (self : DataGenerator.t) : list string :=
  let all_ips := (DataGenerator.device_ips self ++ DataGenerator.vlan_ips self)%list in
  if bool_decide (length all_ips < 2)%nat
  then ["192.168.1.1"; "192.168.1.2"; "192.168.10.1"; "192.168.20.1"]
  else all_ips.

(** [row.get(key)] on a generated row *)
Definition column (key : string) (row : list (string * pyval)) : option pyval :=
  snd <$> List.find (fun entry => bool_decide (entry.1 = key)) row.

(** The fields of a [DataGenerator] that [start] and [stop] assign. *)
Record Runner : Type := mkRunner {
  running : bool;
  thread : option ANBDLogGenerator.Thread
}.

(** [start] *)
Definition start (self : Runner) : Runner :=
  if running self then self
  else mkRunner true (Some (ANBDLogGenerator.ThreadOf "_run")).

(** [stop] *)
Definition stop (self : Runner) : Runner := mkRunner false (thread self).

(** [is_running] *)
Definition is_running (self : Runner) : bool := running self.

(** A file of the data directory: its name and its [st_mtime]. *)
Definition File : Type := (string * Z)%type.

(** [list.sort(key=..., reverse=True)]: a stable sort, so that files of
    equal time keep the order in which they were listed. *)
Fixpoint insert_by_mtime (f : File) (sorted : list File) : list File :=
  match sorted with
  | [] => [f]
  | g :: rest =>
      if bool_decide (g.2 ≤ f.2)%Z then f :: g :: rest
      else g :: insert_by_mtime f rest
  end.

Definition sort_by_mtime (files : list File) : list File :=
  foldr insert_by_mtime [] files.

(** No file of the listing is newer than a file listed before it. *)
Fixpoint newest_first (files : list File) : Prop :=
  match files with
  | [] => True
  | f :: rest => Forall (fun g => (g.2 ≤ f.2)%Z) rest ∧ newest_first rest
  end.

(** [seq[i:]] for an integer [i] that may be negative *)
Definition slice_from {A} (i : Z) (seq : list A) : list A :=
  if bool_decide (0 ≤ i)%Z then drop (Z.to_nat i) seq
  else drop (Z.to_nat (Z.of_nat (length seq) + i)) seq.

(** [_cleanup_old_files]: the files that it unlinks, in this order, given
    the listing [csv_files] that [glob] returns. *)
Definition _cleanup_old_files (max_files : Z) (csv_files : list File) : list File :=
  let csv_files := sort_by_mtime csv_files in
  if bool_decide (max_files < Z.of_nat (length csv_files))%Z
  then slice_from max_files csv_files
  else [].

End Generator.

(** ** routes/predict_anomaly.py, routes/rca_type1.py, routes/rca_type2.py:
    the analysis of one flow *)

Module RuleBased.

Import Py TriggerResponse.

(** The dictionaries that [analyze_rule_based] returns. *)
Inductive Analysis : Type :=
| Classified (anomaly_type : string) (features_analyzed : gmap string pynum)
    (response_triggered : TriggerResult)
| Unclassified (features_analyzed : gmap string pynum)
| Failed (error : string).

(** [analyze_rule_based]: the thresholds are those of the class [Config];
    an empty name is as falsy as [None]. *)
Definition analyze_rule_based (sim : Sim) (log_id : string)
    (re_features : gmap string pynum) (session : Store) : Analysis * Store :=
  let thresholds := Config.RCA_TYPE1_THRESHOLDS in
  match RcaType1.classify_anomaly_type re_features thresholds with
  | Ok (Some anomaly_type) =>
      if falsy (Some anomaly_type) then (Unclassified re_features, session)
      else
        let '(response_result, session') :=
          trigger_response1_internal sim log_id anomaly_type re_features session in
        (Classified anomaly_type re_features response_result, session')
  | Ok None => (Unclassified re_features, session)
  | Raise e => (Failed (str e), session)
  end.

(** The ['type1_statistics'] of [get_rule_statistics]. *)
Record Statistics : Type := mkStatistics {
  bandwidth_saturation : nat;
  throughput_anomaly : nat;
  header_length : nat;
  packet_size : nat;
  flow_duration : nat;
  total : nat
}.

(** [session.query(Response).filter(Response.anomaly_type1 == name).count()] *)
Definition count_type1 (name : string) (rows : list Response.t) : nat :=
  length (filter (fun r => Response.anomaly_type1 r = Some name) rows).

(** [get_rule_statistics] *)
Definition get_rule_statistics (session : Store) : Statistics :=
  let bandwidth_count := count_type1 "bandwidth_saturation" (responses session) in
  let throughput_count := count_type1 "throughput_anomaly" (responses session) in
  let header_count := count_type1 "header_length" (responses session) in
  let packet_count := count_type1 "packet_size" (responses session) in
  let duration_count := count_type1 "flow_duration" (responses session) in
  mkStatistics bandwidth_count throughput_count header_count packet_count duration_count
    (bandwidth_count + throughput_count + header_count + packet_count + duration_count).

End RuleBased.

Module NetworkAnalysis.

Import Py TriggerResponse.

(** The dictionaries that [identify_target_device] returns: a device of
    the table, a device of a VLAN (['type': 'vlan_device'], its name the
    VLAN's with [_Device] appended) or the unknown device
    (['name': 'Unknown_Device'], ['type': 'unknown']). *)
Inductive TargetDevice : Type :=
| KnownDevice (name ip type management_ip : string)
| VlanDevice (name ip vlan router : string)
| UnknownDevice (ip : string).

(** The dictionaries that [analyze_network_troubleshooting] returns,
    without the text of the troubleshooting. *)
Inductive Analysis : Type :=
| Detected (anomaly_type : string) (target_device : TargetDevice)
    (response_triggered : TriggerResult)
| NoIssue (target_device : TargetDevice)
| Failed (error : string).

Section WithVlans.

(** [Config.get_vlan_by_ip], which decides the membership of an address
    in a subnet with the [ipaddress] module and returns [(None, None)] for
    a text that is no address. *)
Variable get_vlan_by_ip : string -> option (string * Topology.Vlan).

(** The first two [if device_name] blocks of [identify_target_device]: the
    device of the table that holds [ip]; a name is truthy when it is not
    empty. *)
Definition known_device (ip : string) : option TargetDevice :=
  match Topology.get_device_by_ip Topology.NETWORK_DEVICES ip with
  | Some (device_name, device_config) =>
      if falsy (Some device_name) then None
      else Some (KnownDevice device_name ip (Topology.type device_config)
                   (Topology.management_ip device_config))
  | None => None
  end.

(** The [if vlan_name] block. *)
Definition vlan_device (ip : string) : option TargetDevice :=
  match get_vlan_by_ip ip with
  | Some (vlan_name, vlan_config) =>
      if falsy (Some vlan_name) then None
      else Some (VlanDevice (vlan_name ++ "_Device") ip vlan_name
                   (Topology.router vlan_config))
  | None => None
  end.

(** [identify_target_device]: the source address as a device, then the
    destination address as a device, then the source address as a member
    of a VLAN. *)
Definition identify_target_device (src_ip dst_ip : string) : TargetDevice :=
  match known_device src_ip with
  | Some target => target
  | None =>
      match known_device dst_ip with
      | Some target => target
      | None =>
          match vlan_device src_ip with
          | Some target => target
          | None => UnknownDevice src_ip
          end
      end
  end.

Context {S : Type} `{Random.Source S}.

(** [analyze_network_troubleshooting]: the state of the random source and
    the session afterwards. *)
Definition analyze_network_troubleshooting (sim : Sim) (log_id : string)
    (s : S) (session : Store) : Analysis * S * Store :=
  match first_event log_id (events session) with
  | None => (Failed "Event not found", s, session)
  | Some event =>
      let target_device :=
        identify_target_device (Event.src_ip event) (Event.dst_ip event) in
      match RcaType2.run_troubleshooting_simulation s with
      | (Ok troubleshoot_result, s') =>
          match RcaType2.found troubleshoot_result with
          | Some anomaly_type =>
              if falsy (Some anomaly_type) then (NoIssue target_device, s', session)
              else
                let '(response_result, session') :=
                  trigger_response2_internal sim log_id anomaly_type session in
                (Detected anomaly_type target_device response_result, s', session')
          | None => (NoIssue target_device, s', session)
          end
      | (Raise e, s') => (Failed (str e), s', session)
      end
  end.

End WithVlans.

End NetworkAnalysis.

Module PredictAnomaly.

Import Py TriggerResponse.

(** The list [rca_feature_names] of [extract_reduced_features]. *)
Definition rca_feature_names : list string :=
  [ "Flow Duration"; "Total Length of Fwd Packets"; "Total Length of Bwd Packets";
    "Flow Bytes/s"; "Flow Packets/s"; "Fwd Header Length"; "Bwd Header Length";
    "Max Packet Length"; "Packet Length Mean" ].

(** [extract_reduced_features]: the loop assigns one key after the
    other; a missing feature is the float [0.0]. *)
Definition extract_reduced_features (imp_features : gmap string pynum)
    : gmap string pynum :=
  foldl (fun re_features feature =>
           <[ feature := get imp_features feature (PFloat (Finite 0)) ]> re_features)
        ∅ rca_feature_names.

Section WithSource.

Variable get_vlan_by_ip : string -> option (string * Topology.Vlan).

Context {S : Type} `{Random.Source S}.

(** [forward_to_rca]: the rule-based analysis, then the network
    troubleshooting; [sim1] and [sim2] are what the two executions of a
    response observe. *)
Definition forward_to_rca (sim1 sim2 : Sim) (log_id : string)
    (re_features : gmap string pynum) (s : S) (session : Store)
    : (RuleBased.Analysis * NetworkAnalysis.Analysis) * S * Store :=
  let '(rca1_result, session1) :=
    RuleBased.analyze_rule_based sim1 log_id re_features session in
  let '(rca2_result, s', session2) :=
    NetworkAnalysis.analyze_network_troubleshooting get_vlan_by_ip sim2 log_id s session1 in
  ((rca1_result, rca2_result), s', session2).

(** The dictionaries that [predict_anomaly_internal] returns. *)
Inductive Prediction : Type :=
| Anomalous (rca_initiated : RuleBased.Analysis * NetworkAnalysis.Analysis)
| Normal
| PredictionFailed (error : string).

(** [predict_anomaly_internal]; [is_anomalous] is the outcome of the model,
    [predict_anomaly(imp_features).get('is_anomalous', False)]. *)
Definition predict_anomaly_internal (is_anomalous : result bool)
    (sim1 sim2 : Sim) (log_id : string) (imp_features : gmap string pynum)
    (s : S) (session : Store) : Prediction * S * Store :=
  match is_anomalous with
  | Ok true =>
      let re_features := extract_reduced_features imp_features in
      let '(rca_results, s', session') :=
        forward_to_rca sim1 sim2 log_id re_features s session in
      (Anomalous rca_results, s', session')
  | Ok false => (Normal, s, session)
  | Raise e => (PredictionFailed (str e), s, session)
  end.

End WithSource.

(** *** Integrity of the two tables *)

(** The row [r] copies the flow of the event that its [log_id] names. *)
Definition references (rows : list Event.t) (r : Response.t) : Prop :=
  ∃ event,
    first_event (Response.log_id r) rows = Some event
    ∧ Response.src_ip r = Event.src_ip event
    ∧ Response.dst_ip r = Event.dst_ip event
    ∧ Response.src_port r = Event.src_port event
    ∧ Response.dst_port r = Event.dst_port event.

(** Primary keys are pairwise distinct, and every response row copies the
    flow of an event. *)
Definition consistent (session : Store) : Prop :=
  NoDup (Response.id <$> responses session)
  ∧ Forall (references (events session)) (responses session).

End PredictAnomaly.

(** ** utils/core.py: [SimpleCache] and [sanitize_string] *)

Module SimpleCache.

Section WithTypes.

Context {K V : Type} `{EqDecision K}.

(** The dictionary [_cache], its items in insertion order, and
    [_max_size]. *)
Record t : Type := mk {
  _cache : list (K * V);
  _max_size : Z
}.

(** [__init__] *)
Definition init (max_size : Z) : t := mk [] max_size.

(** [d.get(key)] *)
Definition dict_get (d : list (K * V)) (key : K) : option V :=
  snd <$> List.find (fun item => bool_decide (item.1 = key)) d.

(** [d[key] = value]: a key that is present keeps its place, a new key is
    added at the end. *)
Fixpoint dict_set (d : list (K * V)) (key : K) (value : V) : list (K * V) :=
  match d with
  | [] => [(key, value)]
  | (k, v) :: rest =>
      if decide (k = key) then (k, value) :: rest
      else (k, v) :: dict_set rest key value
  end.

(** [del d[key]] *)
Definition dict_del (d : list (K * V)) (key : K) : list (K * V) :=
  filter (fun item => item.1 ≠ key) d.

(** [get] *)
Definition get (key : K) (self : t) : option V := dict_get (_cache self) key.

(** What a call of [set] does: it returns, leaving the cache [self], or
    [next(iter(self._cache))] raises [StopIteration] on an empty
    dictionary. *)
Inductive Outcome : Type :=
| Returns (self : t)
| RaisesStopIteration.

(** [set] *)
Definition set (key : K) (value : V) (self : t) : Outcome :=
  if bool_decide (_max_size self ≤ Z.of_nat (length (_cache self)))%Z then
    match _cache self with
    | [] => RaisesStopIteration
    | (oldest_key, _) :: _ =>
        Returns (mk (dict_set (dict_del (_cache self) oldest_key) key value)
                    (_max_size self))
    end
  else Returns (mk (dict_set (_cache self) key value) (_max_size self)).

(** [clear] *)
Definition clear (self : t) : t := mk [] (_max_size self).

(** The caches that calls of [set] and [clear] lead to from a new cache
    of size [max_size]. *)
Inductive reachable (max_size : Z) : t -> Prop :=
| reachable_init : reachable max_size (init max_size)
| reachable_set key value self self' :
    reachable max_size self -> set key value self = Returns self' ->
    reachable max_size self'
| reachable_clear self :
    reachable max_size self -> reachable max_size (clear self).

End WithTypes.

Arguments t : clear implicits.
Arguments Outcome : clear implicits.

End SimpleCache.

Module Sanitize.

(** A Python string is the list of its code points. *)

(** [dangerous_chars]: the code points of [<], [>], the double quote, the
    single quote, [&] and NUL. *)
Definition dangerous_chars : list N := [60; 62; 34; 39; 38; 0]%N.

(** [text.replace(char, '')] for a [char] of one code point *)
Definition remove (char : N) (text : list N) : list N :=
  filter (fun c => c ≠ char) text.

(** [text[:i]] for an integer [i] that may be negative *)
Definition slice_to (i : Z) (text : list N) : list N :=
  if bool_decide (0 ≤ i)%Z then take (Z.to_nat i) text
  else take (Z.to_nat (Z.of_nat (length text) + i)) text.

Section WithWhitespace.

(** Whether a code point is whitespace for [str.strip], as the Unicode
    database of the interpreter says. *)
Variable isspace : N -> bool.

Fixpoint lstrip (text : list N) : list N :=
  match text with
  | [] => []
  | c :: rest => if isspace c then lstrip rest else text
  end.

Definition rstrip (text : list N) : list N := reverse (lstrip (reverse text)).

(** [text.strip()] *)
Definition strip (text : list N) : list N := rstrip (lstrip text).

(** [sanitize_string] of a string *)
Definition sanitize_string (text : list N) (max_length : Z) : list N :=
  let text := foldl (fun text char => remove char text) text dangerous_chars in
  strip (slice_to max_length text).

End WithWhitespace.

(** The whitespace of the first 256 code points: the C0 separators, the
    space, NEL and the no-break space. *)
Definition isspace_latin1 (c : N) : bool :=
  bool_decide (c ∈ [9; 10; 11; 12; 13; 28; 29; 30; 31; 32; 133; 160]%N).

(** The code points of an ASCII text. *)
Definition of_string (text : string) : list N :=
  Ascii.N_of_ascii <$> String.list_ascii_of_string text.

End Sanitize.

(** ** The range of [random.randint] *)

Module RandomRange.

(** A source whose [randint(a, b)] lies between its bounds. *)
Class Bounded (S : Type) `{Random.Source S} : Prop := {
  randint_range : forall a b s,
    (a ≤ b)%Z -> (a ≤ (Random.draw_randint a b s).1 ≤ b)%Z
}.

#[global] Instance scripted_bounded : Bounded Scripted.t.
Proof.
  constructor. intros a b s Hab. cbn. destruct (Scripted.level s); lia.
Qed.

#[global] Instance world_bounded {rng : Type} `{Bounded rng} : Bounded (App.World rng).
Proof.
  constructor. intros a b w Hab. cbn. unfold App.with_random.
  pose proof (randint_range a b (App.random_state w) Hab) as Hrange.
  destruct (Random.draw_randint a b (App.random_state w)). exact Hrange.
Qed.

End RandomRange.

(** ** app.py: what a batch adds to the database *)

Module Batch.

(** The event is a flow between two different addresses of the topology
    and carries the 35 features. *)
Definition event_ok (e : App.Event.t) : Prop :=
  App.Event.src_ip e ∈ App.get_all_ips
  ∧ App.Event.dst_ip e ∈ App.get_all_ips
  ∧ App.Event.src_ip e ≠ App.Event.dst_ip e
  ∧ App.Event.dst_port e ∈ [22; 23; 53; 80; 443; 993; 995; 3306; 5432; 8080]%Z
  ∧ App.Event.status e ∈ ["normal"; "anomalous"]
  ∧ (App.Event.features e).*1 = Config.IMPORTANT_FEATURES.

(** [res_type] is one of [self.response_types[stage][anomaly_type]]. *)
Definition response_type_of (stage anomaly_type res_type : string) : Prop :=
  ∃ types candidates,
    App.response_types !! stage = Some types
    ∧ types !! anomaly_type = Some candidates
    ∧ res_type ∈ candidates.

(** The response answers an anomalous event of [batch]: it copies the
    flow of the event and keeps those of its features that are RCA
    features. *)
Definition response_ok (batch : list App.Event.t) (r : App.Response.t) : Prop :=
  ∃ e,
    e ∈ batch
    ∧ App.Event.status e = "anomalous"
    ∧ App.Response.log_id r = App.Event.log_id e
    ∧ App.Response.src_ip r = App.Event.src_ip e
    ∧ App.Response.dst_ip r = App.Event.dst_ip e
    ∧ App.Response.src_port r = App.Event.src_port e
    ∧ App.Response.dst_port r = App.Event.dst_port e
    ∧ App.Response.features r
      = filter (fun kv => kv.1 ∈ Config.RCA_TYPE1_FEATURES) (App.Event.features e)
    ∧ response_type_of "type1" (App.Response.anomaly_type1 r) (App.Response.res_type1 r)
    ∧ response_type_of "type2" (App.Response.anomaly_type2 r) (App.Response.res_type2 r)
    ∧ App.Response.status r ∈ ["success"; "partial"; "failed"].

(** The number of anomalous events of a list. *)
Definition anomalous (events : list App.Event.t) : nat :=
  length (filter (fun e => App.Event.status e = "anomalous") events).

(** Between [w] and [w'] rows were only added: the events [new_events]
    and the responses [new_responses]. *)
Definition adds {rng} (w w' : App.World rng)
    (new_events : list App.Event.t) (new_responses : list App.Response.t) : Prop :=
  App.commit_raises (App.db w') = App.commit_raises (App.db w)
  ∧ App.events (App.db w') = (App.events (App.db w) ++ new_events)%list
  ∧ App.responses (App.db w') = (App.responses (App.db w) ++ new_responses)%list.

End Batch.

(** ** routes/preprocess.py: the features of a row and the polling of the
    data directory *)

Module ImportantFeatures.

Import Py.



(** [float(z)] for an integer: the double nearest to [z], a tie going to
    the even significand of 53 bits, or [None] when the conversion raises
    [OverflowError], which it does when the rounded magnitude reaches
    [2 ** 1024]. *)
Definition float_of_int (z : Z) : option pyfloat :=
  let magnitude := Z.abs z in
  let shift := (Z.log2 magnitude - 52)%Z in
  if (shift <=? 0)%Z then Some (Finite (inject_Z z))
  else
    let significand := Z.shiftr magnitude shift in
    let remainder := Z.land magnitude (Z.ones shift) in
    let half := Z.shiftl 1 (shift - 1) in
    let rounded :=
      if (half <? remainder)%Z || ((remainder =? half)%Z && Z.odd significand)
      then (significand + 1)%Z else significand in
    let nearest := Z.shiftl rounded shift in
    if (2 ^ 1024 <=? nearest)%Z then None
    else Some (Finite (inject_Z (Z.sgn z * nearest))).

Section WithFloat.

(** [float(text)] for a cell that holds text: the float that the text
    denotes, or [None] when [float] raises [ValueError]. *)
Variable float_of_str : string -> option pyfloat.




End WithFloat.

End ImportantFeatures.

Module Engine.

Import Py.

(** The fields of a [PreprocessingEngine] that its methods assign;
    [last_processed] is the path of a file. *)
Record t : Type := mk {
  processing : bool;
  thread : option ANBDLogGenerator.Thread;
  last_processed : option string
}.

(** [__init__] *)
Definition init : t := mk false None None.

(** [start_processing] *)
Definition start_processing (self : t) : bool * t :=
  if processing self then (true, self)
  else (true, mk true (Some (ANBDLogGenerator.ThreadOf "_processing_loop"))
                (last_processed self)).

(** [stop_processing] *)
Definition stop_processing (self : t) : t :=
  mk false (thread self) (last_processed self).

(** [max(csv_files, key=lambda x: x.stat().st_mtime)]: the first of the
    files with the greatest time. *)
Definition latest (csv_files : list Generator.File) : option Generator.File :=
  match csv_files with
  | [] => None
  | f :: rest =>
      Some (foldl (fun best g => if bool_decide (best.2 < g.2)%Z then g else best) f rest)
  end.

(** [_process_latest_csv]; [csv_files] is the listing of the data
    directory and [read_csv path] the outcome of [pd.read_csv(path)]. *)
Definition _process_latest_csv (csv_files : list Generator.File)
    (read_csv : string -> result (list Preprocess.Row))
    (self : t) (s : Preprocess.State) : t * Preprocess.State :=
  match latest csv_files with
  | None => (self, s)
  | Some latest_file =>
      if bool_decide (last_processed self = Some latest_file.1) then (self, s)
      else
        let '(results, s') := Preprocess.process_csv_file (read_csv latest_file.1) s in
        match results with
        | Preprocess.Processed _ _ =>
            (mk (processing self) (thread self) (Some latest_file.1), s')
        | Preprocess.Failed _ => (self, s')
        end
  end.

(** One turn of the loop of [_processing_loop]; [state_manager] is the
    registry of utils/core.py that the module imports. *)
Definition _processing_loop_turn (state_manager : StateManager.t)
    (csv_files : list Generator.File)
    (read_csv : string -> result (list Preprocess.Row))
    (self : t) (s : Preprocess.State) : t * Preprocess.State :=
  if StateManager.is_monitoring state_manager
  then _process_latest_csv csv_files read_csv self s
  else (self, s).

End Engine.

(** ** main.py: the monitoring requests *)

Module Main.

(** The messages given to [emit] and [socketio.emit]. *)
Inductive Message : Type :=
| error (message : string)
| monitoring_started
| monitoring_stopped.

(** The objects that the handlers reach: the [StateManager] that
    [create_app] makes for main.py, the [state_manager] of utils/core.py,
    which routes/preprocess.py and routes/api.py import, the data generator
    and the preprocessing engine, each [None] until it is initialised, and
    the messages emitted. *)
Record System : Type := mkSystem {
  state_manager : StateManager.t;
  core_state_manager : StateManager.t;
  data_generator : option Generator.Runner;
  preprocessing_engine : option Engine.t;
  emitted : list Message
}.

(** After [create_app] with its [initialize_services]. *)
Definition created : System :=
  mkSystem StateManager.init StateManager.init
    (Some (Generator.mkRunner false None)) (Some Engine.init) [].

Definition emit (m : Message) (sys : System) : System :=
  mkSystem (state_manager sys) (core_state_manager sys) (data_generator sys)
    (preprocessing_engine sys) (emitted sys ++ [m]).

(** [start_monitoring_process] *)
Definition start_monitoring_process (sys : System) : bool * System :=
  let data_generator' :=
    match data_generator sys with
    | Some generator =>
        if negb (Generator.is_running generator)
        then Some (Generator.start generator)
        else Some generator
    | None => None
    end in
  let preprocessing_engine' :=
    match preprocessing_engine sys with
    | Some engine => Some (Engine.start_processing engine).2
    | None => None
    end in
  (true, mkSystem (state_manager sys) (core_state_manager sys) data_generator'
           preprocessing_engine' (emitted sys)).

(** [stop_monitoring_process] *)
Definition stop_monitoring_process (sys : System) : bool * System :=
  let data_generator' :=
    match data_generator sys with
    | Some generator =>
        if Generator.is_running generator
        then Some (Generator.stop generator)
        else Some generator
    | None => None
    end in
  let preprocessing_engine' :=
    match preprocessing_engine sys with
    | Some engine => Some (Engine.stop_processing engine)
    | None => None
    end in
  (true, mkSystem (state_manager sys) (core_state_manager sys) data_generator'
           preprocessing_engine' (emitted sys)).

(** [handle_start_monitoring], the clock reading [utcnow] *)
Definition handle_start_monitoring (utcnow : Z) (sys : System) : System :=
  if StateManager.is_monitoring (state_manager sys) then
    emit (error "Monitoring already active") sys
  else
    let '(success, sys') := start_monitoring_process sys in
    if success then
      emit monitoring_started
        (mkSystem (StateManager.set_monitoring utcnow true (state_manager sys'))
           (core_state_manager sys') (data_generator sys')
           (preprocessing_engine sys') (emitted sys'))
    else emit (error "Failed to start monitoring") sys'.

(** [handle_stop_monitoring] *)
Definition handle_stop_monitoring (utcnow : Z) (sys : System) : System :=
  if negb (StateManager.is_monitoring (state_manager sys)) then
    emit (error "Monitoring not active") sys
  else
    let '(success, sys') := stop_monitoring_process sys in
    if success then
      emit monitoring_stopped
        (mkSystem (StateManager.set_monitoring utcnow false (state_manager sys'))
           (core_state_manager sys') (data_generator sys')
           (preprocessing_engine sys') (emitted sys'))
    else emit (error "Failed to stop monitoring") sys'.

(** The ['monitoring_status'] of the [/status] route of routes/api.py. *)
Definition monitoring_status (sys : System) : string :=
  StateManager.get_status (core_state_manager sys).

(** A request to a handler. *)
Inductive request : Type :=
| start_monitoring (utcnow : Z)
| stop_monitoring (utcnow : Z).

Definition handle (r : request) (sys : System) : System :=
  match r with
  | start_monitoring utcnow => handle_start_monitoring utcnow sys
  | stop_monitoring utcnow => handle_stop_monitoring utcnow sys
  end.

(** The systems that requests lead to from the created application. *)
Inductive reachable : System -> Prop :=
| reachable_created : reachable created
| reachable_handle r sys : reachable sys -> reachable (handle r sys).

End Main.

(** * Properties *)

(** ** Stateful code and the random source *)

Section Stateful.

Import Py.

Lemma bind_returns {S A B} (m : St S A) (k : A -> St S B) (s s' : S) (a : A) :
  m s = (Ok a, s') -> (m ≫= k) s = k a s'.
Proof. intros Hm. unfold mbind, St_bind. rewrite Hm. reflexivity. Qed.

Lemma bind_raises {S A B} (m : St S A) (k : A -> St S B) (s s' : S) (e : exn) :
  m s = (Raise e, s') -> (m ≫= k) s = (Raise e, s').
Proof. intros Hm. unfold mbind, St_bind. rewrite Hm. reflexivity. Qed.

Context {S : Type} `{Random.Source S}.

Lemma randint_returns (a b : Z) (s : S) :
  ∃ n s', Random.randint a b s = (Ok n, s').
Proof. unfold Random.randint. destruct (Random.draw_randint a b s). eauto. Qed.

Lemma uniform_returns (a b : Q) (s : S) :
  ∃ x s', Random.uniform a b s = (Ok x, s').
Proof. unfold Random.uniform. destruct (Random.draw_uniform a b s). eauto. Qed.

(** [random.choice] returns a member of a sequence that is not empty. *)
Lemma choice_returns {A} (seq : list A) (s : S) :
  seq ≠ [] -> ∃ x s', Random.choice seq s = (Ok x, s') ∧ x ∈ seq.
Proof.
  intros Hne. destruct seq as [|a seq]; [contradiction|].
  unfold Random.choice.
  pose proof (Random.randbelow_lt (length (a :: seq)) s ltac:(cbn; lia)) as Hlt.
  destruct (Random.randbelow (length (a :: seq)) s) as [i s1]. cbn [fst] in Hlt.
  destruct (lookup_lt_is_Some_2 _ _ Hlt) as [x Hx]. rewrite Hx.
  exists x, s1. split; [reflexivity|]. eapply list_elem_of_lookup_2. exact Hx.
Qed.

End Stateful.

(** ** Stage 1 classification *)

Section Classification.

Import Py RcaType1.

(** The cases of [test_rule_classification], against the default table. *)
Example classify_test_bandwidth :
  classify_anomaly_type (test_features 2000000 2000 1000 1000)
    Config.RCA_TYPE1_THRESHOLDS = Ok (Some "bandwidth_saturation").
Proof. vm_compute. reflexivity. Qed.

Example classify_test_throughput :
  classify_anomaly_type (test_features 50000 100 20000 15000)
    Config.RCA_TYPE1_THRESHOLDS = Ok (Some "throughput_anomaly").
Proof. vm_compute. reflexivity. Qed.

Example classify_test_normal :
  classify_anomaly_type (test_features 50000 100 5000 4800)
    Config.RCA_TYPE1_THRESHOLDS = Ok None.
Proof. vm_compute. reflexivity. Qed.

(** Both the bandwidth and the throughput thresholds exceeded. *)
Example classify_both_exceeded :
  classify_anomaly_type (test_features 2000000 2000 20000 15000)
    Config.RCA_TYPE1_THRESHOLDS = Ok (Some "bandwidth_saturation").
Proof. vm_compute. reflexivity. Qed.

(** A dictionary that is not a threshold table makes the subscript raise. *)
Example classify_empty_thresholds :
  classify_anomaly_type (test_features 2000000 2000 20000 15000) ∅
  = Raise (KeyError "bandwidth_saturation").
Proof. vm_compute. reflexivity. Qed.

Lemma threshold_lookups (t : Config.Thresholds) :
  let d := Config.thresholds_dict t in
  threshold d "bandwidth_saturation" "flow_bytes_per_sec" = Ok (Config.flow_bytes_per_sec t)
  ∧ threshold d "bandwidth_saturation" "flow_packets_per_sec" = Ok (Config.flow_packets_per_sec t)
  ∧ threshold d "throughput_anomalies" "total_fwd_packets" = Ok (Config.total_fwd_packets t)
  ∧ threshold d "throughput_anomalies" "total_bwd_packets" = Ok (Config.total_bwd_packets t)
  ∧ threshold d "unusual_header_length" "fwd_header_length" = Ok (Config.fwd_header_length t)
  ∧ threshold d "unusual_header_length" "bwd_header_length" = Ok (Config.bwd_header_length t)
  ∧ threshold d "unusual_packet_size" "max_packet_length" = Ok (Config.max_packet_length t)
  ∧ threshold d "unusual_packet_size" "packet_length_mean" = Ok (Config.packet_length_mean t)
  ∧ threshold d "unusual_flow_duration" "flow_duration" = Ok (Config.flow_duration t).
Proof. repeat split; vm_compute; reflexivity. Qed.

Lemma get_is_feature (features : gmap string pynum) (name : string) :
  get features name (PInt 0) = feature features name.
Proof. unfold get, feature. destruct (features !! name); reflexivity. Qed.

(** Decide the comparisons of a category name with string literals. *)
Ltac decide_names :=
  repeat match goal with
  | |- context [decide (?a = ?b)] =>
      let d := eval vm_compute in (bool_decide (a = b)) in
      match d with
      | true => rewrite (decide_True (P := a = b)) by reflexivity
      | false => rewrite (decide_False (P := a = b)) by discriminate
      end
  end.

Lemma classify_refines_first_match (features : gmap string pynum) (t : Config.Thresholds) :
  classify_anomaly_type features (Config.thresholds_dict t) = Ok (first_match features t).
Proof.
  destruct (threshold_lookups t) as (H1 & H2 & H3 & H4 & H5 & H6 & H7 & H8 & H9).
  unfold classify_anomaly_type.
  rewrite H1, H2, H3, H4, H5, H6, H7, H8, H9. clear.
  rewrite !get_is_feature.
  unfold first_match, category_order, List.find, predicate. cbn [mbind result_bind].
  decide_names.
  repeat match goal with
  | |- context [gt ?a ?b] => destruct (gt a b); cbn [orb]
  end; reflexivity.
Qed.

(** [List.find] returns the first element that satisfies the predicate. *)
Lemma find_first {A} (p : A -> bool) (l : list A) (x : A) :
  List.find p l = Some x ↔
  ∃ earlier later, l = (earlier ++ x :: later)%list ∧ p x = true
                   ∧ Forall (fun y => p y = false) earlier.
Proof.
  induction l as [|a l IH]; cbn.
  - split; [discriminate|]. intros (e & la & Heq & _). destruct e; discriminate.
  - destruct (p a) eqn:Hpa.
    + split.
      * intros [= ->]. exists [], l. repeat split; auto.
      * intros (e & la & Heq & Hx & Hall). destruct e as [|b e].
        -- cbn in Heq. congruence.
        -- cbn in Heq. injection Heq as -> _. inversion Hall; congruence.
    + rewrite IH. split.
      * intros (e & la & -> & Hx & Hall). exists (a :: e), la.
        repeat split; auto.
      * intros (e & la & Heq & Hx & Hall). destruct e as [|b e].
        -- cbn in Heq. injection Heq as -> _. congruence.
        -- cbn in Heq. injection Heq as -> ->. inversion Hall; subst.
           exists e, la. repeat split; auto.
Qed.

Lemma find_nothing {A} (p : A -> bool) (l : list A) :
  List.find p l = None ↔ Forall (fun y => p y = false) l.
Proof.
  induction l as [|a l IH]; cbn.
  - split; auto.
  - destruct (p a) eqn:Hpa.
    + split; [discriminate|]. inversion 1; congruence.
    + rewrite IH. split; [auto|]. inversion 1; auto.
Qed.

(** The classification reads the feature dictionary only through
    [features.get(name, 0)]. *)
Lemma classify_ext (f1 f2 : gmap string pynum) thresholds :
  (∀ name, get f1 name (PInt 0) = get f2 name (PInt 0)) ->
  classify_anomaly_type f1 thresholds = classify_anomaly_type f2 thresholds.
Proof. intros Hget. unfold classify_anomaly_type. rewrite !Hget. reflexivity. Qed.

Lemma get_zero_is_missing (features : gmap string pynum) (k name : string) :
  get (<[ k := PInt 0 ]> features) name (PInt 0)
  = get (delete k features) name (PInt 0).
Proof.
  unfold get. destruct (decide (k = name)) as [->|Hne].
  - rewrite lookup_insert_eq, lookup_delete_eq. reflexivity.
  - rewrite lookup_insert_ne, lookup_delete_ne by done. reflexivity.
Qed.

(** C1.  For every feature dictionary and every threshold table,
    [classify_anomaly_type] returns without raising, and what it returns is
    the earliest category, in the fixed order bandwidth_saturation,
    throughput_anomaly, header_length, packet_size, flow_duration, whose
    threshold predicate holds: a category is returned exactly when its
    predicate holds and the predicates of all categories listed before it
    fail, and [None] is returned exactly when no predicate holds.  A feature
    that is missing is treated as the value zero: the result for a dictionary
    with the entry [k: 0] is the result for the dictionary without the key
    [k].  The classification is a function of the two arguments alone, so
    equal inputs give equal categories. *)
Theorem classify_first_match_wins
    (features : gmap string pynum) (t : Config.Thresholds) :
  classify_anomaly_type features (Config.thresholds_dict t)
    = Ok (first_match features t)
  ∧ (∀ category, first_match features t = Some category ↔
       ∃ earlier later,
         category_order = (earlier ++ category :: later)%list
         ∧ predicate features t category = true
         ∧ Forall (fun c => predicate features t c = false) earlier)
  ∧ (first_match features t = None ↔
       Forall (fun c => predicate features t c = false) category_order)
  ∧ (∀ k, classify_anomaly_type (<[ k := PInt 0 ]> features) (Config.thresholds_dict t)
          = classify_anomaly_type (delete k features) (Config.thresholds_dict t)).
Proof.
  split; [apply classify_refines_first_match|].
  split; [intros c; apply find_first|].
  split; [apply find_nothing|].
  intros k. apply classify_ext. intros name. apply get_zero_is_missing.
Qed.

End Classification.

(** ** The categories of Stage 2 *)

Section Stage2Checks.

Import Py RcaType2.

Context {S : Type} `{Random.Source S}.

(** Each check returns, and what it returns is that it passed or that it
    detected the anomaly type of the check. *)
Lemma check_latency_reports (s : S) :
  ∃ check s', check_latency s = (Ok check, s') ∧ reports "high_latency" check.
Proof.
  unfold check_latency. destruct (uniform_returns 1 200 s) as (x & s1 & Hx).
  rewrite (bind_returns _ _ _ _ _ Hx).
  destruct (Qgtb x 100); eexists _, _; (split; [reflexivity|]);
    [right; eexists; reflexivity|left; reflexivity].
Qed.

Lemma check_error_rates_reports (s : S) :
  ∃ check s', check_error_rates s = (Ok check, s') ∧ reports "high_error_rates" check.
Proof.
  unfold check_error_rates. destruct (uniform_returns 0 10 s) as (x & s1 & Hx).
  rewrite (bind_returns _ _ _ _ _ Hx).
  destruct (Qgtb x 2); eexists _, _; (split; [reflexivity|]);
    [right; eexists; reflexivity|left; reflexivity].
Qed.

Lemma check_connectivity_reports (s : S) :
  ∃ check s', check_connectivity s = (Ok check, s')
              ∧ reports "connectivity_issues" check.
Proof.
  unfold check_connectivity.
  destruct (choice_returns [true; true; true; false] s) as (x & s1 & Hx & _);
    [discriminate|].
  rewrite (bind_returns _ _ _ _ _ Hx).
  destruct x; eexists _, _; (split; [reflexivity|]);
    [left; reflexivity|right; eexists; reflexivity].
Qed.

Lemma check_packet_loss_reports (s : S) :
  ∃ check s', check_packet_loss s = (Ok check, s') ∧ reports "packet_loss" check.
Proof.
  unfold check_packet_loss. destruct (uniform_returns 0 15 s) as (x & s1 & Hx).
  rewrite (bind_returns _ _ _ _ _ Hx).
  destruct (Qgtb x 3); eexists _, _; (split; [reflexivity|]);
    [right; eexists; reflexivity|left; reflexivity].
Qed.

Lemma check_interface_flapping_reports (s : S) :
  ∃ check s', check_interface_flapping s = (Ok check, s')
              ∧ reports "flapping_links" check.
Proof.
  unfold check_interface_flapping.
  destruct (choice_returns [false; false; false; true] s) as (x & s1 & Hx & _);
    [discriminate|].
  rewrite (bind_returns _ _ _ _ _ Hx). destruct x.
  - destruct (choice_returns ["GigabitEthernet0/1"; "FastEthernet1/0"; "eth0"] s1)
      as (i & s2 & Hi & _); [discriminate|].
    rewrite (bind_returns _ _ _ _ _ Hi).
    eexists _, _. split; [reflexivity|]. right. eexists. reflexivity.
  - eexists _, _. split; [reflexivity|]. left. reflexivity.
Qed.

(** Stage 2 always returns, and the category it reports, if any, is one of
    the five anomaly types of the checks. *)
Lemma troubleshooting_categories (s : S) :
  ∃ result s',
    run_troubleshooting_simulation s = (Ok result, s')
    ∧ (found result = None
       ∨ ∃ category, found result = Some category ∧ category ∈ check_anomaly_types).
Proof.
  unfold run_troubleshooting_simulation, try_except.
  destruct (check_latency_reports s) as (c1 & s1 & H1 & R1).
  rewrite (bind_returns _ _ _ _ _ H1).
  destruct (check_error_rates_reports s1) as (c2 & s2 & H2 & R2).
  rewrite (bind_returns _ _ _ _ _ H2).
  destruct (check_connectivity_reports s2) as (c3 & s3 & H3 & R3).
  rewrite (bind_returns _ _ _ _ _ H3).
  destruct (check_packet_loss_reports s3) as (c4 & s4 & H4 & R4).
  rewrite (bind_returns _ _ _ _ _ H4).
  destruct (check_interface_flapping_reports s4) as (c5 & s5 & H5 & R5).
  rewrite (bind_returns _ _ _ _ _ H5).
  unfold check_anomaly_types.
  destruct R1 as [->|[? ->]];
    [|eexists _, _; split; [reflexivity|right; eexists; split;
                             [reflexivity|repeat constructor]]].
  destruct R2 as [->|[? ->]];
    [|eexists _, _; split; [reflexivity|right; eexists; split;
                             [reflexivity|repeat constructor]]].
  destruct R3 as [->|[? ->]];
    [|eexists _, _; split; [reflexivity|right; eexists; split;
                             [reflexivity|repeat constructor]]].
  destruct R4 as [->|[? ->]];
    [|eexists _, _; split; [reflexivity|right; eexists; split;
                             [reflexivity|repeat constructor]]].
  destruct R5 as [->|[? ->]];
    [|eexists _, _; split; [reflexivity|right; eexists; split;
                             [reflexivity|repeat constructor]]].
  eexists _, _. split; [reflexivity|left; reflexivity].
Qed.

End Stage2Checks.

(** Each of the five categories is reported for some draws: the one whose
    check is the first to draw its upper bound or its last position. *)
Example troubleshooting_reports_each_category :
  Forall2 (fun k category =>
    ∃ severity,
      (RcaType2.run_troubleshooting_simulation (Scripted.mk 0 (Samples.only k))).1
      = Py.Ok (RcaType2.mkTroubleshooting (Some category) severity))
    [0; 1; 2; 3; 4]%nat RcaType2.check_anomaly_types.
Proof.
  repeat (constructor; [eexists; vm_compute; reflexivity|]). constructor.
Qed.

(** ** The response executor *)

Section ResponseExecutor.

Import Py TriggerResponse.

Lemma first_response_None (log_id : string) (rows : list Response.t) :
  first_response log_id rows = None ↔
  Forall (fun r => Response.log_id r ≠ log_id) rows.
Proof.
  induction rows as [|r rows IH]; cbn.
  - split; auto.
  - case_bool_decide as Hr.
    + split; [discriminate|]. inversion 1; contradiction.
    + destruct (first_response log_id rows) eqn:Hf; cbn.
      * split; [discriminate|]. inversion 1 as [|? ? _ Hrest]; subst.
        apply IH in Hrest. discriminate.
      * split; [|reflexivity]. intros _. constructor; [assumption|]. apply IH. reflexivity.
Qed.

Lemma first_response_Some (log_id : string) (rows : list Response.t) (i : nat) :
  first_response log_id rows = Some i ->
  ∃ r, rows !! i = Some r ∧ Response.log_id r = log_id.
Proof.
  revert i. induction rows as [|r rows IH]; cbn; intros i Hi; [discriminate|].
  case_bool_decide as Hr.
  - injection Hi as <-. exists r. split; [reflexivity|assumption].
  - destruct (first_response log_id rows) as [j|]; cbn in Hi; [|discriminate].
    injection Hi as <-. cbn. apply IH. reflexivity.
Qed.

Lemma first_response_app_new (log_id : string) (rows : list Response.t) (r : Response.t) :
  first_response log_id rows = None -> Response.log_id r = log_id ->
  first_response log_id (rows ++ [r]) = Some (length rows).
Proof.
  intros Hnone Hr. induction rows as [|a rows IH]; cbn in *.
  - rewrite bool_decide_eq_true_2 by assumption. reflexivity.
  - case_bool_decide; [discriminate|].
    destruct (first_response log_id rows); [discriminate|].
    rewrite IH by reflexivity. reflexivity.
Qed.

Lemma set_features_fields (d : gmap string pynum) (r : Response.t) :
  Response.log_id (Response.set_features d r) = Response.log_id r
  ∧ Response.success (Response.set_features d r) = Response.success r
  ∧ Response.duration_ms (Response.set_features d r) = Response.duration_ms r.
Proof. repeat split. Qed.

(** What [trigger_response1_internal] does when the event is recorded. *)
Lemma trigger_response1_writes sim log_id anomaly_type re_features session event :
  first_event log_id (events session) = Some event ->
  ∃ r,
    trigger_response1_internal sim log_id anomaly_type re_features session
    = (Success (generated_anomaly_id sim) (execute_type1_response sim anomaly_type event),
       mkStore (events session) (responses session ++ [r]))
    ∧ Response.log_id r = log_id
    ∧ Response.anomaly_type1 r = Some anomaly_type
    ∧ Response.anomaly_type2 r = None
    ∧ Response.success r
      = ResponseResult.success (execute_type1_response sim anomaly_type event)
    ∧ Response.duration_ms r
      = Some (ResponseResult.duration_ms (execute_type1_response sim anomaly_type event)).
Proof.
  intros Hev. unfold trigger_response1_internal. rewrite Hev.
  eexists. split; [reflexivity|]. repeat split.
Qed.

(** What [trigger_response2_internal] does when a row is found. *)
Lemma trigger_response2_updates sim log_id anomaly_type session i r :
  first_response log_id (responses session) = Some i ->
  responses session !! i = Some r ->
  trigger_response2_internal sim log_id anomaly_type session
  = (Failure (detached_error sim),
     mkStore (events session)
       (<[ i := type2_update anomaly_type (execute_type2_response sim anomaly_type r) r ]>
          (responses session))).
Proof.
  intros Hi Hr. unfold trigger_response2_internal. rewrite Hi, Hr. reflexivity.
Qed.

Lemma type2_update_success anomaly_type result r :
  Response.success (type2_update anomaly_type result r)
  = Response.success r && ResponseResult.success result.
Proof.
  cbn. destruct (ResponseResult.success result), (Response.success r); reflexivity.
Qed.

(** C2.  When the store holds no response row for a flow identifier, that
    is, Stage 1 has not yet created one, [trigger_response2_internal] returns
    the failure ['Response record not found'] and the store it leaves is
    the store it was given: no row is created and none is modified. *)
Theorem response2_without_stage1_row
    (sim : Sim) (log_id anomaly_type : string) (session : Store) :
  Forall (fun r => Response.log_id r ≠ log_id) (responses session) ->
  trigger_response2_internal sim log_id anomaly_type session
  = (Failure "Response record not found", session).
Proof.
  intros Hnone. apply first_response_None in Hnone.
  unfold trigger_response2_internal. rewrite Hnone. reflexivity.
Qed.

(** For the sample event, before Stage 1 has run. *)
Lemma response2_without_stage1_row_witness :
  Forall (fun r => Response.log_id r ≠ Event.log_id Samples.event1)
    (responses Samples.session0)
  ∧ trigger_response2_internal Samples.sim2_success (Event.log_id Samples.event1)
      "packet_loss" Samples.session0
    = (Failure "Response record not found", Samples.session0).
Proof.
  split; [constructor|].
  apply (response2_without_stage1_row Samples.sim2_success
           (Event.log_id Samples.event1) "packet_loss" Samples.session0).
  constructor.
Defined.

(** C9.  A Stage-2 update leaves the events table as it is, creates no
    response row, and changes no row other than the one it found; on that
    row every field other than [anomaly_type2], [res_type2] and [success]
    keeps its value ([id], [log_id], [anomaly_id], [timestamp], [src_ip],
    [dst_ip], [src_port], [dst_port], [anomaly_type1], [res_type1],
    [re_features], [duration_ms]), and [success] keeps its value too unless
    the outcome of Stage 2 is a failure. *)
Theorem response2_update_in_place
    (sim : Sim) (log_id anomaly_type : string) (session : Store) :
  let session' := (trigger_response2_internal sim log_id anomaly_type session).2 in
  events session' = events session
  ∧ length (responses session') = length (responses session)
  ∧ ∀ j r, responses session !! j = Some r ->
      ∃ r', responses session' !! j = Some r'
        ∧ Response.id r' = Response.id r
        ∧ Response.log_id r' = Response.log_id r
        ∧ Response.anomaly_id r' = Response.anomaly_id r
        ∧ Response.timestamp r' = Response.timestamp r
        ∧ Response.src_ip r' = Response.src_ip r
        ∧ Response.dst_ip r' = Response.dst_ip r
        ∧ Response.src_port r' = Response.src_port r
        ∧ Response.dst_port r' = Response.dst_port r
        ∧ Response.anomaly_type1 r' = Response.anomaly_type1 r
        ∧ Response.res_type1 r' = Response.res_type1 r
        ∧ Response.re_features r' = Response.re_features r
        ∧ Response.duration_ms r' = Response.duration_ms r
        ∧ (first_response log_id (responses session) ≠ Some j -> r' = r)
        ∧ (ResponseResult.success (execute_type2_response sim anomaly_type r) = true ->
           Response.success r' = Response.success r).
Proof.
  cbv zeta.
  destruct (first_response log_id (responses session)) as [i|] eqn:Hi.
  - destruct (first_response_Some _ _ _ Hi) as (r0 & Hr0 & _).
    rewrite (trigger_response2_updates sim log_id anomaly_type session i r0 Hi Hr0).
    cbn [snd events responses].
    split; [reflexivity|]. split; [apply length_insert|].
    intros j r Hj. destruct (decide (i = j)) as [->|Hne].
    + assert (r = r0) as -> by congruence.
      eexists. split.
      * apply list_lookup_insert_eq. eapply lookup_lt_Some. exact Hr0.
      * repeat split; try reflexivity.
        -- intros Hneq. congruence.
        -- intros Hok. rewrite type2_update_success, Hok.
           destruct (Response.success r0); reflexivity.
    + exists r. split.
      * rewrite list_lookup_insert_ne by assumption. exact Hj.
      * repeat split; reflexivity.
  - unfold trigger_response2_internal. rewrite Hi. cbn [snd].
    split; [reflexivity|]. split; [reflexivity|].
    intros j r Hj. exists r. split; [exact Hj|]. repeat split; reflexivity.
Qed.

(** For the sample store after Stage 1, with a failing Stage 2. *)
Lemma response2_update_in_place_witness :
  length (responses (trigger_response2_internal Samples.sim2_failure
                       (Event.log_id Samples.event1) "packet_loss" Samples.session1).2)
  = length (responses Samples.session1).
Proof.
  exact (proj1 (proj2 (response2_update_in_place Samples.sim2_failure
                         (Event.log_id Samples.event1) "packet_loss" Samples.session1))).
Defined.

(** C3.  The write of Stage 1 sets [success] to the outcome of Stage 1.  An
    update of Stage 2 sets [success] of the row it finds to the conjunction
    of the value it had and the outcome of Stage 2: [False] when Stage 2
    failed, unchanged otherwise, so a [False] is never turned back into
    [True].  Hence, for a flow that had no response row, after Stage 1 and
    then Stage 2 the flag of its row is the conjunction of the two outcomes,
    and it is [True] only if both outcomes are. *)
Theorem success_is_conjunction_of_stage_outcomes :
  (∀ sim log_id anomaly_type re_features session event,
     first_event log_id (events session) = Some event ->
     ∃ r, responses (trigger_response1_internal sim log_id anomaly_type
                       re_features session).2
          = (responses session ++ [r])%list
          ∧ Response.success r
            = ResponseResult.success (execute_type1_response sim anomaly_type event))
  ∧ (∀ sim log_id anomaly_type session i r,
       first_response log_id (responses session) = Some i ->
       responses session !! i = Some r ->
       ∃ r', responses (trigger_response2_internal sim log_id anomaly_type session).2 !! i
             = Some r'
             ∧ Response.success r'
               = Response.success r
                 && ResponseResult.success (execute_type2_response sim anomaly_type r)
             ∧ (Response.success r = false -> Response.success r' = false))
  ∧ (∀ sim1 sim2 log_id type1 type2 re_features session event,
       first_event log_id (events session) = Some event ->
       first_response log_id (responses session) = None ->
       let session1 :=
         (trigger_response1_internal sim1 log_id type1 re_features session).2 in
       let session2 := (trigger_response2_internal sim2 log_id type2 session1).2 in
       ∃ r1 r2,
         responses session1 = (responses session ++ [r1])%list
         ∧ responses session2 = (responses session ++ [r2])%list
         ∧ Response.success r2
           = ResponseResult.success (execute_type1_response sim1 type1 event)
             && ResponseResult.success (execute_type2_response sim2 type2 r1)
         ∧ (Response.success r2 = true ->
            ResponseResult.success (execute_type1_response sim1 type1 event) = true
            ∧ ResponseResult.success (execute_type2_response sim2 type2 r1) = true)).
Proof.
  split; [|split].
  - intros sim log_id anomaly_type re_features session event Hev.
    destruct (trigger_response1_writes sim log_id anomaly_type re_features session
                event Hev) as (r & Heq & _ & _ & _ & Hsucc & _).
    exists r. rewrite Heq. split; [reflexivity|exact Hsucc].
  - intros sim log_id anomaly_type session i r Hi Hr.
    rewrite (trigger_response2_updates sim log_id anomaly_type session i r Hi Hr).
    cbn [snd responses]. eexists. split.
    + apply list_lookup_insert_eq. eapply lookup_lt_Some. exact Hr.
    + split; [apply type2_update_success|].
      intros Hfalse. rewrite type2_update_success, Hfalse. reflexivity.
  - intros sim1 sim2 log_id type1 type2 re_features session event Hev Hnone.
    cbv zeta.
    destruct (trigger_response1_writes sim1 log_id type1 re_features session
                event Hev) as (r1 & Heq & Hlog & _ & _ & Hsucc & _).
    rewrite Heq. cbn [snd].
    pose proof (first_response_app_new log_id (responses session) r1 Hnone Hlog) as Hi.
    assert (Hr1 : (responses session ++ [r1])%list !! length (responses session)
                  = Some r1) by apply list_lookup_middle, eq_refl.
    rewrite (trigger_response2_updates sim2 log_id type2
               (mkStore (events session) (responses session ++ [r1])%list)
               (length (responses session)) r1 Hi Hr1).
    cbn [snd responses].
    exists r1, (type2_update type2 (execute_type2_response sim2 type2 r1) r1).
    split; [reflexivity|]. split.
    + rewrite insert_app_r_alt by lia. rewrite Nat.sub_diag. reflexivity.
    + rewrite type2_update_success, Hsucc. split; [reflexivity|].
      intros Hboth. apply andb_true_iff in Hboth. exact Hboth.
Qed.

(** For the sample event: Stage 1 succeeds, Stage 2 fails. *)
Lemma success_is_conjunction_of_stage_outcomes_witness :
  ∃ r1 r2,
    responses Samples.session1 = [r1]
    ∧ responses (trigger_response2_internal Samples.sim2_failure
                   (Event.log_id Samples.event1) "packet_loss" Samples.session1).2
      = [r2]
    ∧ Response.success r2
      = ResponseResult.success (execute_type1_response Samples.sim1_success
                                  "bandwidth_saturation" Samples.event1)
        && ResponseResult.success (execute_type2_response Samples.sim2_failure
                                     "packet_loss" r1).
Proof.
  destruct (proj2 (proj2 success_is_conjunction_of_stage_outcomes)
              Samples.sim1_success Samples.sim2_failure (Event.log_id Samples.event1)
              "bandwidth_saturation" "packet_loss" Samples.re_features1
              Samples.session0 Samples.event1 eq_refl eq_refl)
    as (r1 & r2 & H1 & H2 & H3 & _).
  exists r1, r2. split; [exact H1|]. split; [exact H2|exact H3].
Defined.

Lemma choice_draws {A} (i : nat) (seq : list A) :
  seq ≠ [] -> ∃ x, choice i seq = Ok x ∧ x ∈ seq.
Proof.
  intros Hne. unfold choice.
  assert (Hlt : (i mod length seq < length seq)%nat).
  { apply Nat.mod_upper_bound. destruct seq; [contradiction|cbn; lia]. }
  destruct (lookup_lt_is_Some_2 _ _ Hlt) as [x Hx].
  exists x. rewrite Hx. split; [reflexivity|].
  eapply list_elem_of_lookup_2. exact Hx.
Qed.

Lemma playbook_tables :
  index Config.RESPONSE_PLAYBOOKS "type1" = Ok Config.type1_playbooks
  ∧ index Config.RESPONSE_PLAYBOOKS "type2" = Ok Config.type2_playbooks.
Proof. split; reflexivity. Qed.

(** A category with a playbook is executed: the response type is the one
    the actions map gives and the outcome is the drawn one. *)
Lemma execute_type1_with_playbook sim category event playbook_path :
  Config.type1_playbooks !! category = Some playbook_path ->
  playbook_path ≠ EmptyString ->
  ∃ success,
    choice (drawn sim) (replicate 9 true ++ [false])%list = Ok success
    ∧ execute_type1_response sim category event
      = ResponseResult.mk success (type (get_type1_response_actions category))
          (elapsed_ms sim) (Some (actions (get_type1_response_actions category)))
          (Some playbook_path) None.
Proof.
  intros Hpath Hne.
  destruct (choice_draws (drawn sim) (replicate 9 true ++ [false])%list)
    as (success & Hc & _); [discriminate|].
  exists success. split; [exact Hc|].
  unfold execute_type1_response. rewrite (proj1 playbook_tables).
  cbn [mbind result_bind]. rewrite Hpath. unfold falsy.
  rewrite bool_decide_eq_false_2 by assumption.
  rewrite Hc. reflexivity.
Qed.

Lemma execute_type2_with_playbook sim category response_record playbook_path :
  Config.type2_playbooks !! category = Some playbook_path ->
  playbook_path ≠ EmptyString ->
  ∃ success,
    choice (drawn sim) (replicate 85 true ++ replicate 15 false)%list = Ok success
    ∧ execute_type2_response sim category response_record
      = ResponseResult.mk success (type (get_type2_response_actions category))
          (elapsed_ms sim) (Some (actions (get_type2_response_actions category)))
          (Some playbook_path) None.
Proof.
  intros Hpath Hne.
  destruct (choice_draws (drawn sim) (replicate 85 true ++ replicate 15 false)%list)
    as (success & Hc & _); [discriminate|].
  exists success. split; [exact Hc|].
  unfold execute_type2_response. rewrite (proj2 playbook_tables).
  cbn [mbind result_bind]. rewrite Hpath. unfold falsy.
  rewrite bool_decide_eq_false_2 by assumption.
  rewrite Hc. reflexivity.
Qed.

(** A category without a playbook is not executed. *)
Lemma execute_type2_without_playbook sim category response_record :
  Config.type2_playbooks !! category = None ->
  execute_type2_response sim category response_record
  = ResponseResult.mk false "unknown" 0 None None
      (Some ("No playbook found for " ++ category)).
Proof.
  intros Hpath. unfold execute_type2_response. rewrite (proj2 playbook_tables).
  cbn [mbind result_bind]. rewrite Hpath. reflexivity.
Qed.

Lemma execute_type1_without_playbook sim category event :
  Config.type1_playbooks !! category = None ->
  execute_type1_response sim category event
  = ResponseResult.mk false "unknown" 0 None None
      (Some ("No playbook found for " ++ category)).
Proof.
  intros Hpath. unfold execute_type1_response. rewrite (proj1 playbook_tables).
  cbn [mbind result_bind]. rewrite Hpath. reflexivity.
Qed.

(** Every category that Stage 1 produces has a playbook and is mapped to a
    response type of its own. *)
Lemma type1_categories_are_executed (sim : Sim) (event : Event.t) :
  Forall (fun category =>
    ∃ success playbook_path,
      execute_type1_response sim category event
      = ResponseResult.mk success (type (get_type1_response_actions category))
          (elapsed_ms sim) (Some (actions (get_type1_response_actions category)))
          (Some playbook_path) None
      ∧ type (get_type1_response_actions category) ≠ "generic_fix")
    RcaType1.category_order.
Proof.
  unfold RcaType1.category_order.
  repeat apply Forall_cons_2; try apply Forall_nil_2.
  all: cbv beta.
  all: match goal with
       | |- context [execute_type1_response _ ?c _] =>
           let p := eval vm_compute in (default EmptyString (Config.type1_playbooks !! c)) in
           assert (Hp : Config.type1_playbooks !! c = Some p)
             by (vm_compute; reflexivity);
           assert (Hne : p ≠ EmptyString) by discriminate;
           destruct (execute_type1_with_playbook sim c event p Hp Hne)
             as (success & _ & Hrun);
           eexists; eexists; split; [exact Hrun | vm_compute; discriminate]
       end.
Qed.

(** Of the categories that Stage 2 produces, [packet_loss] and
    [flapping_links] have a playbook. *)
Lemma type2_categories_executed (sim : Sim) (response_record : Response.t) :
  Forall (fun category =>
    ∃ success playbook_path,
      execute_type2_response sim category response_record
      = ResponseResult.mk success (type (get_type2_response_actions category))
          (elapsed_ms sim) (Some (actions (get_type2_response_actions category)))
          (Some playbook_path) None)
    ["packet_loss"; "flapping_links"].
Proof.
  repeat apply Forall_cons_2; try apply Forall_nil_2.
  all: cbv beta.
  all: match goal with
       | |- context [execute_type2_response _ ?c _] =>
           let p := eval vm_compute in (default EmptyString (Config.type2_playbooks !! c)) in
           assert (Hp : Config.type2_playbooks !! c = Some p)
             by (vm_compute; reflexivity);
           assert (Hne : p ≠ EmptyString) by discriminate;
           destruct (execute_type2_with_playbook sim c response_record p Hp Hne)
             as (success & _ & Hrun);
           eexists; eexists; exact Hrun
       end.
Qed.

(** A category that is not a key of an actions map is mapped to the generic
    action of that map. *)
Lemma unknown_category_maps_to_generic :
  get_type1_response_actions "unknown"
  = mkActions "generic_fix" ["Applied generic mitigation"]
  ∧ get_type2_response_actions "unknown"
    = mkActions "generic_network_fix" ["Applied generic network mitigation"].
Proof. split; vm_compute; reflexivity. Qed.

(** C5.  The categories [high_latency], [high_error_rates] and
    [connectivity_issues] are reported by Stage 2, each for some draws of
    its checks, but they are not keys of [RESPONSE_PLAYBOOKS['type2']] (its
    keys are [latency], [error_rate] and [connectivity]): for each of them
    [execute_type2_response] returns the failure
    [{'success': False, 'response_type': 'unknown'}] without executing,
    whatever the random draw, although [get_type2_response_actions] has a
    response type for it. *)
Theorem type2_category_without_playbook (sim : Sim) (response_record : Response.t) :
  Forall (fun category =>
    (∃ script severity,
       (RcaType2.run_troubleshooting_simulation (Scripted.mk 0 script)).1
       = Ok (RcaType2.mkTroubleshooting (Some category) severity))
    ∧ type (get_type2_response_actions category) ≠ "generic_network_fix"
    ∧ execute_type2_response sim category response_record
      = ResponseResult.mk false "unknown" 0 None None
          (Some ("No playbook found for " ++ category)))
    ["high_latency"; "high_error_rates"; "connectivity_issues"].
Proof.
  repeat apply Forall_cons_2; try apply Forall_nil_2.
  all: cbv beta.
  1: split; [exists (Samples.only 0), "high"; vm_compute; reflexivity|].
  2: split; [exists (Samples.only 1), "high"; vm_compute; reflexivity|].
  3: split; [exists (Samples.only 2), "high"; vm_compute; reflexivity|].
  all: split; [vm_compute; discriminate|].
  all: apply execute_type2_without_playbook; vm_compute; reflexivity.
Qed.

(** Each row after a Stage-2 update is the row it was, or that row with the
    assignments of Stage 2. *)
Lemma response2_rows sim log_id anomaly_type session j r :
  responses session !! j = Some r ->
  ∃ r', responses (trigger_response2_internal sim log_id anomaly_type session).2 !! j
        = Some r'
        ∧ (r' = r
           ∨ r' = type2_update anomaly_type (execute_type2_response sim anomaly_type r) r).
Proof.
  intros Hj.
  destruct (first_response log_id (responses session)) as [i|] eqn:Hi.
  - destruct (first_response_Some _ _ _ Hi) as (r0 & Hr0 & _).
    rewrite (trigger_response2_updates sim log_id anomaly_type session i r0 Hi Hr0).
    cbn [snd responses]. destruct (decide (i = j)) as [->|Hne].
    + assert (r = r0) as -> by congruence.
      eexists. split; [|right; reflexivity].
      apply list_lookup_insert_eq. eapply lookup_lt_Some. exact Hr0.
    + exists r. split; [|left; reflexivity].
      rewrite list_lookup_insert_ne by assumption. exact Hj.
  - unfold trigger_response2_internal. rewrite Hi. cbn [snd].
    exists r. split; [exact Hj|left; reflexivity].
Qed.

(** C8, as the specification states it, fails: after Stage 1 (1500 ms) and
    Stage 2 (4200 ms) have both completed for a flow, the serialised record
    has neither a [duration_ms_stage1] nor a [duration_ms_stage2] field, and
    its only duration is the 1500 ms of Stage 1. *)
Lemma stage2_duration_is_not_recorded :
  ∃ r1 r2,
    responses Samples.session1 = [r1]
    ∧ responses (trigger_response2_internal Samples.sim2_success
                   (Event.log_id Samples.event1) "packet_loss" Samples.session1).2
      = [r2]
    ∧ ResponseResult.duration_ms
        (execute_type2_response Samples.sim2_success "packet_loss" r1) = 4200%Z
    ∧ Response.field "duration_ms_stage1" (Response.to_dict r2) = None
    ∧ Response.field "duration_ms_stage2" (Response.to_dict r2) = None
    ∧ Response.field "duration_ms" (Response.to_dict r2) = Some (JInt 1500).
Proof.
  eexists. eexists. split; [vm_compute; reflexivity|].
  split; [vm_compute; reflexivity|].
  repeat split; vm_compute; reflexivity.
Qed.

(** C8, amended.  A serialised response record has exactly the fifteen
    fields of [to_dict], among them one duration, [duration_ms].  The write
    of Stage 1 sets it to the duration that Stage 1 measured, and an update
    of Stage 2 leaves it as it is on every row: the duration of Stage 2 is
    not stored in the record. *)
Theorem response_record_has_one_duration :
  (∀ r, (Response.to_dict r).*1
        = [ "id"; "log_id"; "anomaly_id"; "timestamp"; "src_ip"; "dst_ip";
            "src_port"; "dst_port"; "anomaly_type1"; "re_features"; "res_type1";
            "anomaly_type2"; "res_type2"; "success"; "duration_ms" ])
  ∧ (∀ r, Response.field "duration_ms" (Response.to_dict r)
          = Some (json_opt JInt (Response.duration_ms r)))
  ∧ (∀ sim log_id anomaly_type re_features session event,
       first_event log_id (events session) = Some event ->
       ∃ r, responses (trigger_response1_internal sim log_id anomaly_type
                         re_features session).2
            = (responses session ++ [r])%list
            ∧ Response.duration_ms r
              = Some (ResponseResult.duration_ms
                        (execute_type1_response sim anomaly_type event)))
  ∧ (∀ sim log_id anomaly_type session j r,
       responses session !! j = Some r ->
       ∃ r', responses (trigger_response2_internal sim log_id anomaly_type
                          session).2 !! j = Some r'
             ∧ Response.duration_ms r' = Response.duration_ms r).
Proof.
  split; [reflexivity|]. split; [reflexivity|]. split.
  - intros sim log_id anomaly_type re_features session event Hev.
    destruct (trigger_response1_writes sim log_id anomaly_type re_features session
                event Hev) as (r & Heq & _ & _ & _ & _ & Hdur).
    exists r. rewrite Heq. split; [reflexivity|exact Hdur].
  - intros sim log_id anomaly_type session j r Hj.
    destruct (response2_rows sim log_id anomaly_type session j r Hj)
      as (r' & Hr' & [Heq|Heq]); exists r'; (split; [exact Hr'|]);
      rewrite Heq; reflexivity.
Qed.

(** For the sample store: the row keeps the 1500 ms of Stage 1 after a
    Stage 2 of 4200 ms. *)
Lemma response_record_has_one_duration_witness :
  ∃ r', responses (trigger_response2_internal Samples.sim2_success
                     (Event.log_id Samples.event1) "packet_loss" Samples.session1).2
        !! 0%nat = Some r'
        ∧ Response.duration_ms r' = Some 1500%Z.
Proof.
  destruct (proj2 (proj2 (proj2 response_record_has_one_duration))
              Samples.sim2_success (Event.log_id Samples.event1) "packet_loss"
              Samples.session1 0%nat
              Samples.row1
              eq_refl) as (r' & Hr' & Hdur).
  exists r'. split; [exact Hr'|exact Hdur].
Defined.

End ResponseExecutor.

(** ** The life cycle *)

Section Lifecycle.

(** The start time of a [StateManager] is present exactly while it is
    monitoring. *)
Lemma state_manager_start_time (s : StateManager.t) :
  StateManager.reachable s ->
  if StateManager._monitoring s
  then is_Some (StateManager._start_time s)
  else StateManager._start_time s = None.
Proof.
  induction 1 as [|utcnow status s _ _]; cbn.
  - reflexivity.
  - destruct status; [eexists|]; reflexivity.
Qed.

(** A running generator has a start time, and a generator that has a start
    time and is not running has a stop time. *)
Lemma generator_times (g : ANBDLogGenerator.t) :
  ANBDLogGenerator.reachable g ->
  if ANBDLogGenerator.is_running g
  then is_Some (ANBDLogGenerator._start_time g)
  else ANBDLogGenerator._start_time g = None
       ∨ (is_Some (ANBDLogGenerator._start_time g)
          ∧ is_Some (ANBDLogGenerator._stop_time g)).
Proof.
  induction 1 as [|c g _ IH]; cbn.
  - left. reflexivity.
  - destruct c as [now|now]; cbn;
      unfold ANBDLogGenerator.start_generation, ANBDLogGenerator.stop_generation;
      destruct (ANBDLogGenerator.is_running g) eqn:Hrun; cbn; rewrite ?Hrun.
    + exact IH.
    + eexists; reflexivity.
    + right. split; [exact IH|eexists; reflexivity].
    + exact IH.
Qed.

(** C4, as the specification states it, fails for [ANBDLogGenerator]: a
    generator started at second 0 and stopped at second 5 is not running,
    and its uptime, queried at second 9, is 5 seconds, not zero. *)
Lemma uptime_retained_after_stop :
  let g := ANBDLogGenerator.run (ANBDLogGenerator.Stop 5000000)
             (ANBDLogGenerator.run (ANBDLogGenerator.Start 0) ANBDLogGenerator.init) in
  ANBDLogGenerator.reachable g
  ∧ ANBDLogGenerator.is_running g = false
  ∧ (ANBDLogGenerator.get_uptime 9000000 g == 5)%Q
  ∧ ¬ (ANBDLogGenerator.get_uptime 9000000 g == 0)%Q.
Proof.
  cbv zeta. split; [repeat constructor|]. split; [reflexivity|].
  split; vm_compute; [reflexivity|discriminate].
Qed.

(** C4, amended.  In every state of either registry the uptime query
    returns the time elapsed since the recorded start time when the pipeline
    is running.  [StateManager.get_uptime] returns zero when it is not
    running, so after [set_monitoring(False)] the uptime is zero.
    [ANBDLogGenerator.get_uptime] returns zero when the generator has never
    been started; once it has been stopped it returns the duration of the
    last session, stop time minus start time, whenever it is asked. *)
Theorem uptime_of_the_registries :
  (∀ utcnow s, StateManager.reachable s ->
     (StateManager.is_monitoring s = true ->
      ∃ start_time, StateManager._start_time s = Some start_time
        ∧ StateManager.get_uptime utcnow s = total_seconds (utcnow - start_time))
     ∧ (StateManager.is_monitoring s = false ->
        StateManager.get_uptime utcnow s = 0%Q))
  ∧ (∀ utcnow stopped s,
       StateManager.get_uptime utcnow (StateManager.set_monitoring stopped false s) = 0%Q)
  ∧ (∀ now g, ANBDLogGenerator.reachable g ->
       (ANBDLogGenerator.is_running g = true ->
        ∃ start_time, ANBDLogGenerator._start_time g = Some start_time
          ∧ ANBDLogGenerator.get_uptime now g = total_seconds (now - start_time))
       ∧ (ANBDLogGenerator.is_running g = false ->
          (ANBDLogGenerator._start_time g = None
           ∧ ANBDLogGenerator.get_uptime now g = 0%Q)
          ∨ (∃ start_time stop_time,
               ANBDLogGenerator._start_time g = Some start_time
               ∧ ANBDLogGenerator._stop_time g = Some stop_time
               ∧ ANBDLogGenerator.get_uptime now g
                 = total_seconds (stop_time - start_time))))
  ∧ (∀ now later g start_time,
       ANBDLogGenerator.is_running g = true ->
       ANBDLogGenerator._start_time g = Some start_time ->
       ANBDLogGenerator.get_uptime later (ANBDLogGenerator.stop_generation now g).1.2
       = total_seconds (now - start_time))
  ∧ (∀ now, ANBDLogGenerator.get_uptime now ANBDLogGenerator.init = 0%Q).
Proof.
  split; [|split; [|split; [|split]]].
  - intros utcnow s Hs. pose proof (state_manager_start_time s Hs) as Hinv.
    unfold StateManager.is_monitoring, StateManager.get_uptime.
    destruct (StateManager._monitoring s); split; try discriminate.
    + intros _. destruct Hinv as [t0 Ht0]. exists t0. rewrite Ht0. auto.
    + intros _. rewrite Hinv. reflexivity.
  - reflexivity.
  - intros now g Hg. pose proof (generator_times g Hg) as Hinv.
    unfold ANBDLogGenerator.get_uptime.
    destruct (ANBDLogGenerator.is_running g); split; try discriminate.
    + intros _. destruct Hinv as [t0 Ht0]. exists t0. rewrite Ht0. auto.
    + intros _. destruct Hinv as [Hnone|[[t0 Ht0] [t1 Ht1]]].
      * left. rewrite Hnone. auto.
      * right. exists t0, t1. rewrite Ht0, Ht1. auto.
  - intros now later g t0 Hrun Hstart.
    unfold ANBDLogGenerator.stop_generation. rewrite Hrun. cbn.
    unfold ANBDLogGenerator.get_uptime. cbn. rewrite Hstart. reflexivity.
  - reflexivity.
Qed.

(** A generator started at second 0 and stopped at second 5. *)
Lemma uptime_of_the_registries_witness :
  ANBDLogGenerator.get_uptime 9000000
    (ANBDLogGenerator.stop_generation 5000000
       (ANBDLogGenerator.run (ANBDLogGenerator.Start 0) ANBDLogGenerator.init)).1.2
  = total_seconds (5000000 - 0).
Proof.
  apply (proj1 (proj2 (proj2 (proj2 uptime_of_the_registries)))
           5000000%Z 9000000%Z
           (ANBDLogGenerator.run (ANBDLogGenerator.Start 0) ANBDLogGenerator.init) 0%Z);
    reflexivity.
Defined.

(** C6.  [start_generation] on a running generator returns [False], emits
    nothing and leaves the object, with its running flag and start time, as
    it is, and the route reports ['System already running'] with status
    400; [stop_generation] on a generator that is not running returns
    [False] and leaves the object as it is, and the route reports ['System
    not running'] with status 400.  So the second of two starts in a row
    fails.  Both operations are total functions that return a flag. *)
Theorem start_and_stop_in_the_wrong_state :
  (∀ now g, ANBDLogGenerator.is_running g = true ->
     ANBDLogGenerator.start_generation now g = (false, g, [])
     ∧ ANBDLogGenerator.start_system now g
       = ([("error", "System already running")], 400%Z, g))
  ∧ (∀ now g, ANBDLogGenerator.is_running g = false ->
       ANBDLogGenerator.stop_generation now g = (false, g, [])
       ∧ ANBDLogGenerator.stop_system now g
         = ([("error", "System not running")], 400%Z, g))
  ∧ (∀ now again g,
       let g' := (ANBDLogGenerator.start_generation now g).1.2 in
       ANBDLogGenerator.start_generation again g' = (false, g', []))
  ∧ (∀ now again g,
       let g' := (ANBDLogGenerator.stop_generation now g).1.2 in
       ANBDLogGenerator.stop_generation again g' = (false, g', [])).
Proof.
  split; [|split; [|split]].
  - intros now g Hrun.
    unfold ANBDLogGenerator.start_system, ANBDLogGenerator.start_generation.
    rewrite Hrun. split; reflexivity.
  - intros now g Hrun.
    unfold ANBDLogGenerator.stop_system, ANBDLogGenerator.stop_generation.
    rewrite Hrun. split; reflexivity.
  - intros now again g. cbv zeta. unfold ANBDLogGenerator.start_generation.
    destruct (ANBDLogGenerator.is_running g) eqn:Hrun; cbn; rewrite ?Hrun; reflexivity.
  - intros now again g. cbv zeta. unfold ANBDLogGenerator.stop_generation.
    destruct (ANBDLogGenerator.is_running g) eqn:Hrun; cbn; rewrite ?Hrun; reflexivity.
Qed.

(** A second start of a started generator, and a stop of a new one. *)
Lemma start_and_stop_in_the_wrong_state_witness :
  let running := ANBDLogGenerator.run (ANBDLogGenerator.Start 0) ANBDLogGenerator.init in
  ANBDLogGenerator.is_running running = true
  ∧ ANBDLogGenerator.start_system 7000000 running
    = ([("error", "System already running")], 400%Z, running)
  ∧ ANBDLogGenerator.is_running ANBDLogGenerator.init = false
  ∧ ANBDLogGenerator.stop_system 7000000 ANBDLogGenerator.init
    = ([("error", "System not running")], 400%Z, ANBDLogGenerator.init).
Proof.
  cbv zeta. split; [reflexivity|]. split.
  - apply (proj1 start_and_stop_in_the_wrong_state). reflexivity.
  - split; [reflexivity|].
    apply (proj1 (proj2 start_and_stop_in_the_wrong_state)). reflexivity.
Defined.

End Lifecycle.

(** ** Errors inside a batch *)

Section Batches.

Import Py.

(** [process_row] never raises: the [except] clause of the row catches. *)
Lemma process_row_returns (row : Preprocess.Row) (s : Preprocess.State) :
  ∃ s', Preprocess.process_row row s = (Ok tt, s')
        ∧ Preprocess.commit_raises s' = Preprocess.commit_raises s
        ∧ (Preprocess.processed_count s' + length (Preprocess.logged s')
           = S (Preprocess.processed_count s + length (Preprocess.logged s)))%nat.
Proof.
  unfold Preprocess.process_row, try_except, Preprocess.save_and_predict.
  cbv [mbind St_bind mret St_ret Preprocess.commit Preprocess.count_anomaly
       Preprocess.count_processed Preprocess.log_error].
  destruct (Preprocess.commit_raises s (Preprocess.commits s)) eqn:H1.
  - eexists. split; [reflexivity|]. cbn. rewrite length_app. cbn.
    split; [reflexivity|lia].
  - case_bool_decide; cbn [Preprocess.commit_raises Preprocess.commits].
    + destruct (Preprocess.commit_raises s (S (Preprocess.commits s))) eqn:H2.
      * eexists. split; [reflexivity|]. cbn. rewrite length_app. cbn.
        split; [reflexivity|lia].
      * eexists. split; [reflexivity|]. cbn. split; [reflexivity|lia].
    + eexists. split; [reflexivity|]. cbn. split; [reflexivity|lia].
Qed.

(** In [process_csv_file] the rows are isolated: the loop never raises, and
    every row of the frame is either counted as processed or logged as an
    error, whichever commits raise. *)
Lemma csv_rows_are_isolated (rows : list Preprocess.Row) (s : Preprocess.State) :
  ∃ s', Preprocess.for_rows rows s = (Ok tt, s')
        ∧ (Preprocess.processed_count s' + length (Preprocess.logged s')
           = Preprocess.processed_count s + length (Preprocess.logged s) + length rows)%nat.
Proof.
  revert s. induction rows as [|row rows IH]; intros s.
  - exists s. split; [reflexivity|]. cbn. lia.
  - destruct (process_row_returns row s) as (s1 & Hrow & _ & Hcount).
    destruct (IH s1) as (s2 & Hrest & Hcount2).
    exists s2. cbn [Preprocess.for_rows]. rewrite (bind_returns _ _ _ _ _ Hrow).
    split; [exact Hrest|]. cbn [length]. lia.
Qed.

(** With the second commit raising, [process_csv_file] still persists the
    first and the third row of the frame. *)
Example csv_second_commit_raises :
  let '(result, s) :=
    Preprocess.process_csv_file (Ok Samples.frame)
      (Samples.csv_session Samples.second_commit_raises) in
  result = Preprocess.Processed 2 1
  ∧ Event.log_id <$> Preprocess.events s = ["log_a"; "log_c"]
  ∧ Preprocess.logged s = ["Error processing row: commit failed"].
Proof. vm_compute. repeat split. Qed.

(** In [generate_and_save_events], a failure inside
    [generate_and_save_response] is caught there: with eight flows, all
    anomalous, and the commit of the first response raising, all eight events
    of the batch and the seven other responses are persisted. *)
Example response_failure_is_isolated :
  let world :=
    Samples.world Samples.second Samples.second_commit_raises in
  let '(result, w) := App.generate_and_save_events world in
  result = Ok tt
  ∧ length (App.events (App.db w)) = 8%nat
  ∧ length (App.responses (App.db w)) = 7%nat
  ∧ head (App.printed w) = Some "Error generating response: commit failed".
Proof. vm_compute. repeat split. Qed.

(** In [generate_and_save_events] nothing catches inside the loop: when a
    pass of the loop raises, after any number of passes that returned, the
    loop ends there with that exception, however many passes remain. *)
Lemma loop_aborts {rng} (body : St (App.World rng) unit)
    (done remaining : nat) (w w1 w' : App.World rng) (e : exn) :
  App.for_range done body w = (Ok tt, w1) ->
  body w1 = (Raise e, w') ->
  App.for_range (done + S remaining) body w = (Raise e, w').
Proof.
  revert w. induction done as [|done IH]; intros w Hdone Hbody.
  - cbn in Hdone. injection Hdone as <-.
    cbn [Nat.add App.for_range]. apply (bind_raises _ _ _ _ _ Hbody).
  - cbn [Nat.add App.for_range] in *.
    destruct (body w) as [[[]|e0] w0] eqn:Hfirst.
    + rewrite (bind_returns _ _ _ _ _ Hfirst) in Hdone.
      rewrite (bind_returns _ _ _ _ _ Hfirst). apply IH; assumption.
    + rewrite (bind_raises _ _ _ _ _ Hfirst) in Hdone. discriminate.
Qed.

(** C7.  A batch of three flows, none anomalous, in which the commit of the
    second event raises: without the failure all three events are persisted;
    with it [generate_and_save_events] catches the exception outside the
    loop, so only the first event is persisted and the third flow of the
    batch is never generated. *)
Theorem failed_unit_aborts_the_batch :
  let healthy := (App.generate_and_save_events (Samples.world Samples.lowest (fun _ => false))).2 in
  let '(result, w) :=
    App.generate_and_save_events (Samples.world Samples.lowest Samples.second_commit_raises) in
  length (App.events (App.db healthy)) = 3%nat
  ∧ result = Ok tt
  ∧ App.Event.log_id <$> App.events (App.db w)
    = take 1 (App.Event.log_id <$> App.events (App.db healthy))
  ∧ App.commits (App.db w) = 2%nat
  ∧ App.printed w
    = [ "Generated event: 192.168.60.2:1024 -> 192.168.60.14:22 (normal)";
        "Error generating events: commit failed" ].
Proof. vm_compute. repeat split. Qed.

End Batches.

(** ** The generated feature payload *)

Section FeaturePayload.

Import Py.

Context {S : Type} `{Random.Source S}.

(** The keys of a dictionary literal are the keys as written, and a property
    of what each expression returns holds of the entry it defines. *)
Lemma dict_literal_entries (P : string -> pyval -> Prop)
    (entries : list (string * St S pyval)) :
  Forall (fun entry => ∀ s v s', entry.2 s = (Ok v, s') -> P entry.1 v) entries ->
  ∀ s d s', dict_literal entries s = (Ok d, s') ->
    d.*1 = entries.*1 ∧ Forall (fun kv => P kv.1 kv.2) d.
Proof.
  induction 1 as [|[key e] entries He _ IH]; intros s d s' Hd; cbn in Hd.
  - injection Hd as <- _. split; constructor.
  - unfold mbind, St_bind in Hd. destruct (e s) as [[v|err] s1] eqn:Hv; [|discriminate].
    fold (@mbind (St S) St_bind) in Hd.
    destruct (dict_literal entries s1) as [[d1|err] s2] eqn:Hrest; [|discriminate].
    cbn in Hd. injection Hd as <- _.
    destruct (IH s1 d1 s2 Hrest) as [Hkeys Hvals].
    split; [cbn; f_equal; exact Hkeys|].
    constructor; [exact (He s v s1 Hv)|exact Hvals].
Qed.

(** A dictionary literal whose expressions all return, returns. *)
Lemma dict_literal_returns (entries : list (string * St S pyval)) :
  Forall (fun entry => ∀ s, ∃ v s', entry.2 s = (Ok v, s')) entries ->
  ∀ s, ∃ d s', dict_literal entries s = (Ok d, s').
Proof.
  induction 1 as [|[key e] entries He _ IH]; intros s; cbn.
  - exists [], s. reflexivity.
  - destruct (He s) as (v & s1 & Hv). destruct (IH s1) as (d & s2 & Hd).
    exists ((key, v) :: d), s2.
    rewrite (bind_returns _ _ _ _ _ Hv), (bind_returns _ _ _ _ _ Hd). reflexivity.
Qed.

Lemma round_uniform_finite (a b : Q) (ndigits : nat) (s : S) :
  ∃ v s', round_uniform a b ndigits s = (Ok v, s') ∧ finite_number v = true.
Proof.
  unfold round_uniform. destruct (uniform_returns a b s) as (x & s1 & Hx).
  rewrite (bind_returns _ _ _ _ _ Hx). eexists _, _. split; reflexivity.
Qed.

Lemma uniform_finite (a b : Q) (s : S) :
  ∃ v s', uniform a b s = (Ok v, s') ∧ finite_number v = true.
Proof.
  unfold uniform. destruct (uniform_returns a b s) as (x & s1 & Hx).
  rewrite (bind_returns _ _ _ _ _ Hx). eexists _, _. split; reflexivity.
Qed.

Lemma randint_finite (a b : Z) (s : S) :
  ∃ v s', randint a b s = (Ok v, s') ∧ finite_number v = true.
Proof.
  unfold randint. destruct (randint_returns a b s) as (x & s1 & Hx).
  rewrite (bind_returns _ _ _ _ _ Hx). eexists _, _. split; reflexivity.
Qed.

(** The three kinds of feature expression return finite numbers only. *)
Lemma expression_finite (e : St S pyval) :
  (∀ s, ∃ v s', e s = (Ok v, s') ∧ finite_number v = true) ->
  ∀ s v s', e s = (Ok v, s') -> finite_number v = true.
Proof.
  intros He s v s' Hv. destruct (He s) as (v0 & s0 & Hv0 & Hfin). congruence.
Qed.

Ltac finite_expression :=
  first [ apply round_uniform_finite
        | apply randint_finite
        | apply uniform_finite
        | intros; eexists _, _; split; reflexivity ].

Lemma finite_returns (e : St S pyval) (s : S) :
  (∃ v s', e s = (Ok v, s') ∧ finite_number v = true) ->
  ∃ v s', e s = (Ok v, s').
Proof. intros (v & s' & Hv & _). eauto. Qed.

Ltac expression_returns :=
  let s := fresh "s" in
  intros s; cbn [snd];
  first [ apply finite_returns; finite_expression
        | eexists _, _; reflexivity ].

Lemma realistic_features_returns (s : S) :
  ∃ features s',
    Features.generate_realistic_features s = (Ok features, s')
    ∧ features.*1 = Config.IMPORTANT_FEATURES
    ∧ Forall (fun v => finite_number v = true) features.*2.
Proof.
  unfold Features.generate_realistic_features.
  match goal with |- context [dict_literal ?entries] => set (literal := entries) end.
  assert (Hret : ∃ d s', dict_literal literal s = (Ok d, s')).
  { apply dict_literal_returns. subst literal.
    repeat apply Forall_cons_2; try apply Forall_nil_2; expression_returns. }
  destruct Hret as (d & s' & Hd). exists d, s'. split; [exact Hd|].
  destruct (dict_literal_entries (fun _ v => finite_number v = true) literal)
    with (s := s) (d := d) (s' := s') as [Hkeys Hvals]; [|exact Hd|].
  { subst literal.
    repeat apply Forall_cons_2; try apply Forall_nil_2;
      cbn [fst snd]; apply expression_finite; finite_expression. }
  split; [rewrite Hkeys; reflexivity|].
  apply Forall_fmap. exact Hvals.
Qed.

(** Some address of a pool with two different addresses differs from any
    given one. *)
Lemma other_address (pool : list string) (src_ip : string) :
  (∃ a b, a ∈ pool ∧ b ∈ pool ∧ a ≠ b) ->
  filter (fun ip => ip ≠ src_ip) pool ≠ [].
Proof.
  intros (a & b & Ha & Hb & Hab) Hempty.
  destruct (decide (a = src_ip)) as [->|Ha'].
  - assert (b ∈ filter (fun ip => ip ≠ src_ip) pool) as Hin
      by (apply list_elem_of_filter; split; [congruence|assumption]).
    rewrite Hempty in Hin. inversion Hin.
  - assert (a ∈ filter (fun ip => ip ≠ src_ip) pool) as Hin
      by (apply list_elem_of_filter; split; assumption).
    rewrite Hempty in Hin. inversion Hin.
Qed.

Lemma network_row_entries (self : DataGenerator.t) (timestamp : string)
    (s s' : S) (row : list (string * pyval)) :
  DataGenerator._generate_network_row self timestamp s = (Ok row, s') ->
  row.*1 = (DataGenerator.metadata_columns ++ Config.IMPORTANT_FEATURES)%list
  ∧ Forall (fun kv => kv.1 ∈ Config.IMPORTANT_FEATURES -> finite_number kv.2 = true) row.
Proof.
  unfold DataGenerator._generate_network_row. cbv zeta.
  set (all_ips := if bool_decide _ then _ else _).
  intros Hrow.
  repeat match type of Hrow with
  | (?m ≫= ?k) ?s0 = _ =>
      let Hm := fresh "Hm" in
      destruct (m s0) as [[?|?] ?] eqn:Hm;
      [ rewrite (bind_returns _ _ _ _ _ Hm) in Hrow
      | rewrite (bind_raises _ _ _ _ _ Hm) in Hrow; discriminate ]
  end.
  match type of Hrow with
  | dict_literal ?entries _ = _ => set (literal := entries) in Hrow
  end.
  destruct (dict_literal_entries
              (fun key v => key ∈ Config.IMPORTANT_FEATURES -> finite_number v = true)
              literal) with (s := s4) (d := row) (s' := s') as [Hkeys Hvals];
    [|exact Hrow|].
  { subst literal.
    repeat apply Forall_cons_2; try apply Forall_nil_2; cbn [fst snd].
    all: try (intros ? ? ? ? Hin; exfalso; revert Hin;
              apply (proj1 (bool_decide_eq_false _)); vm_compute; reflexivity).
    all: intros ? ? ? Hv _; revert Hv; apply expression_finite; finite_expression. }
  split; [rewrite Hkeys; reflexivity|exact Hvals].
Qed.

Lemma network_row_returns (self : DataGenerator.t) (timestamp : string) (s : S) :
  let pool := (DataGenerator.device_ips self ++ DataGenerator.vlan_ips self)%list in
  (length pool < 2)%nat ∨ (∃ a b, a ∈ pool ∧ b ∈ pool ∧ a ≠ b) ->
  ∃ row s', DataGenerator._generate_network_row self timestamp s = (Ok row, s').
Proof.
  cbv zeta. intros Hpool.
  unfold DataGenerator._generate_network_row. cbv zeta.
  set (all_ips := if bool_decide _ then _ else _).
  assert (Hdistinct : ∃ a b, a ∈ all_ips ∧ b ∈ all_ips ∧ a ≠ b).
  { subst all_ips. case_bool_decide as Hlen.
    - exists "192.168.1.1", "192.168.1.2".
      split; [repeat constructor|]. split; [repeat constructor|discriminate].
    - destruct Hpool as [Hlt|Hab]; [contradiction|exact Hab]. }
  assert (Hne : all_ips ≠ []).
  { destruct Hdistinct as (a & _ & Ha & _). intros ->. inversion Ha. }
  destruct (choice_returns all_ips s Hne) as (src_ip & s1 & Hsrc & _).
  rewrite (bind_returns _ _ _ _ _ Hsrc).
  destruct (choice_returns _ s1 (other_address all_ips src_ip Hdistinct))
    as (dst_ip & s2 & Hdst & _).
  rewrite (bind_returns _ _ _ _ _ Hdst).
  destruct (randint_returns 1 1000 s2) as (base_packets & s3 & Hbp).
  rewrite (bind_returns _ _ _ _ _ Hbp).
  destruct (randint_returns 64 1500 s3) as (per_packet & s4 & Hpp).
  rewrite (bind_returns _ _ _ _ _ Hpp).
  destruct (randint_returns 1000 300000000 s4) as (flow_duration & s5 & Hfd).
  rewrite (bind_returns _ _ _ _ _ Hfd).
  apply dict_literal_returns.
  repeat apply Forall_cons_2; try apply Forall_nil_2.
  5: { intros s0. cbn [snd].
       destruct (choice_returns (VInt <$> [80; 443; 22; 25; 53; 21; 23; 993; 995]%Z) s0)
         as (v & s0' & Hv & _); [discriminate|]. eauto. }
  all: expression_returns.
Qed.

End FeaturePayload.

(** C10.  [IMPORTANT_FEATURES] names 35 different features.  For every
    random source, [generate_realistic_features] returns a dictionary whose
    keys are exactly these names, in this order, and whose values are all
    finite numbers.  A row that [_generate_network_row] returns consists of
    the five columns of network metadata followed by exactly these 35
    features, each of them a finite number; and it returns a row whenever
    the configured addresses are fewer than two, so that the fallback
    addresses are used, or include two different ones. *)
Theorem feature_payload_has_the_35_features :
  length Config.IMPORTANT_FEATURES = 35%nat
  ∧ NoDup Config.IMPORTANT_FEATURES
  ∧ (∀ (S : Type) (source : Random.Source S) (s : S),
       ∃ features s',
         Features.generate_realistic_features s = (Py.Ok features, s')
         ∧ features.*1 = Config.IMPORTANT_FEATURES
         ∧ Forall (fun v => finite_number v = true) features.*2)
  ∧ (∀ (S : Type) (source : Random.Source S) self timestamp (s s' : S) row,
       DataGenerator._generate_network_row self timestamp s = (Py.Ok row, s') ->
       row.*1 = (DataGenerator.metadata_columns ++ Config.IMPORTANT_FEATURES)%list
       ∧ Forall (fun kv => kv.1 ∈ Config.IMPORTANT_FEATURES ->
                           finite_number kv.2 = true) row)
  ∧ (∀ (S : Type) (source : Random.Source S) self timestamp (s : S),
       let pool := (DataGenerator.device_ips self ++ DataGenerator.vlan_ips self)%list in
       (length pool < 2)%nat ∨ (∃ a b, a ∈ pool ∧ b ∈ pool ∧ a ≠ b) ->
       ∃ row s', DataGenerator._generate_network_row self timestamp s = (Py.Ok row, s')).
Proof.
  split; [reflexivity|].
  split; [apply (bool_decide_unpack (NoDup Config.IMPORTANT_FEATURES)); vm_compute; exact I|].
  split; [intros S source s; apply realistic_features_returns|].
  split.
  - intros S source self timestamp s s' row. apply network_row_entries.
  - intros S source self timestamp s. apply network_row_returns.
Qed.

(** With no configured address the fallback addresses are used. *)
Lemma feature_payload_has_the_35_features_witness :
  ∃ row s',
    DataGenerator._generate_network_row (DataGenerator.mk [] []) "2024-01-01T00:00:00"
      (Scripted.mk 0 Samples.lowest) = (Py.Ok row, s').
Proof.
  apply (proj2 (proj2 (proj2 (proj2 feature_payload_has_the_35_features)))
           Scripted.t Scripted.source (DataGenerator.mk [] []) "2024-01-01T00:00:00"
           (Scripted.mk 0 Samples.lowest)).
  left. cbn. lia.
Defined.

(** ** The analysis of one flow: reduction, Stage 1, Stage 2 *)

Section Analysis.

Import Py TriggerResponse.

Lemma foldl_insert_lookup {V} (f : string -> V) (names : list string)
    (d : gmap string V) (name : string) :
  foldl (fun d k => <[ k := f k ]> d) d names !! name
  = if bool_decide (name ∈ names) then Some (f name) else d !! name.
Proof.
  revert d. induction names as [|k names IH]; intros d; cbn [foldl].
  - rewrite bool_decide_eq_false_2; [reflexivity|]. apply not_elem_of_nil.
  - rewrite IH. destruct (decide (name ∈ names)) as [Hin|Hnin].
    + rewrite !bool_decide_eq_true_2; [reflexivity| |exact Hin].
      apply elem_of_cons. right. exact Hin.
    + rewrite (bool_decide_eq_false_2 _ Hnin).
      destruct (decide (name = k)) as [->|Hne].
      * rewrite lookup_insert_eq. rewrite bool_decide_eq_true_2; [reflexivity|].
        apply elem_of_cons. left. reflexivity.
      * rewrite lookup_insert_ne by congruence.
        rewrite bool_decide_eq_false_2; [reflexivity|].
        rewrite elem_of_cons. tauto.
Qed.

Lemma reduced_lookup (imp_features : gmap string pynum) (name : string) :
  PredictAnomaly.extract_reduced_features imp_features !! name
  = if bool_decide (name ∈ PredictAnomaly.rca_feature_names)
    then Some (get imp_features name (PFloat (Finite 0)))
    else None.
Proof.
  unfold PredictAnomaly.extract_reduced_features.
  rewrite (foldl_insert_lookup (fun k => get imp_features k (PFloat (Finite 0)))).
  rewrite lookup_empty. reflexivity.
Qed.

(** X1 ([extract_reduced_features]).  Whatever the 35-feature dictionary
    holds, the reduced dictionary has exactly the nine keys of
    [Config.RCA_TYPE1_FEATURES]: a feature that is present keeps its value,
    a feature that is missing becomes the float [0.0], and every other key
    is dropped.  In particular the reduced dictionary is never empty. *)
Theorem reduced_features_are_the_nine (imp_features : gmap string pynum) :
  let re_features := PredictAnomaly.extract_reduced_features imp_features in
  (∀ name, is_Some (re_features !! name) ↔ name ∈ Config.RCA_TYPE1_FEATURES)
  ∧ (∀ name v, name ∈ Config.RCA_TYPE1_FEATURES ->
        imp_features !! name = Some v -> re_features !! name = Some v)
  ∧ (∀ name, name ∈ Config.RCA_TYPE1_FEATURES ->
        imp_features !! name = None ->
        re_features !! name = Some (PFloat (Finite 0)))
  ∧ size re_features = 9%nat
  ∧ re_features ≠ ∅.
Proof.
  cbv zeta.
  assert (Hnames : PredictAnomaly.rca_feature_names = Config.RCA_TYPE1_FEATURES)
    by reflexivity.
  assert (Hdom : ∀ name,
            is_Some (PredictAnomaly.extract_reduced_features imp_features !! name)
            ↔ name ∈ Config.RCA_TYPE1_FEATURES).
  { intros name. rewrite reduced_lookup, Hnames.
    destruct (decide (name ∈ Config.RCA_TYPE1_FEATURES)) as [Hin|Hnin].
    - rewrite bool_decide_eq_true_2 by exact Hin. split; [intros _; exact Hin|eauto].
    - rewrite bool_decide_eq_false_2 by exact Hnin.
      split; [intros [? ?]; discriminate|contradiction]. }
  assert (Hsize : size (PredictAnomaly.extract_reduced_features imp_features) = 9%nat).
  { rewrite <- size_dom.
    assert (Hset : dom (PredictAnomaly.extract_reduced_features imp_features)
                   = (list_to_set Config.RCA_TYPE1_FEATURES : gset string)).
    { apply set_eq. intros name. rewrite elem_of_dom, elem_of_list_to_set. apply Hdom. }
    rewrite Hset, size_list_to_set; [reflexivity|].
    apply (bool_decide_unpack (NoDup Config.RCA_TYPE1_FEATURES)). vm_compute. exact I. }
  split; [exact Hdom|]. split; [|split; [|split; [exact Hsize|]]].
  - intros name v Hin Hv. rewrite reduced_lookup, Hnames.
    rewrite bool_decide_eq_true_2 by exact Hin. unfold get. rewrite Hv. reflexivity.
  - intros name Hin Hv. rewrite reduced_lookup, Hnames.
    rewrite bool_decide_eq_true_2 by exact Hin. unfold get. rewrite Hv. reflexivity.
  - intros Hempty. rewrite Hempty, map_size_empty in Hsize. discriminate.
Qed.

Lemma reduced_gt (imp_features : gmap string pynum) (name : string) (t : pynum) :
  name ∈ PredictAnomaly.rca_feature_names ->
  gt (get (PredictAnomaly.extract_reduced_features imp_features) name (PInt 0)) t
  = gt (get imp_features name (PInt 0)) t.
Proof.
  intros Hin. unfold get at 1. rewrite reduced_lookup.
  rewrite bool_decide_eq_true_2 by exact Hin. cbn [default].
  unfold get. destruct (imp_features !! name); reflexivity.
Qed.

(** X2 ([extract_reduced_features] before [classify_anomaly_type]).  The
    rule-based classifier gives the same answer on the reduced dictionary
    as on the full one, for every threshold table, also one on which it
    raises: the nine features kept are all that it reads, and [0.0] for a
    missing feature compares as its own default [0]. *)
Theorem classification_reads_only_the_reduced_features
    (imp_features : gmap string pynum)
    (thresholds : gmap string (gmap string pynum)) :
  RcaType1.classify_anomaly_type
    (PredictAnomaly.extract_reduced_features imp_features) thresholds
  = RcaType1.classify_anomaly_type imp_features thresholds.
Proof.
  unfold RcaType1.classify_anomaly_type, mbind, result_bind.
  repeat lazymatch goal with
  | |- context [match RcaType1.threshold thresholds ?g ?n with _ => _ end] =>
      let t := fresh "t" in
      destruct (RcaType1.threshold thresholds g n) as [t|];
      [|reflexivity];
      rewrite reduced_gt by (apply (bool_decide_unpack _); vm_compute; exact I);
      lazymatch goal with
      | |- context [gt ?a t] => destruct (gt a t); [reflexivity|]
      end
  end.
  reflexivity.
Qed.

Lemma first_match_is_a_category (features : gmap string pynum) (t : Config.Thresholds)
    (category : string) :
  RcaType1.first_match features t = Some category ->
  category ∈ RcaType1.category_order.
Proof.
  unfold RcaType1.first_match. intros Hfind.
  apply find_first in Hfind as (earlier & later & Heq & _ & _).
  rewrite Heq. apply elem_of_app. right. apply elem_of_cons. left. reflexivity.
Qed.

Lemma category_is_truthy (category : string) :
  category ∈ RcaType1.category_order -> falsy (Some category) = false.
Proof.
  intros Hin. unfold falsy. apply bool_decide_eq_false_2. intros ->.
  revert Hin. apply (bool_decide_unpack (EmptyString ∉ RcaType1.category_order)).
  vm_compute. exact I.
Qed.

Lemma get_features_set_features (d : gmap string pynum) (r : Response.t) :
  Response.get_features (Response.set_features d r) = d.
Proof.
  unfold Response.get_features, Response.set_features. cbn.
  destruct (decide (d = ∅)) as [->|]; reflexivity.
Qed.

(** What [analyze_rule_based] does, by the outcome of the classification. *)
Lemma analyze_rule_based_cases sim log_id re_features session :
  match RcaType1.first_match re_features Config.default_thresholds with
  | Some category =>
      category ∈ RcaType1.category_order
      ∧ RuleBased.analyze_rule_based sim log_id re_features session
        = (RuleBased.Classified category re_features
             (trigger_response1_internal sim log_id category re_features session).1,
           (trigger_response1_internal sim log_id category re_features session).2)
  | None =>
      RuleBased.analyze_rule_based sim log_id re_features session
      = (RuleBased.Unclassified re_features, session)
  end.
Proof.
  unfold RuleBased.analyze_rule_based, Config.RCA_TYPE1_THRESHOLDS.
  rewrite classify_refines_first_match.
  destruct (RcaType1.first_match re_features Config.default_thresholds)
    as [category|] eqn:Hfirst; [|reflexivity].
  pose proof (first_match_is_a_category _ _ _ Hfirst) as Hin.
  split; [exact Hin|].
  rewrite (category_is_truthy _ Hin).
  destruct (trigger_response1_internal sim log_id category re_features session).
  reflexivity.
Qed.

Lemma type1_category_response_type sim category event :
  category ∈ RcaType1.category_order ->
  ResponseResult.response_type (execute_type1_response sim category event)
  = type (get_type1_response_actions category)
  ∧ type (get_type1_response_actions category) ≠ "generic_fix".
Proof.
  intros Hin.
  pose proof (type1_categories_are_executed sim event) as Hall.
  rewrite Forall_forall in Hall.
  destruct (Hall category Hin) as (success & path & Heq & Hne).
  rewrite Heq. split; [reflexivity|exact Hne].
Qed.

(** X3 ([analyze_rule_based] with [trigger_response1_internal]).  The
    rule-based analysis never changes the events and writes at most one
    response row.  It writes one exactly when a category is found and the
    event exists: the row carries the flow's [log_id], the category, its
    own response type (never the generic one), the analysed features, and
    no Stage 2 data.  With a category but no event it reports
    ['Event not found'], without a category it reports ['unknown']; in both
    cases the tables are untouched. *)
Theorem rule_based_analysis_writes_one_row
    (sim : Sim) (log_id : string) (re_features : gmap string pynum) (session : Store) :
  let outcome := RuleBased.analyze_rule_based sim log_id re_features session in
  events outcome.2 = events session
  ∧ match RcaType1.first_match re_features Config.default_thresholds,
          first_event log_id (events session) with
    | Some category, Some event =>
        outcome.1
        = RuleBased.Classified category re_features
            (Success (generated_anomaly_id sim)
               (execute_type1_response sim category event))
        ∧ ∃ r, responses outcome.2 = (responses session ++ [r])%list
               ∧ Response.log_id r = log_id
               ∧ Response.anomaly_type1 r = Some category
               ∧ Response.res_type1 r = Some (type (get_type1_response_actions category))
               ∧ Response.res_type1 r ≠ Some "generic_fix"
               ∧ Response.get_features r = re_features
               ∧ Response.anomaly_type2 r = None
               ∧ Response.res_type2 r = None
    | Some category, None =>
        outcome = (RuleBased.Classified category re_features (Failure "Event not found"),
                   session)
    | None, _ => outcome = (RuleBased.Unclassified re_features, session)
    end.
Proof.
  cbv zeta.
  pose proof (analyze_rule_based_cases sim log_id re_features session) as Hcases.
  destruct (RcaType1.first_match re_features Config.default_thresholds)
    as [category|]; [|rewrite Hcases; split; reflexivity].
  destruct Hcases as [Hin ->]. cbn [fst snd].
  unfold trigger_response1_internal.
  destruct (first_event log_id (events session)) as [event|] eqn:Hev;
    [|split; reflexivity].
  cbn [fst snd events responses]. split; [reflexivity|]. split; [reflexivity|].
  destruct (type1_category_response_type sim category event Hin) as [Htype Hne].
  eexists. split; [reflexivity|].
  rewrite get_features_set_features. cbn.
  rewrite Htype. repeat split; try reflexivity. congruence.
Qed.

End Analysis.

(** ** The two stages in sequence *)

Section Stages.

Import Py TriggerResponse.

Variable get_vlan_by_ip : string -> option (string * Topology.Vlan).

Context {S : Type} `{Random.Source S}.

Lemma check_type_is_truthy (category : string) :
  category ∈ RcaType2.check_anomaly_types -> falsy (Some category) = false.
Proof.
  intros Hin. unfold falsy. apply bool_decide_eq_false_2. intros ->.
  revert Hin. apply (bool_decide_unpack (EmptyString ∉ RcaType2.check_anomaly_types)).
  vm_compute. exact I.
Qed.

(** What [analyze_network_troubleshooting] does for a recorded event, by
    the outcome of the troubleshooting. *)
Lemma analyze_network_troubleshooting_cases sim log_id (s : S) session event :
  first_event log_id (events session) = Some event ->
  ∃ troubleshooting s',
    RcaType2.run_troubleshooting_simulation s = (Ok troubleshooting, s')
    ∧ NetworkAnalysis.analyze_network_troubleshooting get_vlan_by_ip sim log_id s session
      = match RcaType2.found troubleshooting with
        | Some category =>
            (NetworkAnalysis.Detected category
               (NetworkAnalysis.identify_target_device get_vlan_by_ip
                  (Event.src_ip event) (Event.dst_ip event))
               (trigger_response2_internal sim log_id category session).1,
             s', (trigger_response2_internal sim log_id category session).2)
        | None =>
            (NetworkAnalysis.NoIssue
               (NetworkAnalysis.identify_target_device get_vlan_by_ip
                  (Event.src_ip event) (Event.dst_ip event)),
             s', session)
        end.
Proof.
  intros Hev.
  destruct (troubleshooting_categories s) as (t & s' & Hrun & Hcat).
  exists t, s'. split; [exact Hrun|].
  unfold NetworkAnalysis.analyze_network_troubleshooting. rewrite Hev, Hrun.
  destruct Hcat as [Hnone|(category & Hsome & Hin)].
  - rewrite Hnone. reflexivity.
  - rewrite Hsome, (check_type_is_truthy _ Hin).
    destruct (trigger_response2_internal sim log_id category session). reflexivity.
Qed.

(** X4 ([forward_to_rca]: [analyze_rule_based], then
    [analyze_network_troubleshooting]).  For a recorded event that has no
    response row yet, the two analyses run in this order on one session:
    when Stage 1 finds a category, its new row is the row that Stage 2
    completes, so the flow ends with a single row that carries both
    categories, the anomaly identifier of Stage 1 and the conjunction of
    the two outcomes.  The result that Stage 2 reports for this stored
    update is nevertheless a failure, with the text of the
    [DetachedInstanceError] that [trigger_response2_internal] meets when it
    reads [response.anomaly_id] after the commit.  When Stage 1 finds no
    category, no row exists and a finding of Stage 2 is answered with
    ['Response record not found'], the tables being left as they were. *)
Theorem stage2_completes_the_row_of_stage1
    (sim1 sim2 : Sim) (log_id : string) (re_features : gmap string pynum)
    (s : S) (session : Store) (event : Event.t) :
  first_event log_id (events session) = Some event ->
  first_response log_id (responses session) = None ->
  ∃ troubleshooting s',
    RcaType2.run_troubleshooting_simulation s = (Ok troubleshooting, s')
    ∧ let outcome :=
        PredictAnomaly.forward_to_rca get_vlan_by_ip sim1 sim2 log_id re_features
          s session in
      let target :=
        NetworkAnalysis.identify_target_device get_vlan_by_ip
          (Event.src_ip event) (Event.dst_ip event) in
      outcome.1.2 = s'
      ∧ events outcome.2 = events session
      ∧ match RcaType1.first_match re_features Config.default_thresholds,
              RcaType2.found troubleshooting with
        | Some category1, Some category2 =>
            ∃ r1 r2,
              responses (RuleBased.analyze_rule_based sim1 log_id re_features session).2
              = (responses session ++ [r1])%list
              ∧ responses outcome.2 = (responses session ++ [r2])%list
              ∧ outcome.1.1.2
                = NetworkAnalysis.Detected category2 target
                    (Failure (detached_error sim2))
              ∧ Response.log_id r2 = log_id
              ∧ Response.anomaly_id r2 = generated_anomaly_id sim1
              ∧ Response.anomaly_type1 r2 = Some category1
              ∧ Response.anomaly_type2 r2 = Some category2
              ∧ Response.success r2
                = ResponseResult.success (execute_type1_response sim1 category1 event)
                  && ResponseResult.success (execute_type2_response sim2 category2 r1)
        | Some category1, None =>
            ∃ r1,
              responses outcome.2 = (responses session ++ [r1])%list
              ∧ outcome.1.1.2 = NetworkAnalysis.NoIssue target
              ∧ Response.anomaly_type1 r1 = Some category1
              ∧ Response.anomaly_type2 r1 = None
        | None, Some category2 =>
            outcome.2 = session
            ∧ outcome.1.1
              = (RuleBased.Unclassified re_features,
                 NetworkAnalysis.Detected category2 target
                   (Failure "Response record not found"))
        | None, None =>
            outcome.2 = session
            ∧ outcome.1.1
              = (RuleBased.Unclassified re_features, NetworkAnalysis.NoIssue target)
        end.
Proof.
  intros Hev Hnone. unfold PredictAnomaly.forward_to_rca.
  pose proof (analyze_rule_based_cases sim1 log_id re_features session) as Hcases.
  destruct (RcaType1.first_match re_features Config.default_thresholds)
    as [category1|].
  - destruct Hcases as [Hin Hrule]. rewrite Hrule.
    destruct (trigger_response1_writes sim1 log_id category1 re_features session
                event Hev) as (r1 & Heq & Hlog & Htype1 & Htype2 & Hsucc & _).
    rewrite Heq. cbn [fst snd].
    set (session1 := mkStore (events session) (responses session ++ [r1])%list).
    assert (Hev1 : first_event log_id (events session1) = Some event) by exact Hev.
    destruct (analyze_network_troubleshooting_cases sim2 log_id s session1 event Hev1)
      as (t & s' & Hrun & Hnet).
    exists t, s'. split; [exact Hrun|]. cbv zeta. rewrite Hnet.
    destruct (RcaType2.found t) as [category2|].
    + pose proof (first_response_app_new log_id (responses session) r1 Hnone Hlog)
        as Hi.
      assert (Hr1 : (responses session ++ [r1])%list !! length (responses session)
                    = Some r1) by apply list_lookup_middle, eq_refl.
      rewrite (trigger_response2_updates sim2 log_id category2 session1
                 (length (responses session)) r1 Hi Hr1).
      cbn [fst snd events responses session1].
      split; [reflexivity|]. split; [reflexivity|].
      exists r1, (type2_update category2 (execute_type2_response sim2 category2 r1) r1).
      split; [reflexivity|]. split.
      { rewrite insert_app_r_alt by lia. rewrite Nat.sub_diag. reflexivity. }
      assert (Hid : Response.anomaly_id r1 = generated_anomaly_id sim1).
      { unfold trigger_response1_internal in Heq. rewrite Hev in Heq.
        injection Heq as Hrows. apply app_inj_tail in Hrows as [_ <-]. reflexivity. }
      split; [reflexivity|].
      rewrite type2_update_success, Hsucc. cbn.
      repeat split; assumption.
    + cbn [fst snd events responses session1].
      split; [reflexivity|]. split; [reflexivity|].
      exists r1. repeat split; assumption.
  - rewrite Hcases.
    destruct (analyze_network_troubleshooting_cases sim2 log_id s session event Hev)
      as (t & s' & Hrun & Hnet).
    exists t, s'. split; [exact Hrun|]. cbv zeta. rewrite Hnet.
    destruct (RcaType2.found t) as [category2|].
    + unfold trigger_response2_internal. rewrite Hnone. cbn [fst snd].
      repeat split; reflexivity.
    + cbn [fst snd]. repeat split; reflexivity.
Qed.

(** *** Integrity of the tables *)

Lemma next_id_fresh (rows : list Response.t) (r : Response.t) :
  r ∈ rows -> (Response.id r < next_id rows)%Z.
Proof.
  unfold next_id. induction rows as [|a rows IH]; intros Hin.
  - apply elem_of_nil in Hin. contradiction.
  - cbn [foldr]. apply elem_of_cons in Hin as [->|Hin]; [lia|].
    specialize (IH Hin). lia.
Qed.

Lemma trigger_response1_consistent sim log_id anomaly_type re_features session :
  PredictAnomaly.consistent session ->
  PredictAnomaly.consistent
    (trigger_response1_internal sim log_id anomaly_type re_features session).2.
Proof.
  intros [Hids Hrefs]. unfold trigger_response1_internal.
  destruct (first_event log_id (events session)) as [event|] eqn:Hev;
    [|split; assumption].
  cbn [snd]. split; cbn [responses events].
  - rewrite fmap_app. apply NoDup_app. split; [exact Hids|]. split.
    + intros id Hin Hnew. cbn in Hnew. apply list_elem_of_singleton in Hnew.
      apply list_elem_of_fmap in Hin as (r & -> & Hr).
      pose proof (next_id_fresh _ _ Hr). lia.
    + cbn. apply NoDup_singleton.
  - apply Forall_app. split; [exact Hrefs|].
    apply Forall_cons_2; [|apply Forall_nil_2].
    exists event. cbn. repeat split; try reflexivity. exact Hev.
Qed.

Lemma trigger_response2_consistent sim log_id anomaly_type session :
  PredictAnomaly.consistent session ->
  PredictAnomaly.consistent (trigger_response2_internal sim log_id anomaly_type session).2.
Proof.
  intros [Hids Hrefs]. unfold trigger_response2_internal.
  destruct (first_response log_id (responses session)) as [i|]; [|split; assumption].
  destruct (responses session !! i) as [r|] eqn:Hr; [|split; assumption].
  cbn [snd]. split; cbn [responses events].
  - rewrite list_fmap_insert. cbn [type2_update Response.id].
    rewrite list_insert_id; [exact Hids|].
    rewrite list_lookup_fmap, Hr. reflexivity.
  - apply Forall_insert; [exact Hrefs|].
    rewrite Forall_forall in Hrefs.
    destruct (Hrefs r (list_elem_of_lookup_2 _ _ _ Hr)) as (event & Hev & Hflow).
    exists event. cbn. split; [exact Hev|exact Hflow].
Qed.

Lemma forward_to_rca_consistent sim1 sim2 log_id re_features (s : S) session :
  PredictAnomaly.consistent session ->
  PredictAnomaly.consistent
    (PredictAnomaly.forward_to_rca get_vlan_by_ip sim1 sim2 log_id re_features
       s session).2.
Proof.
  intros Hcons. unfold PredictAnomaly.forward_to_rca.
  assert (Hcons1 : PredictAnomaly.consistent
                     (RuleBased.analyze_rule_based sim1 log_id re_features session).2).
  { pose proof (analyze_rule_based_cases sim1 log_id re_features session) as Hcases.
    destruct (RcaType1.first_match re_features Config.default_thresholds).
    - destruct Hcases as [_ ->]. cbn [snd]. apply trigger_response1_consistent, Hcons.
    - rewrite Hcases. exact Hcons. }
  destruct (RuleBased.analyze_rule_based sim1 log_id re_features session)
    as [rca1_result session1]. cbn [snd] in Hcons1.
  unfold NetworkAnalysis.analyze_network_troubleshooting.
  destruct (first_event log_id (events session1)) as [event|]; [|exact Hcons1].
  destruct (RcaType2.run_troubleshooting_simulation s) as [[t|e] s']; [|exact Hcons1].
  destruct (RcaType2.found t) as [category|]; [|exact Hcons1].
  destruct (falsy (Some category)); [exact Hcons1|].
  pose proof (trigger_response2_consistent sim2 log_id category session1 Hcons1)
    as Hcons2.
  destruct (trigger_response2_internal sim2 log_id category session1). exact Hcons2.
Qed.

Lemma forward_to_rca_events sim1 sim2 log_id re_features (s : S) session :
  events (PredictAnomaly.forward_to_rca get_vlan_by_ip sim1 sim2 log_id re_features
            s session).2
  = events session.
Proof.
  unfold PredictAnomaly.forward_to_rca.
  assert (Hev1 : events (RuleBased.analyze_rule_based sim1 log_id re_features session).2
                 = events session).
  { pose proof (analyze_rule_based_cases sim1 log_id re_features session) as Hcases.
    destruct (RcaType1.first_match re_features Config.default_thresholds).
    - destruct Hcases as [_ ->]. cbn [snd]. unfold trigger_response1_internal.
      destruct (first_event log_id (events session)); reflexivity.
    - rewrite Hcases. reflexivity. }
  destruct (RuleBased.analyze_rule_based sim1 log_id re_features session)
    as [rca1_result session1]. cbn [snd] in Hev1.
  unfold NetworkAnalysis.analyze_network_troubleshooting.
  destruct (first_event log_id (events session1)) as [event|]; [|exact Hev1].
  destruct (RcaType2.run_troubleshooting_simulation s) as [[t|e] s']; [|exact Hev1].
  destruct (RcaType2.found t) as [category|]; [|exact Hev1].
  destruct (falsy (Some category)); [exact Hev1|].
  unfold trigger_response2_internal.
  destruct (first_response log_id (responses session1)) as [i|]; [|exact Hev1].
  destruct (responses session1 !! i); exact Hev1.
Qed.

(** X5 ([predict_anomaly_internal] down to the two
    [trigger_response*_internal]).  Whatever the model answers and whatever
    the analyses draw, handling one flow keeps the two tables consistent:
    the events are left as they were, the primary keys of the responses
    stay pairwise distinct, and every response row still names a recorded
    event and carries that event's addresses and ports. *)
Theorem pipeline_keeps_the_tables_consistent
    (is_anomalous : result bool) (sim1 sim2 : Sim) (log_id : string)
    (imp_features : gmap string pynum) (s : S) (session : Store) :
  PredictAnomaly.consistent session ->
  let session' :=
    (PredictAnomaly.predict_anomaly_internal get_vlan_by_ip is_anomalous sim1 sim2
       log_id imp_features s session).2 in
  events session' = events session ∧ PredictAnomaly.consistent session'.
Proof.
  intros Hcons. cbv zeta. unfold PredictAnomaly.predict_anomaly_internal.
  destruct is_anomalous as [[|]|e]; [|split; [reflexivity|exact Hcons]..].
  pose proof (forward_to_rca_events sim1 sim2 log_id
                (PredictAnomaly.extract_reduced_features imp_features) s session)
    as Hev.
  pose proof (forward_to_rca_consistent sim1 sim2 log_id
                (PredictAnomaly.extract_reduced_features imp_features) s session Hcons)
    as Hcons'.
  destruct (PredictAnomaly.forward_to_rca get_vlan_by_ip sim1 sim2 log_id
              (PredictAnomaly.extract_reduced_features imp_features) s session)
    as [[rca_results s'] session'].
  split; assumption.
Qed.

End Stages.

(** The flow of the sample event: Stage 1 finds bandwidth saturation and
    the first check of Stage 2 reports high latency. *)
Lemma stage2_completes_the_row_of_stage1_witness :
  ∃ r2,
    TriggerResponse.responses
      (PredictAnomaly.forward_to_rca (fun _ => None) Samples.sim1_success
         Samples.sim2_success (Event.log_id Samples.event1) Samples.re_features1
         (Scripted.mk 0 Samples.second) Samples.session0).2
    = [r2]
    ∧ Response.anomaly_type1 r2 = Some "bandwidth_saturation"
    ∧ Response.anomaly_type2 r2 = Some "high_latency"
    ∧ ∃ target,
        (PredictAnomaly.forward_to_rca (fun _ => None) Samples.sim1_success
           Samples.sim2_success (Event.log_id Samples.event1) Samples.re_features1
           (Scripted.mk 0 Samples.second) Samples.session0).1.1.2
        = NetworkAnalysis.Detected "high_latency" target
            (TriggerResponse.Failure Samples.detached).
Proof.
  destruct (stage2_completes_the_row_of_stage1 (fun _ => None)
              Samples.sim1_success Samples.sim2_success
              (Event.log_id Samples.event1) Samples.re_features1
              (Scripted.mk 0 Samples.second) Samples.session0 Samples.event1
              eq_refl eq_refl) as (t & s' & Hrun & Hout).
  vm_compute in Hrun. injection Hrun as <- <-.
  cbv zeta in Hout. destruct Hout as (_ & _ & Hrows).
  change (RcaType1.first_match Samples.re_features1 Config.default_thresholds)
    with (Some "bandwidth_saturation") in Hrows.
  cbn [RcaType2.found] in Hrows.
  destruct Hrows as (r1 & r2 & _ & Hr2 & Hresult & _ & _ & Ht1 & Ht2 & _).
  exists r2. split; [exact Hr2|]. split; [exact Ht1|]. split; [exact Ht2|].
  eexists. exact Hresult.
Defined.

(** A second anomalous flow with the [log_id] of the sample event, handled
    after Stage 1 has written its row. *)
Lemma pipeline_keeps_the_tables_consistent_witness :
  PredictAnomaly.consistent Samples.session1
  ∧ PredictAnomaly.consistent
      (PredictAnomaly.predict_anomaly_internal (fun _ => None) (Py.Ok true)
         Samples.sim1_failure Samples.sim2_success
         (Event.log_id Samples.event1) Samples.re_features1
         (Scripted.mk 0 Samples.second) Samples.session1).2.
Proof.
  assert (Hcons : PredictAnomaly.consistent Samples.session1).
  { split.
    - apply (bool_decide_unpack _). vm_compute. exact I.
    - apply Forall_cons_2; [|apply Forall_nil_2].
      exists Samples.event1. repeat split; reflexivity. }
  split; [exact Hcons|].
  apply (pipeline_keeps_the_tables_consistent (fun _ => None) (Py.Ok true)
           Samples.sim1_failure Samples.sim2_success
           (Event.log_id Samples.event1) Samples.re_features1
           (Scripted.mk 0 Samples.second) Samples.session1 Hcons).
Defined.

(** ** The statistics of Stage 1 *)

Section RuleStatistics.

Import Py TriggerResponse.

Lemma count_type1_app (name : string) (rows : list Response.t) (r : Response.t) :
  RuleBased.count_type1 name (rows ++ [r])
  = (RuleBased.count_type1 name rows
     + if bool_decide (Response.anomaly_type1 r = Some name) then 1 else 0)%nat.
Proof.
  unfold RuleBased.count_type1. rewrite filter_app, length_app. f_equal.
  rewrite filter_cons, filter_nil.
  destruct (decide (Response.anomaly_type1 r = Some name)) as [Heq|Hne].
  - rewrite bool_decide_eq_true_2 by exact Heq. reflexivity.
  - rewrite bool_decide_eq_false_2 by exact Hne. reflexivity.
Qed.

(** X6 ([get_rule_statistics] after [analyze_rule_based]).  Every row that
    the rule-based analysis writes is counted by the statistics, in the
    bucket of its category and in no other: the total grows by the number
    of rows written, which is zero or one. *)
Theorem rule_statistics_count_every_written_row
    (sim : Sim) (log_id : string) (re_features : gmap string pynum) (session : Store) :
  let session' := (RuleBased.analyze_rule_based sim log_id re_features session).2 in
  let written := (length (responses session') - length (responses session))%nat in
  (written ≤ 1)%nat
  ∧ RuleBased.total (RuleBased.get_rule_statistics session')
    = (RuleBased.total (RuleBased.get_rule_statistics session) + written)%nat
  ∧ (RuleBased.bandwidth_saturation (RuleBased.get_rule_statistics session')
     + RuleBased.throughput_anomaly (RuleBased.get_rule_statistics session')
     + RuleBased.header_length (RuleBased.get_rule_statistics session')
     + RuleBased.packet_size (RuleBased.get_rule_statistics session')
     + RuleBased.flow_duration (RuleBased.get_rule_statistics session')
     = RuleBased.total (RuleBased.get_rule_statistics session'))%nat.
Proof.
  cbv zeta.
  pose proof (analyze_rule_based_cases sim log_id re_features session) as Hcases.
  destruct (RcaType1.first_match re_features Config.default_thresholds)
    as [category|].
  2: { rewrite Hcases. cbn [snd]. rewrite Nat.sub_diag.
       split; [lia|]. split; [lia|reflexivity]. }
  destruct Hcases as [Hin ->]. cbn [snd].
  unfold trigger_response1_internal.
  destruct (first_event log_id (events session)) as [event|].
  2: { cbn [snd]. rewrite Nat.sub_diag. split; [lia|]. split; [lia|reflexivity]. }
  cbn [snd responses]. rewrite length_app. cbn [length].
  split; [lia|]. split; [|reflexivity].
  unfold RuleBased.get_rule_statistics. cbn [RuleBased.total responses].
  rewrite !count_type1_app. cbn [Response.anomaly_type1 Response.set_features].
  unfold RcaType1.category_order in Hin.
  repeat (apply elem_of_cons in Hin as [->|Hin];
          [repeat first [ rewrite bool_decide_eq_true_2 by reflexivity
                        | rewrite bool_decide_eq_false_2 by discriminate ]; lia|]).
  apply elem_of_nil in Hin. contradiction.
Qed.

End RuleStatistics.

(** ** The topology and the address pool of the CSV generator *)

Section AddressPool.

Import Py.

Lemma find_is_Some {A} (p : A -> bool) (l : list A) :
  is_Some (List.find p l) ↔ ∃ x, x ∈ l ∧ p x = true.
Proof.
  induction l as [|a l IH]; cbn.
  - split; [intros [? ?]; discriminate|].
    intros (x & Hin & _). apply elem_of_nil in Hin. contradiction.
  - destruct (p a) eqn:Hpa.
    + split; [|eauto]. intros _. exists a. split; [|exact Hpa].
      apply elem_of_cons. left. reflexivity.
    + rewrite IH. split.
      * intros (x & Hin & Hx). exists x. split; [|exact Hx].
        apply elem_of_cons. right. exact Hin.
      * intros (x & Hin & Hx). apply elem_of_cons in Hin as [->|Hin]; [congruence|].
        exists x. split; assumption.
Qed.

Lemma find_Some_holds {A} (p : A -> bool) (l : list A) (x : A) :
  List.find p l = Some x -> x ∈ l ∧ p x = true.
Proof.
  intros Hfind. apply find_first in Hfind as (earlier & later & -> & Hx & _).
  split; [|exact Hx]. apply elem_of_app. right. apply elem_of_cons. left. reflexivity.
Qed.

Lemma elem_of_concat {A} (x : A) (ls : list (list A)) :
  x ∈ concat ls ↔ ∃ l, x ∈ l ∧ l ∈ ls.
Proof.
  induction ls as [|l ls IH]; cbn [concat].
  - split; [intros Hin; apply elem_of_nil in Hin; contradiction|].
    intros (l & _ & Hl). apply elem_of_nil in Hl. contradiction.
  - rewrite elem_of_app, IH. split.
    + intros [Hin|(l' & Hin & Hl')].
      * exists l. split; [exact Hin|]. apply elem_of_cons. left. reflexivity.
      * exists l'. split; [exact Hin|]. apply elem_of_cons. right. exact Hl'.
    + intros (l' & Hin & Hl'). apply elem_of_cons in Hl' as [->|Hl'].
      * left. exact Hin.
      * right. exists l'. split; assumption.
Qed.

Lemma has_address_spec (ip : string) (device : Topology.Device) :
  Topology.has_address ip device = true
  ↔ ip ∈ Topology.management_ip device :: (Topology.interfaces device).*2.
Proof.
  unfold Topology.has_address. rewrite orb_true_iff, !bool_decide_eq_true, elem_of_cons.
  split; (intros [Hm|Hi]; [left; congruence|right; exact Hi]).
Qed.

Lemma device_address_in_pool (network_devices : list (string * Topology.Device))
    (ip : string) :
  ip ∈ Generator._extract_device_ips network_devices
  ↔ ip ≠ EmptyString
    ∧ ∃ entry, entry ∈ network_devices ∧ Topology.has_address ip entry.2 = true.
Proof.
  unfold Generator._extract_device_ips. rewrite list_elem_of_filter.
  split; intros [Hne Hin]; (split; [exact Hne|]).
  - apply elem_of_concat in Hin as (ips & Hip & Hips).
    apply list_elem_of_fmap in Hips as (entry & -> & Hentry).
    exists entry. split; [exact Hentry|]. apply has_address_spec. exact Hip.
  - destruct Hin as (entry & Hentry & Hhas).
    apply elem_of_concat.
    exists (Topology.management_ip entry.2 :: (Topology.interfaces entry.2).*2).
    split; [apply has_address_spec; exact Hhas|].
    apply list_elem_of_fmap. exists entry. split; [reflexivity|exact Hentry].
Qed.

(** X7 ([DataGenerator._extract_device_ips], [Config.get_device_by_ip],
    [identify_target_device]).  For every device table, the device
    addresses from which the CSV generator draws are exactly the non-empty
    addresses that [get_device_by_ip] resolves, and the device it returns
    is a device of the table that holds the address.  With the table of
    [Config], a flow whose source is one of these addresses is therefore
    always attributed to a device of the table, never to a VLAN or to the
    unknown device, whatever its destination. *)
Theorem generated_device_addresses_resolve :
  (∀ network_devices ip,
     ip ∈ Generator._extract_device_ips network_devices
     ↔ ip ≠ EmptyString ∧ is_Some (Topology.get_device_by_ip network_devices ip))
  ∧ (∀ network_devices ip name device,
       Topology.get_device_by_ip network_devices ip = Some (name, device) ->
       (name, device) ∈ network_devices
       ∧ ip ∈ Topology.management_ip device :: (Topology.interfaces device).*2)
  ∧ (∀ get_vlan_by_ip src_ip dst_ip,
       src_ip ∈ Generator._extract_device_ips Topology.NETWORK_DEVICES ->
       ∃ name device,
         Topology.get_device_by_ip Topology.NETWORK_DEVICES src_ip = Some (name, device)
         ∧ NetworkAnalysis.identify_target_device get_vlan_by_ip src_ip dst_ip
           = NetworkAnalysis.KnownDevice name src_ip (Topology.type device)
               (Topology.management_ip device)).
Proof.
  assert (Hresolve : ∀ network_devices ip,
            ip ∈ Generator._extract_device_ips network_devices
            ↔ ip ≠ EmptyString
              ∧ is_Some (Topology.get_device_by_ip network_devices ip)).
  { intros network_devices ip. rewrite device_address_in_pool.
    unfold Topology.get_device_by_ip. rewrite find_is_Some. reflexivity. }
  assert (Hholds : ∀ network_devices ip name device,
            Topology.get_device_by_ip network_devices ip = Some (name, device) ->
            (name, device) ∈ network_devices
            ∧ ip ∈ Topology.management_ip device :: (Topology.interfaces device).*2).
  { intros network_devices ip name device Hfind.
    apply find_Some_holds in Hfind as [Hin Hhas].
    split; [exact Hin|]. apply has_address_spec. exact Hhas. }
  split; [exact Hresolve|]. split; [exact Hholds|].
  intros get_vlan_by_ip src_ip dst_ip Hsrc.
  apply Hresolve in Hsrc as [_ [[name device] Hfind]].
  exists name, device. split; [exact Hfind|].
  unfold NetworkAnalysis.identify_target_device, NetworkAnalysis.known_device.
  rewrite Hfind.
  destruct (Hholds _ _ _ _ Hfind) as [Hin _].
  assert (Hname : TriggerResponse.falsy (Some name) = false).
  { unfold TriggerResponse.falsy. apply bool_decide_eq_false_2. intros ->.
    apply (list_elem_of_fmap_2 fst) in Hin. revert Hin.
    apply (bool_decide_unpack (EmptyString ∉ Topology.NETWORK_DEVICES.*1)).
    vm_compute. exact I. }
  rewrite Hname. reflexivity.
Qed.

End AddressPool.

(** ** The rows of the CSV generator *)

Section NetworkRow.

Import Py.

Lemma bind_inv {S A B} (m : St S A) (k : A -> St S B) (s s' : S) (b : B) :
  (m ≫= k) s = (Ok b, s') -> ∃ a s1, m s = (Ok a, s1) ∧ k a s1 = (Ok b, s').
Proof.
  unfold mbind, St_bind. destruct (m s) as [[a|e] s1]; [eauto|discriminate].
Qed.

Lemma dict_literal_cons_inv {S} (key : string) (expression : St S pyval)
    (rest : list (string * St S pyval)) (s s' : S) (d : list (string * pyval)) :
  dict_literal ((key, expression) :: rest) s = (Ok d, s') ->
  ∃ v s1 d', expression s = (Ok v, s1)
             ∧ dict_literal rest s1 = (Ok d', s')
             ∧ d = (key, v) :: d'.
Proof.
  cbn [dict_literal]. intros Hd.
  apply bind_inv in Hd as (v & s1 & Hv & Hd).
  apply bind_inv in Hd as (d' & s2 & Hd' & Hret).
  injection Hret as <- <-. eauto 6.
Qed.

Context {S : Type} `{Random.Source S}.

(** What [random.choice] returns is a member of the sequence. *)
Lemma choice_member {A} (seq : list A) (s s' : S) (x : A) :
  Random.choice seq s = (Ok x, s') -> x ∈ seq.
Proof.
  unfold Random.choice. destruct seq as [|a seq]; [discriminate|].
  destruct (Random.randbelow (length (a :: seq)) s) as [i s1].
  destruct ((a :: seq) !! i) as [y|] eqn:Hy; [|discriminate].
  intros [= <- <-]. eapply list_elem_of_lookup_2. exact Hy.
Qed.

(** X8 ([DataGenerator._generate_network_row]).  A generated row names two
    different addresses: its source and its destination are both taken from
    the generator's pool, the configured device and VLAN addresses or the
    four fallback addresses, and they are never equal. *)
Theorem network_row_endpoints_differ (self : DataGenerator.t) (timestamp : string)
    (s s' : S) (row : list (string * pyval)) :
  DataGenerator._generate_network_row self timestamp s = (Ok row, s') ->
  ∃ src_ip dst_ip,
    Generator.column "Src IP" row = Some (VStr src_ip)
    ∧ Generator.column "Dst IP" row = Some (VStr dst_ip)
    ∧ src_ip ∈ Generator.pool self
    ∧ dst_ip ∈ Generator.pool self
    ∧ src_ip ≠ dst_ip.
Proof.
  intros Hrow. unfold DataGenerator._generate_network_row in Hrow. cbv zeta in Hrow.
  change (if bool_decide (length (DataGenerator.device_ips self
                                   ++ DataGenerator.vlan_ips self) < 2)%nat
          then ["192.168.1.1"; "192.168.1.2"; "192.168.10.1"; "192.168.20.1"]
          else (DataGenerator.device_ips self ++ DataGenerator.vlan_ips self)%list)
    with (Generator.pool self) in Hrow.
  apply bind_inv in Hrow as (src_ip & s1 & Hsrc & Hrow).
  apply bind_inv in Hrow as (dst_ip & s2 & Hdst & Hrow).
  apply bind_inv in Hrow as (base_packets & s3 & _ & Hrow).
  apply bind_inv in Hrow as (per_packet & s4 & _ & Hrow).
  apply bind_inv in Hrow as (flow_duration & s5 & _ & Hrow).
  apply dict_literal_cons_inv in Hrow as (v1 & t1 & d1 & _ & Hrow & ->).
  apply dict_literal_cons_inv in Hrow as (v2 & t2 & d2 & Hv2 & Hrow & ->).
  apply dict_literal_cons_inv in Hrow as (v3 & t3 & d3 & Hv3 & _ & ->).
  injection Hv2 as <- _. injection Hv3 as <- _.
  exists src_ip, dst_ip.
  apply choice_member in Hsrc. apply choice_member in Hdst.
  apply list_elem_of_filter in Hdst as [Hne Hdst].
  repeat split; try reflexivity; try assumption. congruence.
Qed.

(** X9 ([DataGenerator._generate_network_row] on a degenerate pool).  When
    the configured addresses are two or more copies of one address, the
    fallback addresses are not used, no destination different from the
    source exists, and the row generation raises [IndexError] instead of
    returning a row.  A table with the single device [Ubuntu-Gateway] of
    [Config.NETWORK_DEVICES], whose management address is also its only
    interface address, is such a configuration. *)
Theorem network_row_needs_two_addresses (self : DataGenerator.t) (timestamp : string)
    (s : S) (address : string) :
  (2 ≤ length (DataGenerator.device_ips self ++ DataGenerator.vlan_ips self))%nat ->
  (∀ ip, ip ∈ (DataGenerator.device_ips self ++ DataGenerator.vlan_ips self)%list ->
         ip = address) ->
  ∃ s', DataGenerator._generate_network_row self timestamp s
        = (Raise (IndexError "Cannot choose from an empty sequence"), s').
Proof.
  intros Hlen Hsame. unfold DataGenerator._generate_network_row. cbv zeta.
  rewrite bool_decide_eq_false_2 by lia.
  set (all_ips := (DataGenerator.device_ips self ++ DataGenerator.vlan_ips self)%list)
    in *.
  assert (Hne : all_ips ≠ []) by (intros Hnil; rewrite Hnil in Hlen; cbn in Hlen; lia).
  destruct (choice_returns all_ips s Hne) as (src_ip & s1 & Hsrc & Hin).
  rewrite (bind_returns _ _ _ _ _ Hsrc).
  assert (Hempty : filter (fun ip => ip ≠ src_ip) all_ips = []).
  { apply (Hsame src_ip) in Hin as ->.
    clear -Hsame. induction all_ips as [|ip rest IH]; [reflexivity|].
    rewrite filter_cons. destruct (decide (ip ≠ address)) as [Hne|_].
    - exfalso. apply Hne, Hsame. apply elem_of_cons. left. reflexivity.
    - apply IH. intros ip' Hip'. apply Hsame. apply elem_of_cons. right. exact Hip'. }
  rewrite Hempty. exists s1. reflexivity.
Qed.

End NetworkRow.

(** A generator built from the fallback pool, and one built from the
    single device [Ubuntu-Gateway]. *)
Lemma network_row_endpoints_differ_witness :
  ∃ row s',
    DataGenerator._generate_network_row (Generator.init [] [])
      "2024-01-01T00:00:00" (Scripted.mk 0 Samples.lowest) = (Py.Ok row, s')
    ∧ ∃ src_ip dst_ip,
        Generator.column "Src IP" row = Some (VStr src_ip)
        ∧ Generator.column "Dst IP" row = Some (VStr dst_ip)
        ∧ src_ip ≠ dst_ip.
Proof.
  assert (Hrun : ∃ row s',
            DataGenerator._generate_network_row (Generator.init [] [])
              "2024-01-01T00:00:00" (Scripted.mk 0 Samples.lowest) = (Py.Ok row, s'))
    by (vm_compute; eauto).
  destruct Hrun as (row & s' & Hrun). exists row, s'. split; [exact Hrun|].
  destruct (network_row_endpoints_differ _ _ _ _ _ Hrun)
    as (src_ip & dst_ip & Hsrc & Hdst & _ & _ & Hne).
  exists src_ip, dst_ip. repeat split; assumption.
Defined.

Lemma network_row_needs_two_addresses_witness :
  let self :=
    Generator.init
      [ ("Ubuntu-Gateway",
         Topology.mkDevice "linux_server" "192.168.61.2" [("eth0", "192.168.61.2")]) ]
      [] in
  DataGenerator.device_ips self = ["192.168.61.2"; "192.168.61.2"]
  ∧ ∃ s', DataGenerator._generate_network_row self "2024-01-01T00:00:00"
            (Scripted.mk 0 Samples.lowest)
          = (Py.Raise (Py.IndexError "Cannot choose from an empty sequence"), s').
Proof.
  cbv zeta. split; [reflexivity|].
  apply (network_row_needs_two_addresses _ _ _ "192.168.61.2").
  - vm_compute. lia.
  - intros ip Hip. vm_compute in Hip.
    repeat (apply elem_of_cons in Hip as [->|Hip]; [reflexivity|]).
    apply elem_of_nil in Hip. contradiction.
Defined.

(** ** The clean-up of the data directory *)

Section Cleanup.

Lemma insert_by_mtime_perm (f : Generator.File) (l : list Generator.File) :
  Generator.insert_by_mtime f l ≡ₚ f :: l.
Proof.
  induction l as [|g l IH]; cbn [Generator.insert_by_mtime]; [reflexivity|].
  case_bool_decide; [reflexivity|]. rewrite IH. apply Permutation_swap.
Qed.

Lemma sort_by_mtime_perm (l : list Generator.File) : Generator.sort_by_mtime l ≡ₚ l.
Proof.
  induction l as [|f l IH]; [reflexivity|].
  unfold Generator.sort_by_mtime in *. cbn [foldr].
  rewrite insert_by_mtime_perm, IH. reflexivity.
Qed.

Lemma insert_by_mtime_sorted (f : Generator.File) (l : list Generator.File) :
  Generator.newest_first l -> Generator.newest_first (Generator.insert_by_mtime f l).
Proof.
  induction l as [|g l IH]; cbn [Generator.insert_by_mtime Generator.newest_first].
  - intros _. split; [apply Forall_nil_2|exact I].
  - intros [Hg Hl]. case_bool_decide as Hle; cbn [Generator.newest_first].
    + split; [|split; assumption]. apply Forall_cons_2; [exact Hle|].
      eapply Forall_impl; [exact Hg|]. cbn. intros x Hx. lia.
    + split; [|apply IH, Hl].
      apply (Permutation_Forall (Permutation_sym (insert_by_mtime_perm f l))).
      apply Forall_cons_2; [lia|exact Hg].
Qed.

Lemma sort_by_mtime_sorted (l : list Generator.File) :
  Generator.newest_first (Generator.sort_by_mtime l).
Proof.
  induction l as [|f l IH]; [exact I|].
  unfold Generator.sort_by_mtime in *. cbn [foldr]. apply insert_by_mtime_sorted, IH.
Qed.

Lemma newest_first_app (kept removed : list Generator.File) :
  Generator.newest_first (kept ++ removed) ->
  ∀ k r, k ∈ kept -> r ∈ removed -> (r.2 ≤ k.2)%Z.
Proof.
  induction kept as [|f kept IH]; cbn [app Generator.newest_first].
  - intros _ k r Hk. apply elem_of_nil in Hk. contradiction.
  - intros [Hall Hrest] k r Hk Hr. apply elem_of_cons in Hk as [->|Hk].
    + rewrite Forall_forall in Hall. apply Hall. apply elem_of_app. right. exact Hr.
    + eapply IH; eassumption.
Qed.

(** X10 ([DataGenerator._cleanup_old_files]).  The clean-up unlinks a
    suffix of the listing sorted from newest to oldest: the files that it
    keeps and the files that it unlinks are together the files listed, no
    file that it unlinks is newer than a file that it keeps, and with a
    limit that is not negative it keeps [max_files] files, or all of them
    when they are fewer.  A negative limit unlinks the [-max_files] oldest
    files. *)
Theorem cleanup_unlinks_only_the_oldest
    (max_files : Z) (csv_files : list Generator.File) :
  let removed := Generator._cleanup_old_files max_files csv_files in
  ∃ kept,
    Generator.sort_by_mtime csv_files = (kept ++ removed)%list
    ∧ (kept ++ removed) ≡ₚ csv_files
    ∧ Generator.newest_first (kept ++ removed)
    ∧ (∀ k r, k ∈ kept -> r ∈ removed -> (r.2 ≤ k.2)%Z)
    ∧ ((0 ≤ max_files)%Z ->
       length kept = (length csv_files `min` Z.to_nat max_files)%nat)
    ∧ ((max_files < 0)%Z ->
       length removed = (length csv_files `min` Z.to_nat (- max_files))%nat).
Proof.
  cbv zeta. unfold Generator._cleanup_old_files.
  pose proof (sort_by_mtime_perm csv_files) as Hperm.
  pose proof (sort_by_mtime_sorted csv_files) as Hsorted.
  pose proof (Permutation_length Hperm) as Hlen.
  set (sorted := Generator.sort_by_mtime csv_files) in *.
  assert (Hsplit : ∀ n,
            ∃ kept, sorted = (kept ++ drop n sorted)%list
                    ∧ (kept ++ drop n sorted) ≡ₚ csv_files
                    ∧ Generator.newest_first (kept ++ drop n sorted)
                    ∧ (∀ k r, k ∈ kept -> r ∈ drop n sorted -> (r.2 ≤ k.2)%Z)
                    ∧ length kept = (n `min` length sorted)%nat).
  { intros n. exists (take n sorted). rewrite take_drop.
    split; [reflexivity|]. split; [exact Hperm|]. split; [exact Hsorted|].
    split; [|apply length_take].
    apply newest_first_app. rewrite take_drop. exact Hsorted. }
  case_bool_decide as Hmax.
  - unfold Generator.slice_from. case_bool_decide as Hsign.
    + destruct (Hsplit (Z.to_nat max_files)) as (kept & H1 & H2 & H3 & H4 & H5).
      exists kept. repeat split; try assumption; [|lia].
      intros _. rewrite H5. lia.
    + destruct (Hsplit (Z.to_nat (Z.of_nat (length sorted) + max_files)))
        as (kept & H1 & H2 & H3 & H4 & H5).
      exists kept. repeat split; try assumption; [lia|].
      intros _. rewrite length_drop. lia.
  - exists sorted. rewrite app_nil_r.
    split; [reflexivity|]. split; [exact Hperm|]. split; [exact Hsorted|].
    split; [intros k r _ Hr; apply elem_of_nil in Hr; contradiction|].
    split; [|lia]. intros _. lia.
Qed.

End Cleanup.

(** ** The cache *)

Section Cache.

Context {K V : Type} `{EqDecision K}.

Lemma dict_get_set_eq (d : list (K * V)) (key : K) (value : V) :
  SimpleCache.dict_get (SimpleCache.dict_set d key value) key = Some value.
Proof.
  unfold SimpleCache.dict_get.
  induction d as [|[k v] d IH]; cbn [SimpleCache.dict_set List.find].
  - cbn. rewrite bool_decide_eq_true_2 by reflexivity. reflexivity.
  - destruct (decide (k = key)) as [->|Hne]; cbn [List.find fst].
    + rewrite bool_decide_eq_true_2 by reflexivity. reflexivity.
    + rewrite bool_decide_eq_false_2 by exact Hne. exact IH.
Qed.

Lemma dict_get_set_ne (d : list (K * V)) (key k' : K) (value : V) :
  k' ≠ key ->
  SimpleCache.dict_get (SimpleCache.dict_set d key value) k' = SimpleCache.dict_get d k'.
Proof.
  intros Hne. unfold SimpleCache.dict_get.
  induction d as [|[k v] d IH]; cbn [SimpleCache.dict_set List.find].
  - cbn. rewrite bool_decide_eq_false_2 by congruence. reflexivity.
  - destruct (decide (k = key)) as [->|Hk]; cbn [List.find fst].
    + rewrite bool_decide_eq_false_2 by congruence. reflexivity.
    + destruct (bool_decide (k = k')); [reflexivity|exact IH].
Qed.

Lemma dict_get_del_eq (d : list (K * V)) (key : K) :
  SimpleCache.dict_get (SimpleCache.dict_del d key) key = None.
Proof.
  unfold SimpleCache.dict_get, SimpleCache.dict_del.
  induction d as [|[k v] d IH]; [reflexivity|].
  rewrite filter_cons. cbn [fst]. destruct (decide (k ≠ key)) as [Hne|Heq].
  - cbn [List.find fst]. rewrite bool_decide_eq_false_2 by exact Hne. exact IH.
  - exact IH.
Qed.

Lemma dict_get_del_ne (d : list (K * V)) (key k' : K) :
  k' ≠ key ->
  SimpleCache.dict_get (SimpleCache.dict_del d key) k' = SimpleCache.dict_get d k'.
Proof.
  intros Hne. unfold SimpleCache.dict_get, SimpleCache.dict_del.
  induction d as [|[k v] d IH]; [reflexivity|].
  rewrite filter_cons. cbn [fst]. destruct (decide (k ≠ key)) as [Hk|Heq].
  - cbn [List.find fst]. destruct (bool_decide (k = k')); [reflexivity|exact IH].
  - apply dec_stable in Heq. subst k. cbn [List.find fst].
    rewrite bool_decide_eq_false_2 by congruence. exact IH.
Qed.

Lemma dict_set_keys (d : list (K * V)) (key : K) (value : V) :
  (SimpleCache.dict_set d key value).*1
  = if bool_decide (key ∈ d.*1) then d.*1 else (d.*1 ++ [key])%list.
Proof.
  induction d as [|[k v] d IH]; cbn [SimpleCache.dict_set].
  - rewrite bool_decide_eq_false_2 by apply not_elem_of_nil. reflexivity.
  - destruct (decide (k = key)) as [->|Hne]; rewrite !fmap_cons; cbn [fst].
    + rewrite bool_decide_eq_true_2; [reflexivity|]. apply elem_of_cons. left. reflexivity.
    + rewrite IH. destruct (decide (key ∈ d.*1)) as [Hin|Hnin].
      * rewrite !bool_decide_eq_true_2; [reflexivity| |exact Hin].
        apply elem_of_cons. right. exact Hin.
      * rewrite !bool_decide_eq_false_2; [reflexivity| |exact Hnin].
        rewrite elem_of_cons. intros [Heq|Hin]; [congruence|contradiction].
Qed.

Lemma dict_set_length (d : list (K * V)) (key : K) (value : V) :
  (length (SimpleCache.dict_set d key value) ≤ S (length d))%nat.
Proof.
  rewrite <- (length_fmap fst (SimpleCache.dict_set d key value)), dict_set_keys.
  destruct (bool_decide (key ∈ d.*1)).
  - rewrite length_fmap. lia.
  - rewrite length_app, length_fmap. cbn. lia.
Qed.

Lemma dict_set_NoDup (d : list (K * V)) (key : K) (value : V) :
  NoDup d.*1 -> NoDup (SimpleCache.dict_set d key value).*1.
Proof.
  intros Hd. rewrite dict_set_keys. case_bool_decide as Hin; [exact Hd|].
  apply NoDup_app. split; [exact Hd|]. split; [|apply NoDup_singleton].
  intros k Hk Hk'. apply list_elem_of_singleton in Hk'. subst k. contradiction.
Qed.

Lemma dict_del_NoDup (d : list (K * V)) (key : K) :
  NoDup d.*1 -> NoDup (SimpleCache.dict_del d key).*1.
Proof.
  intros Hd. unfold SimpleCache.dict_del.
  induction d as [|[k v] d IH]; [exact Hd|].
  rewrite fmap_cons in Hd. cbn [fst] in Hd. apply NoDup_cons in Hd as [Hk Hd].
  rewrite filter_cons. cbn [fst]. destruct (decide (k ≠ key)); [|apply IH, Hd].
  rewrite fmap_cons. cbn [fst]. apply NoDup_cons. split; [|apply IH, Hd].
  intros Hin. apply Hk. apply list_elem_of_fmap in Hin as ([k' v'] & Heq & Hin).
  apply list_elem_of_filter in Hin as [_ Hin]. cbn in Heq. subst k'.
  apply list_elem_of_fmap. exists (k, v'). split; [reflexivity|exact Hin].
Qed.

Lemma dict_del_head_length (d : list (K * V)) (key : K) (v : V) :
  (length (SimpleCache.dict_del ((key, v) :: d) key) ≤ length d)%nat.
Proof.
  unfold SimpleCache.dict_del. rewrite filter_cons. cbn [fst].
  destruct (decide (key ≠ key)) as [Hne|_]; [contradiction|].
  apply length_filter.
Qed.

(** X11 ([SimpleCache.set], [SimpleCache.clear]).  However a cache is
    used, it never holds more than [max_size] entries, and none at all when
    [max_size] is zero or negative; its keys stay pairwise distinct and its
    size limit is the one it was created with. *)
Theorem cache_never_exceeds_its_size (max_size : Z) (self : SimpleCache.t K V) :
  SimpleCache.reachable max_size self ->
  SimpleCache._max_size self = max_size
  ∧ NoDup (SimpleCache._cache self).*1
  ∧ (Z.of_nat (length (SimpleCache._cache self)) ≤ Z.max 0 max_size)%Z.
Proof.
  induction 1 as [|key value self self' Hreach (Hmax & Hkeys & Hlen) Hset
                  |self Hreach (Hmax & Hkeys & Hlen)].
  - split; [reflexivity|]. split; [apply NoDup_nil_2|]. cbn. lia.
  - unfold SimpleCache.set in Hset. rewrite Hmax in Hset.
    case_bool_decide as Hfull.
    + destruct (SimpleCache._cache self) as [|[oldest_key v] rest] eqn:Hcache;
        [discriminate|].
      injection Hset as <-. cbn [SimpleCache._max_size SimpleCache._cache].
      split; [reflexivity|]. split; [apply dict_set_NoDup, dict_del_NoDup, Hkeys|].
      pose proof (dict_set_length (SimpleCache.dict_del ((oldest_key, v) :: rest)
                                     oldest_key) key value).
      pose proof (dict_del_head_length rest oldest_key v).
      cbn [length] in Hlen. lia.
    + injection Hset as <-. cbn [SimpleCache._max_size SimpleCache._cache].
      split; [reflexivity|]. split; [apply dict_set_NoDup, Hkeys|].
      pose proof (dict_set_length (SimpleCache._cache self) key value). lia.
  - split; [exact Hmax|]. split; [apply NoDup_nil_2|]. cbn. lia.
Qed.

(** X12 ([SimpleCache.set] as [SimpleCache.get] observes it).  A [set]
    that returns makes [get] return the new value for its key.  On a cache
    that is not full nothing else changes, and a key that was present keeps
    its age.  On a full cache the entry inserted first is evicted, also
    when the key that is set was already present, and all other entries are
    kept.  On an empty cache whose size limit is zero or negative [set]
    raises [StopIteration]. *)
Theorem cache_set_evicts_the_oldest (key : K) (value : V) (self : SimpleCache.t K V) :
  ((Z.of_nat (length (SimpleCache._cache self)) < SimpleCache._max_size self)%Z ->
   ∃ self',
     SimpleCache.set key value self = SimpleCache.Returns self'
     ∧ SimpleCache._max_size self' = SimpleCache._max_size self
     ∧ SimpleCache.get key self' = Some value
     ∧ (∀ k, k ≠ key -> SimpleCache.get k self' = SimpleCache.get k self)
     ∧ (SimpleCache._cache self').*1
       = if bool_decide (key ∈ (SimpleCache._cache self).*1)
         then (SimpleCache._cache self).*1
         else ((SimpleCache._cache self).*1 ++ [key])%list)
  ∧ (∀ oldest_key oldest_value rest,
       (SimpleCache._max_size self ≤ Z.of_nat (length (SimpleCache._cache self)))%Z ->
       SimpleCache._cache self = (oldest_key, oldest_value) :: rest ->
       ∃ self',
         SimpleCache.set key value self = SimpleCache.Returns self'
         ∧ SimpleCache._max_size self' = SimpleCache._max_size self
         ∧ SimpleCache.get key self' = Some value
         ∧ (oldest_key ≠ key -> SimpleCache.get oldest_key self' = None)
         ∧ (∀ k, k ≠ key -> k ≠ oldest_key ->
                 SimpleCache.get k self' = SimpleCache.get k self))
  ∧ ((SimpleCache._max_size self ≤ 0)%Z ->
     SimpleCache._cache self = [] ->
     SimpleCache.set key value self = SimpleCache.RaisesStopIteration).
Proof.
  unfold SimpleCache.set, SimpleCache.get. split; [|split].
  - intros Hroom. rewrite bool_decide_eq_false_2 by lia.
    eexists. split; [reflexivity|]. cbn [SimpleCache._max_size SimpleCache._cache].
    split; [reflexivity|]. split; [apply dict_get_set_eq|].
    split; [|apply dict_set_keys].
    intros k Hk. apply dict_get_set_ne, Hk.
  - intros oldest_key oldest_value rest Hfull Hcache.
    rewrite bool_decide_eq_true_2 by exact Hfull. rewrite Hcache.
    eexists. split; [reflexivity|]. cbn [SimpleCache._max_size SimpleCache._cache].
    split; [reflexivity|]. split; [apply dict_get_set_eq|]. split.
    + intros Hne. rewrite dict_get_set_ne by exact Hne. apply dict_get_del_eq.
    + intros k Hk Hold. rewrite dict_get_set_ne by exact Hk.
      apply dict_get_del_ne, Hold.
  - intros Hmax Hcache. rewrite Hcache. cbn [length].
    rewrite bool_decide_eq_true_2 by lia. reflexivity.
Qed.

End Cache.

(** A cache of two entries after three insertions, and an update of the
    younger entry of a full cache, which evicts the older one. *)
Lemma cache_never_exceeds_its_size_witness :
  ∃ self : SimpleCache.t string Z,
    SimpleCache.reachable 2 self
    ∧ (SimpleCache._cache self).*1 = ["b"; "c"]
    ∧ (Z.of_nat (length (SimpleCache._cache self)) ≤ Z.max 0 2)%Z.
Proof.
  assert (Hreach : SimpleCache.reachable 2
                     (SimpleCache.mk [("b", 2%Z); ("c", 3%Z)] 2)).
  { apply (SimpleCache.reachable_set 2 "c" 3%Z
             (SimpleCache.mk [("a", 1%Z); ("b", 2%Z)] 2)); [|reflexivity].
    apply (SimpleCache.reachable_set 2 "b" 2%Z
             (SimpleCache.mk [("a", 1%Z)] 2)); [|reflexivity].
    apply (SimpleCache.reachable_set 2 "a" 1%Z (SimpleCache.init 2)); [|reflexivity].
    apply SimpleCache.reachable_init. }
  eexists. split; [exact Hreach|]. split; [reflexivity|].
  apply (cache_never_exceeds_its_size 2 _ Hreach).
Defined.

Lemma cache_set_evicts_the_oldest_witness :
  let self := SimpleCache.mk [("a", 1%Z); ("b", 2%Z)] 2 in
  ∃ self',
    SimpleCache.set "b" 5%Z self = SimpleCache.Returns self'
    ∧ SimpleCache._cache self' = [("b", 5%Z)]
    ∧ SimpleCache.get "a" self' = None.
Proof.
  cbv zeta.
  destruct (cache_set_evicts_the_oldest "b" 5%Z
              (SimpleCache.mk [("a", 1%Z); ("b", 2%Z)] 2)) as (_ & Hfull & _).
  destruct (Hfull "a" 1%Z [("b", 2%Z)] ltac:(cbn; lia) eq_refl)
    as (self' & Hset & _ & _ & Hold & _).
  exists self'. split; [exact Hset|].
  split; [|apply Hold; discriminate].
  vm_compute in Hset. injection Hset as <-. reflexivity.
Defined.

(** ** The sanitisation of request parameters *)

Section Sanitisation.

Import Sanitize.

Variable isspace : N -> bool.

Lemma filter_all {A} (P : A -> Prop) `{∀ x, Decision (P x)} (l : list A) :
  Forall P l -> filter P l = l.
Proof.
  induction 1 as [|x l Hx Hl IH]; [reflexivity|].
  rewrite filter_cons. destruct (decide (P x)); [|contradiction]. f_equal. exact IH.
Qed.

Lemma remove_all (chars : list N) (text : list N) :
  foldl (fun text char => remove char text) text chars
  = filter (fun c => c ∉ chars) text.
Proof.
  revert text. induction chars as [|char chars IH]; intros text; cbn [foldl].
  - symmetry. apply filter_all. apply Forall_forall. intros c _. apply not_elem_of_nil.
  - rewrite IH. unfold remove. rewrite list_filter_filter.
    apply list_filter_iff. intros c. rewrite elem_of_cons. tauto.
Qed.

Lemma Forall_of_sublist {A} (P : A -> Prop) (l1 l2 : list A) :
  l1 `sublist_of` l2 -> Forall P l2 -> Forall P l1.
Proof.
  induction 1 as [|x l1 l2 Hsub IH|x l1 l2 Hsub IH]; intros Hall.
  - apply Forall_nil_2.
  - apply Forall_cons in Hall as [Hx Hall]. apply Forall_cons_2; [exact Hx|apply IH, Hall].
  - apply Forall_cons in Hall as [_ Hall]. apply IH, Hall.
Qed.

Lemma lstrip_spec (text : list N) :
  ∃ spaces, text = (spaces ++ lstrip isspace text)%list
            ∧ Forall (fun c => isspace c = true) spaces.
Proof.
  induction text as [|c text (spaces & Heq & Hspaces)]; cbn [lstrip].
  - exists []. split; [reflexivity|apply Forall_nil_2].
  - destruct (isspace c) eqn:Hc.
    + exists (c :: spaces). split; [cbn; f_equal; exact Heq|].
      apply Forall_cons_2; assumption.
    + exists []. split; [reflexivity|apply Forall_nil_2].
Qed.

Lemma lstrip_head (text : list N) (c : N) :
  head (lstrip isspace text) = Some c -> isspace c = false.
Proof.
  induction text as [|a text IH]; cbn [lstrip]; [discriminate|].
  destruct (isspace a) eqn:Ha; [exact IH|]. cbn. intros [= <-]. exact Ha.
Qed.

Lemma lstrip_fixed (text : list N) :
  (∀ c, head text = Some c -> isspace c = false) -> lstrip isspace text = text.
Proof.
  destruct text as [|c text]; [reflexivity|]. intros Hhead. cbn [lstrip].
  rewrite (Hhead c eq_refl). reflexivity.
Qed.

Lemma rstrip_spec (text : list N) :
  ∃ spaces, text = (rstrip isspace text ++ spaces)%list
            ∧ Forall (fun c => isspace c = true) spaces.
Proof.
  unfold rstrip. destruct (lstrip_spec (reverse text)) as (spaces & Heq & Hspaces).
  exists (reverse spaces). split.
  - rewrite <- reverse_app, <- Heq, reverse_involutive. reflexivity.
  - apply Forall_reverse. exact Hspaces.
Qed.

Lemma rstrip_last (text : list N) (c : N) :
  last (rstrip isspace text) = Some c -> isspace c = false.
Proof. unfold rstrip. rewrite last_reverse. apply lstrip_head. Qed.

Lemma rstrip_fixed (text : list N) :
  (∀ c, last text = Some c -> isspace c = false) -> rstrip isspace text = text.
Proof.
  intros Hlast. unfold rstrip. rewrite lstrip_fixed; [apply reverse_involutive|].
  intros c. rewrite head_reverse. apply Hlast.
Qed.

Lemma rstrip_head (text : list N) (c : N) :
  head (rstrip isspace text) = Some c -> head text = Some c.
Proof.
  destruct (rstrip_spec text) as (spaces & Heq & _).
  destruct (rstrip isspace text) as [|a kept]; [discriminate|].
  rewrite Heq. exact id.
Qed.

Lemma strip_sublist (text : list N) : strip isspace text `sublist_of` text.
Proof.
  unfold strip.
  destruct (lstrip_spec text) as (before & Hl & _).
  destruct (rstrip_spec (lstrip isspace text)) as (after & Hr & _).
  rewrite Hl at 2. rewrite Hr at 2.
  apply sublist_inserts_l, sublist_inserts_r. reflexivity.
Qed.

Lemma strip_fixed (text : list N) : strip isspace (strip isspace text) = strip isspace text.
Proof.
  unfold strip.
  rewrite (lstrip_fixed (rstrip isspace (lstrip isspace text))).
  - apply rstrip_fixed. intros c. apply rstrip_last.
  - intros c Hc. apply rstrip_head in Hc. apply lstrip_head in Hc. exact Hc.
Qed.

Lemma slice_to_sublist (i : Z) (text : list N) : slice_to i text `sublist_of` text.
Proof. unfold slice_to. case_bool_decide; apply sublist_take. Qed.

Lemma sanitize_unfold (text : list N) (max_length : Z) :
  sanitize_string isspace text max_length
  = strip isspace (slice_to max_length (filter (fun c => c ∉ dangerous_chars) text)).
Proof. unfold sanitize_string. cbv zeta. rewrite remove_all. reflexivity. Qed.

(** A sanitised text holds no dangerous character and, under a limit that
    is not negative, respects the limit. *)
Lemma sanitize_bounds (text : list N) (max_length : Z) :
  let out := sanitize_string isspace text max_length in
  Forall (fun c => c ∉ dangerous_chars) out
  ∧ ((0 ≤ max_length)%Z -> (Z.of_nat (length out) ≤ max_length)%Z).
Proof.
  cbv zeta. rewrite sanitize_unfold.
  set (kept := filter (fun c => c ∉ dangerous_chars) text).
  split.
  - apply (Forall_of_sublist _ _ kept).
    + etransitivity; [apply strip_sublist|apply slice_to_sublist].
    + apply Forall_forall. intros c Hc. apply list_elem_of_filter in Hc as [Hc _].
      exact Hc.
  - intros Hmax.
    pose proof (sublist_length _ _ (strip_sublist (slice_to max_length kept))) as Hlen.
    unfold slice_to in Hlen. rewrite bool_decide_eq_true_2 in Hlen by exact Hmax.
    rewrite length_take in Hlen. unfold slice_to.
    rewrite bool_decide_eq_true_2 by exact Hmax. lia.
Qed.

(** X13.  [sanitize_string]: whatever the text and the length limit, the
    result contains none of the six dangerous characters, consists of
    characters of the input in their order, and neither starts nor ends
    with whitespace; with a limit that is not negative it has at most
    [max_length] characters. *)
Theorem sanitized_text_is_clean (text : list N) (max_length : Z) :
  let out := sanitize_string isspace text max_length in
  Forall (fun c => c ∉ dangerous_chars) out
  ∧ out `sublist_of` text
  ∧ (∀ c, head out = Some c -> isspace c = false)
  ∧ (∀ c, last out = Some c -> isspace c = false)
  ∧ ((0 ≤ max_length)%Z -> (Z.of_nat (length out) ≤ max_length)%Z).
Proof.
  cbv zeta. destruct (sanitize_bounds text max_length) as [Hclean Hlen].
  split; [exact Hclean|]. split; [|split; [|split; [|exact Hlen]]].
  - rewrite sanitize_unfold.
    etransitivity; [apply strip_sublist|].
    etransitivity; [apply slice_to_sublist|apply sublist_filter].
  - rewrite sanitize_unfold. intros c Hc. unfold strip in Hc.
    apply rstrip_head in Hc. apply lstrip_head in Hc. exact Hc.
  - rewrite sanitize_unfold. intros c. unfold strip. apply rstrip_last.
Qed.

(** X14 ([sanitize_string] twice).  With a length limit that is not
    negative, sanitising is idempotent: a sanitised text is left as it is
    by a second pass with the same limit. *)
Theorem sanitizing_twice_changes_nothing (text : list N) (max_length : Z) :
  (0 ≤ max_length)%Z ->
  sanitize_string isspace (sanitize_string isspace text max_length) max_length
  = sanitize_string isspace text max_length.
Proof.
  intros Hmax.
  destruct (sanitize_bounds text max_length) as [Hclean Hlen].
  specialize (Hlen Hmax).
  set (out := sanitize_string isspace text max_length) in *.
  rewrite (sanitize_unfold out). rewrite (filter_all _ _ Hclean).
  unfold slice_to. rewrite bool_decide_eq_true_2 by exact Hmax.
  rewrite take_ge by lia.
  unfold out. rewrite sanitize_unfold. apply strip_fixed.
Qed.

End Sanitisation.

(** A parameter with markup, quotes and surrounding blanks. *)
Lemma sanitizing_twice_changes_nothing_witness :
  let text := Sanitize.of_string "  <b>Tom & 'Jerry'</b>  " in
  Sanitize.sanitize_string Sanitize.isspace_latin1 text 255
  = Sanitize.of_string "bTom  Jerry/b"
  ∧ Sanitize.sanitize_string Sanitize.isspace_latin1
      (Sanitize.sanitize_string Sanitize.isspace_latin1 text 255) 255
    = Sanitize.sanitize_string Sanitize.isspace_latin1 text 255.
Proof.
  cbv zeta. split; [vm_compute; reflexivity|].
  apply (sanitizing_twice_changes_nothing Sanitize.isspace_latin1). lia.
Defined.

(** ** What a generation batch of app.py adds to the database *)

Section BatchRows.

Import Py.

Context {rng : Type} `{Random.Source rng}.

Lemma bind_unfold {S A B} (m : St S A) (k : A -> St S B) (s : S) :
  (m ≫= k) s
  = match m s with
    | (Ok a, s') => k a s'
    | (Raise e, s') => (Raise e, s')
    end.
Proof. reflexivity. Qed.

Lemma try_except_bind {S A B} (m : St S A) (k : A -> St S B)
    (handler : exn -> St S B) (s : S) :
  try_except (m ≫= k) handler s
  = match m s with
    | (Ok a, s') => try_except (k a) handler s'
    | (Raise e, s') => handler e s'
    end.
Proof.
  unfold try_except, mbind, St_bind. destruct (m s) as [[a|e] s']; reflexivity.
Qed.

Lemma with_random_db {A} (f : rng -> A * rng) (w : App.World rng) :
  App.db (App.with_random f w).2 = App.db w.
Proof. unfold App.with_random. destruct (f (App.random_state w)). reflexivity. Qed.

Lemma randint_db (a b : Z) (w : App.World rng) :
  ∃ n w', Random.randint a b w = (Ok n, w') ∧ App.db w' = App.db w.
Proof.
  unfold Random.randint. cbn [Random.draw_randint App.world_source].
  pose proof (with_random_db (Random.draw_randint a b) w) as Hdb.
  destruct (App.with_random (Random.draw_randint a b) w) as [n w'].
  exists n, w'. split; [reflexivity|exact Hdb].
Qed.

Lemma uniform_db (a b : Q) (w : App.World rng) :
  ∃ x w', Random.uniform a b w = (Ok x, w') ∧ App.db w' = App.db w.
Proof.
  unfold Random.uniform. cbn [Random.draw_uniform App.world_source].
  pose proof (with_random_db (Random.draw_uniform a b) w) as Hdb.
  destruct (App.with_random (Random.draw_uniform a b) w) as [x w'].
  exists x, w'. split; [reflexivity|exact Hdb].
Qed.

Lemma uuid4_db (w : App.World rng) :
  ∃ u w', Random.uuid4 w = (Ok u, w') ∧ App.db w' = App.db w.
Proof.
  unfold Random.uuid4. cbn [Random.draw_uuid4 App.world_source].
  pose proof (with_random_db Random.draw_uuid4 w) as Hdb.
  destruct (App.with_random Random.draw_uuid4 w) as [u w'].
  exists u, w'. split; [reflexivity|exact Hdb].
Qed.

Lemma choice_db {A} (seq : list A) (w w' : App.World rng) (r : result A) :
  Random.choice seq w = (r, w') ->
  App.db w' = App.db w ∧ ∀ x, r = Ok x -> x ∈ seq.
Proof.
  intros Hrun. split.
  - unfold Random.choice in Hrun. destruct seq as [|a seq].
    + injection Hrun as _ <-. reflexivity.
    + cbn [Random.randbelow App.world_source] in Hrun.
      pose proof (with_random_db (Random.randbelow (length (a :: seq))) w) as Hdb.
      destruct (App.with_random (Random.randbelow (length (a :: seq))) w) as [i w1].
      destruct ((a :: seq) !! i); injection Hrun as _ <-; exact Hdb.
  - intros x ->. exact (choice_member (S := App.World rng) seq w w' x Hrun).
Qed.

Lemma choices_db {A} (population : list A) (weights : list Z)
    (w w' : App.World rng) (r : result A) :
  Random.choices population weights w = (r, w') ->
  App.db w' = App.db w ∧ ∀ x, r = Ok x -> x ∈ population.
Proof.
  unfold Random.choices. cbn [Random.draw_choices App.world_source].
  pose proof (with_random_db (Random.draw_choices weights) w) as Hdb.
  destruct (App.with_random (Random.draw_choices weights) w) as [i w1].
  destruct (population !! i) as [y|] eqn:Hy; intros [= <- <-].
  - split; [exact Hdb|]. intros x [= <-]. eapply list_elem_of_lookup_2. exact Hy.
  - split; [exact Hdb|]. intros x Hx. discriminate.
Qed.

Lemma subscript_spec {V} (d : gmap string V) (k : string)
    (w w' : App.World rng) (r : result V) :
  App.subscript d k w = (r, w') -> w' = w ∧ ∀ v, r = Ok v -> d !! k = Some v.
Proof.
  unfold App.subscript, index. intros [= <- <-]. split; [reflexivity|].
  intros v. destruct (d !! k); [intros [= ->]; reflexivity|discriminate].
Qed.

Lemma dict_literal_db (entries : list (string * St (App.World rng) pyval)) :
  Forall (fun entry => ∀ w r w', entry.2 w = (r, w') -> App.db w' = App.db w) entries ->
  ∀ w r w', dict_literal entries w = (r, w') -> App.db w' = App.db w.
Proof.
  induction 1 as [|[key expression] entries Hentry _ IH]; intros w r w' Hrun.
  - injection Hrun as _ <-. reflexivity.
  - cbn [dict_literal] in Hrun. rewrite bind_unfold in Hrun.
    destruct (expression w) as [[v|e] w1] eqn:Hv.
    + apply Hentry in Hv. rewrite bind_unfold in Hrun.
      destruct (dict_literal entries w1) as [[d|e] w2] eqn:Hd.
      * apply IH in Hd. injection Hrun as _ <-. congruence.
      * apply IH in Hd. injection Hrun as _ <-. congruence.
    + apply Hentry in Hv. injection Hrun as _ <-. exact Hv.
Qed.

Lemma round_uniform_db (a b : Q) (ndigits : nat) (w w' : App.World rng) r :
  round_uniform a b ndigits w = (r, w') -> App.db w' = App.db w.
Proof.
  unfold round_uniform. rewrite bind_unfold.
  destruct (uniform_db a b w) as (x & w1 & -> & Hdb). intros [= _ <-]. exact Hdb.
Qed.

Lemma randint_value_db (a b : Z) (w w' : App.World rng) r :
  randint a b w = (r, w') -> App.db w' = App.db w.
Proof.
  unfold randint. rewrite bind_unfold.
  destruct (randint_db a b w) as (x & w1 & -> & Hdb). intros [= _ <-]. exact Hdb.
Qed.

Lemma features_db (w : App.World rng) :
  ∃ features w',
    Features.generate_realistic_features w = (Ok features, w')
    ∧ features.*1 = Config.IMPORTANT_FEATURES
    ∧ App.db w' = App.db w.
Proof.
  destruct (realistic_features_returns w) as (features & w' & Hrun & Hkeys & _).
  exists features, w'. split; [exact Hrun|]. split; [exact Hkeys|].
  revert Hrun. unfold Features.generate_realistic_features. apply dict_literal_db.
  repeat (apply Forall_cons_2;
          [intros w0 r0 w0'; cbn [snd];
           first [apply round_uniform_db | apply randint_value_db]|]).
  apply Forall_nil_2.
Qed.

Lemma save_event_spec (row : Z -> App.Event.t) (w w' : App.World rng) r :
  App.save_event row w = (r, w') ->
  App.commit_raises (App.db w') = App.commit_raises (App.db w)
  ∧ App.responses (App.db w') = App.responses (App.db w)
  ∧ match r with
    | Ok e =>
        e = row (App.next_event_id (App.events (App.db w)))
        ∧ App.events (App.db w') = (App.events (App.db w) ++ [e])%list
    | Raise _ => App.events (App.db w') = App.events (App.db w)
    end.
Proof.
  unfold App.save_event, App.add_commit.
  destruct (App.commit_raises (App.db w) (App.commits (App.db w)));
    intros [= <- <-]; cbn; repeat split; reflexivity.
Qed.

Lemma save_response_spec (row : Z -> App.Response.t) (w w' : App.World rng) r :
  App.save_response row w = (r, w') ->
  App.commit_raises (App.db w') = App.commit_raises (App.db w)
  ∧ App.events (App.db w') = App.events (App.db w)
  ∧ match r with
    | Ok x =>
        x = row (App.next_response_id (App.responses (App.db w)))
        ∧ App.responses (App.db w') = (App.responses (App.db w) ++ [x])%list
    | Raise _ => App.responses (App.db w') = App.responses (App.db w)
    end.
Proof.
  unfold App.save_response, App.add_commit.
  destruct (App.commit_raises (App.db w) (App.commits (App.db w)));
    intros [= <- <-]; cbn; repeat split; reflexivity.
Qed.

(** The [except] clauses print and roll back. *)
Lemma handler_db (line : string) (w w' : App.World rng) (r : result unit) :
  (App.print line ≫= fun _ => App.rollback) w = (r, w') ->
  r = Ok tt ∧ App.db w' = App.db w.
Proof. intros [= <- <-]. split; reflexivity. Qed.

Ltac total_step lemma Hrun :=
  let a := fresh "a" in
  let w1 := fresh "w" in
  let Hstep := fresh "Hstep" in
  let Hdb := fresh "Hsame" in
  lazymatch type of Hrun with
  | try_except (?m ≫= _) _ ?w = _ =>
      destruct (lemma w) as (a & w1 & Hstep & Hdb);
      rewrite try_except_bind, Hstep in Hrun
  | (?m ≫= _) ?w = _ =>
      destruct (lemma w) as (a & w1 & Hstep & Hdb);
      rewrite bind_unfold, Hstep in Hrun
  end.

Lemma now_db (w : App.World rng) :
  ∃ t w', App.now w = (Ok t, w') ∧ App.db w' = App.db w.
Proof. exists (App.clock w), w. split; reflexivity. Qed.

Lemma emit_db (m : App.Emitted) (w : App.World rng) :
  ∃ u w', App.emit m w = (Ok u, w') ∧ App.db w' = App.db w.
Proof. eexists tt, _. split; reflexivity. Qed.

Lemma print_db (line : string) (w : App.World rng) :
  ∃ u w', App.print line w = (Ok u, w') ∧ App.db w' = App.db w.
Proof. eexists tt, _. split; reflexivity. Qed.

(** What [generate_and_save_response] does for an anomalous event. *)
Lemma response_spec (event : App.Event.t) (features : list (string * pyval))
    (w w' : App.World rng) (r : result unit) :
  App.Event.status event = "anomalous" ->
  App.Event.features event = features ->
  App.generate_and_save_response event features w = (r, w') ->
  r = Ok tt
  ∧ ∃ new_responses,
      Batch.adds w w' [] new_responses
      ∧ (length new_responses ≤ 1)%nat
      ∧ Forall (Batch.response_ok [event]) new_responses.
Proof.
  intros Hstatus Hfeatures Hrun. unfold App.generate_and_save_response in Hrun.
  assert (Hnothing : ∀ w1, App.db w1 = App.db w ->
            ∃ new_responses,
              Batch.adds w w1 [] new_responses
              ∧ (length new_responses ≤ 1)%nat
              ∧ Forall (Batch.response_ok [event]) new_responses).
  { intros w1 Hdb. exists []. unfold Batch.adds. rewrite Hdb, !app_nil_r.
    repeat split; try reflexivity; [cbn; lia|apply Forall_nil_2]. }
  rewrite try_except_bind in Hrun.
  destruct (Random.choice App.anomaly_type1_list w) as [[anomaly_type1|e] w1] eqn:H1;
    apply choice_db in H1 as [Hdb1 _];
    [|apply handler_db in Hrun as [-> Hdb]; split; [reflexivity|];
      apply Hnothing; congruence].
  rewrite try_except_bind in Hrun.
  destruct (Random.choice App.anomaly_type2_list w1) as [[anomaly_type2|e] w2] eqn:H2;
    apply choice_db in H2 as [Hdb2 _];
    [|apply handler_db in Hrun as [-> Hdb]; split; [reflexivity|];
      apply Hnothing; congruence].
  rewrite try_except_bind in Hrun.
  destruct (App.subscript App.response_types "type1" w2) as [[type1|e] w3] eqn:H3;
    apply subscript_spec in H3 as [-> Htype1];
    [|apply handler_db in Hrun as [-> Hdb]; split; [reflexivity|];
      apply Hnothing; congruence].
  rewrite try_except_bind in Hrun.
  destruct (App.subscript type1 anomaly_type1 w2) as [[candidates1|e] w3] eqn:H4;
    apply subscript_spec in H4 as [-> Hcandidates1];
    [|apply handler_db in Hrun as [-> Hdb]; split; [reflexivity|];
      apply Hnothing; congruence].
  rewrite try_except_bind in Hrun.
  destruct (Random.choice candidates1 w2) as [[res_type1|e] w3] eqn:H5;
    apply choice_db in H5 as [Hdb3 Hres1];
    [|apply handler_db in Hrun as [-> Hdb]; split; [reflexivity|];
      apply Hnothing; congruence].
  rewrite try_except_bind in Hrun.
  destruct (App.subscript App.response_types "type2" w3) as [[type2|e] w4] eqn:H6;
    apply subscript_spec in H6 as [-> Htype2];
    [|apply handler_db in Hrun as [-> Hdb]; split; [reflexivity|];
      apply Hnothing; congruence].
  rewrite try_except_bind in Hrun.
  destruct (App.subscript type2 anomaly_type2 w3) as [[candidates2|e] w4] eqn:H7;
    apply subscript_spec in H7 as [-> Hcandidates2];
    [|apply handler_db in Hrun as [-> Hdb]; split; [reflexivity|];
      apply Hnothing; congruence].
  rewrite try_except_bind in Hrun.
  destruct (Random.choice candidates2 w3) as [[res_type2|e] w4] eqn:H8;
    apply choice_db in H8 as [Hdb4 Hres2];
    [|apply handler_db in Hrun as [-> Hdb]; split; [reflexivity|];
      apply Hnothing; congruence].
  cbv zeta in Hrun.
  total_step uuid4_db Hrun. total_step now_db Hrun.
  total_step (randint_db 1 30) Hrun.
  total_step (uniform_db 0.7 0.99) Hrun.
  total_step (uniform_db 0.5 5.0) Hrun.
  rewrite try_except_bind in Hrun.
  match type of Hrun with
  | context [Random.choice ?seq ?w0] =>
      destruct (Random.choice seq w0) as [[status|e] w10] eqn:H9;
        apply choice_db in H9 as [Hdb10 Hstatus9]
  end;
    [|apply handler_db in Hrun as [-> Hdb]; split; [reflexivity|];
      apply Hnothing; congruence].
  total_step now_db Hrun.
  rewrite try_except_bind in Hrun.
  match type of Hrun with
  | context [App.save_response ?row ?w0] =>
      destruct (App.save_response row w0) as [[response|e] w12] eqn:H10;
        apply save_response_spec in H10 as (Hraises & Hevents & Hrows)
  end.
  2: { apply handler_db in Hrun as [-> Hdb]. split; [reflexivity|].
       exists []. unfold Batch.adds. rewrite Hdb, !app_nil_r.
       repeat split; try congruence; [cbn; lia|apply Forall_nil_2]. }
  destruct Hrows as [Hresponse Hrows].
  total_step (emit_db (App.new_response response)) Hrun.
  unfold try_except in Hrun.
  match type of Hrun with
  | context [App.print ?line ?w0] =>
      destruct (print_db line w0) as (u & w14 & Hprint & Hdb14); rewrite Hprint in Hrun
  end.
  injection Hrun as <- <-. split; [destruct u; reflexivity|].
  exists [response]. split; [|split; [cbn; lia|]].
  - unfold Batch.adds. rewrite app_nil_r. repeat split; congruence.
  - apply Forall_cons_2; [|apply Forall_nil_2].
    exists event. rewrite Hresponse. cbn.
    split; [apply elem_of_cons; left; reflexivity|].
    split; [exact Hstatus|].
    repeat (split; [reflexivity|]).
    split; [rewrite Hfeatures; reflexivity|].
    split; [exists type1, candidates1; auto|].
    split; [exists type2, candidates2; auto|].
    apply Hstatus9. reflexivity.
Qed.

Lemma response_ok_mono (batch batch' : list App.Event.t) (r : App.Response.t) :
  (∀ e, e ∈ batch -> e ∈ batch') ->
  Batch.response_ok batch r -> Batch.response_ok batch' r.
Proof.
  intros Hsub (e & Hin & Hrest). exists e. split; [apply Hsub, Hin|exact Hrest].
Qed.

Lemma anomalous_app (l1 l2 : list App.Event.t) :
  Batch.anomalous (l1 ++ l2) = (Batch.anomalous l1 + Batch.anomalous l2)%nat.
Proof. unfold Batch.anomalous. rewrite filter_app, length_app. reflexivity. Qed.

Lemma anomalous_le (l : list App.Event.t) : (Batch.anomalous l ≤ length l)%nat.
Proof. unfold Batch.anomalous. apply length_filter. Qed.

Lemma adds_trans (w w1 w2 : App.World rng) ne1 nr1 ne2 nr2 :
  Batch.adds w w1 ne1 nr1 -> Batch.adds w1 w2 ne2 nr2 ->
  Batch.adds w w2 (ne1 ++ ne2) (nr1 ++ nr2).
Proof.
  intros (Hc1 & He1 & Hr1) (Hc2 & He2 & Hr2). unfold Batch.adds.
  rewrite Hc2, Hc1, He2, He1, Hr2, Hr1, !app_assoc. repeat split; reflexivity.
Qed.

(** What the body of the loop of [generate_and_save_events] does. *)
Lemma one_event_spec (w w' : App.World rng) (r : result unit) :
  App.generate_one_event App.get_all_ips w = (r, w') ->
  ∃ new_events new_responses,
    Batch.adds w w' new_events new_responses
    ∧ (length new_events ≤ 1)%nat
    ∧ Forall Batch.event_ok new_events
    ∧ Forall (Batch.response_ok new_events) new_responses
    ∧ (length new_responses ≤ Batch.anomalous new_events)%nat.
Proof.
  intros Hrun. unfold App.generate_one_event in Hrun.
  assert (Hnothing : ∀ w1,
            App.commit_raises (App.db w1) = App.commit_raises (App.db w) ->
            App.events (App.db w1) = App.events (App.db w) ->
            App.responses (App.db w1) = App.responses (App.db w) ->
            ∃ new_events new_responses,
              Batch.adds w w1 new_events new_responses
              ∧ (length new_events ≤ 1)%nat
              ∧ Forall Batch.event_ok new_events
              ∧ Forall (Batch.response_ok new_events) new_responses
              ∧ (length new_responses ≤ Batch.anomalous new_events)%nat).
  { intros w1 Hc He Hr. exists [], []. unfold Batch.adds. rewrite Hc, He, Hr, !app_nil_r.
    repeat split; try reflexivity; try apply Forall_nil_2; cbn; lia. }
  rewrite bind_unfold in Hrun.
  destruct (Random.choice App.get_all_ips w) as [[src_ip|e] w1] eqn:H1;
    apply choice_db in H1 as [Hdb1 Hsrc];
    [|injection Hrun as _ <-; apply Hnothing; congruence].
  rewrite bind_unfold in Hrun.
  match type of Hrun with
  | context [Random.choice ?seq w1] =>
      destruct (Random.choice seq w1) as [[dst_ip|e] w2] eqn:H2;
        apply choice_db in H2 as [Hdb2 Hdst]
  end;
    [|injection Hrun as _ <-; apply Hnothing; congruence].
  total_step (randint_db 1024 65535) Hrun.
  rewrite bind_unfold in Hrun.
  match type of Hrun with
  | context [Random.choice ?seq ?w0] =>
      destruct (Random.choice seq w0) as [[dst_port|e] w4] eqn:H4;
        apply choice_db in H4 as [Hdb4 Hport]
  end;
    [|injection Hrun as _ <-; apply Hnothing; congruence].
  rewrite bind_unfold in Hrun.
  match type of Hrun with
  | context [Random.choices ?population ?weights ?w0] =>
      destruct (Random.choices population weights w0) as [[status|e] w5] eqn:H5;
        apply choices_db in H5 as [Hdb5 Hstatus]
  end;
    [|injection Hrun as _ <-; apply Hnothing; congruence].
  destruct (features_db w5) as (features & w6 & Hfeatures & Hkeys & Hdb6).
  rewrite bind_unfold, Hfeatures in Hrun.
  total_step uuid4_db Hrun. total_step now_db Hrun.
  rewrite bind_unfold in Hrun.
  match type of Hrun with
  | context [App.save_event ?row ?w0] =>
      destruct (App.save_event row w0) as [[event|e] w9] eqn:H9;
        apply save_event_spec in H9 as (Hraises & Hresponses & Hevents)
  end;
    [|injection Hrun as _ <-; apply Hnothing; congruence].
  destruct Hevents as [Hevent Hevents].
  total_step (emit_db (App.new_event event)) Hrun.
  assert (Hok : Batch.event_ok event).
  { rewrite Hevent. unfold Batch.event_ok. cbn.
    specialize (Hsrc _ eq_refl). specialize (Hdst _ eq_refl).
    apply list_elem_of_filter in Hdst as [Hne Hdst].
    split; [exact Hsrc|]. split; [exact Hdst|]. split; [congruence|].
    split; [apply Hport; reflexivity|]. split; [apply Hstatus; reflexivity|].
    exact Hkeys. }
  assert (Hfields : App.Event.status event = status
                    ∧ App.Event.features event = features)
    by (rewrite Hevent; split; reflexivity).
  destruct Hfields as [Hestatus Hefeatures].
  rewrite bind_unfold in Hrun.
  destruct (decide (status = "anomalous")) as [Hanomalous|Hnormal].
  - match type of Hrun with
    | context [App.generate_and_save_response event features ?w0] =>
        destruct (App.generate_and_save_response event features w0)
          as [r1 w11] eqn:Hresponse;
          apply response_spec in Hresponse
            as (-> & new_responses & (Hc & He & Hr) & Hlen & Hanswers);
          [|congruence|exact Hefeatures]
    end.
    match type of Hrun with
    | context [App.print ?line ?w0] =>
        destruct (print_db line w0) as (u & w12 & Hprint & Hdb12);
          rewrite Hprint in Hrun
    end.
    injection Hrun as _ <-.
    exists [event], new_responses. split; [|split; [cbn; lia|split; [|split]]].
    + unfold Batch.adds. rewrite app_nil_r in He. repeat split; congruence.
    + apply Forall_cons_2; [exact Hok|apply Forall_nil_2].
    + exact Hanswers.
    + unfold Batch.anomalous. rewrite filter_cons, filter_nil.
      destruct (decide (App.Event.status event = "anomalous")) as [_|Hno];
        [exact Hlen|]. exfalso. apply Hno. congruence.
  - cbn [mret St_ret] in Hrun.
    match type of Hrun with
    | context [App.print ?line ?w0] =>
        destruct (print_db line w0) as (u & w12 & Hprint & Hdb12)
    end.
    rewrite Hprint in Hrun. injection Hrun as _ <-.
    exists [event], []. split; [|split; [cbn; lia|split; [|split]]].
    + unfold Batch.adds. rewrite app_nil_r. repeat split; congruence.
    + apply Forall_cons_2; [exact Hok|apply Forall_nil_2].
    + apply Forall_nil_2.
    + cbn. lia.
Qed.

Lemma loop_spec (n : nat) (w w' : App.World rng) (r : result unit) :
  App.for_range n (App.generate_one_event App.get_all_ips) w = (r, w') ->
  ∃ new_events new_responses,
    Batch.adds w w' new_events new_responses
    ∧ (length new_events ≤ n)%nat
    ∧ Forall Batch.event_ok new_events
    ∧ Forall (Batch.response_ok new_events) new_responses
    ∧ (length new_responses ≤ Batch.anomalous new_events)%nat.
Proof.
  revert w. induction n as [|n IH]; intros w Hrun; cbn [App.for_range] in Hrun.
  - injection Hrun as _ <-. exists [], []. unfold Batch.adds. rewrite !app_nil_r.
    repeat split; try reflexivity; try apply Forall_nil_2; cbn; lia.
  - rewrite bind_unfold in Hrun.
    destruct (App.generate_one_event App.get_all_ips w) as [[u|e] w1] eqn:Hbody;
      apply one_event_spec in Hbody
        as (ne1 & nr1 & Hadds1 & Hlen1 & Hev1 & Hre1 & Hcount1).
    + apply IH in Hrun as (ne2 & nr2 & Hadds2 & Hlen2 & Hev2 & Hre2 & Hcount2).
      exists (ne1 ++ ne2)%list, (nr1 ++ nr2)%list.
      split; [exact (adds_trans _ _ _ _ _ _ _ Hadds1 Hadds2)|].
      split; [rewrite length_app; lia|].
      split; [apply Forall_app; split; assumption|].
      split; [|rewrite length_app, anomalous_app; lia].
      apply Forall_app. split.
      * eapply Forall_impl; [exact Hre1|]. intros x. apply response_ok_mono.
        intros e He. apply elem_of_app. left. exact He.
      * eapply Forall_impl; [exact Hre2|]. intros x. apply response_ok_mono.
        intros e He. apply elem_of_app. right. exact He.
    + injection Hrun as _ <-. exists ne1, nr1.
      split; [exact Hadds1|]. split; [lia|]. repeat split; assumption.
Qed.

(** What a batch does, given the number of events that it draws. *)
Lemma batch_spec (w : App.World rng) :
  ∃ num_events w1 w',
    Random.randint 3 8 w = (Ok num_events, w1)
    ∧ App.generate_and_save_events w = (Ok tt, w')
    ∧ ∃ new_events new_responses,
        Batch.adds w w' new_events new_responses
        ∧ (length new_events ≤ Z.to_nat num_events)%nat
        ∧ Forall Batch.event_ok new_events
        ∧ Forall (Batch.response_ok new_events) new_responses
        ∧ (length new_responses ≤ Batch.anomalous new_events)%nat.
Proof.
  destruct (App.generate_and_save_events w) as [r w'] eqn:Hrun.
  unfold App.generate_and_save_events in Hrun. cbv zeta in Hrun.
  destruct (randint_db 3 8 w) as (num_events & w1 & Hdraw & Hdb1).
  rewrite try_except_bind, Hdraw in Hrun. unfold try_except in Hrun.
  exists num_events, w1, w'. split; [exact Hdraw|].
  destruct (App.for_range (Z.to_nat num_events)
              (App.generate_one_event App.get_all_ips) w1) as [[u|e] w2] eqn:Hloop;
    apply loop_spec in Hloop
      as (ne & nr & (Hc & He & Hr) & Hlen & Hev & Hre & Hcount).
  - injection Hrun as <- <-. split; [destruct u; reflexivity|].
    exists ne, nr. split; [unfold Batch.adds; repeat split; congruence|].
    repeat split; assumption.
  - apply handler_db in Hrun as [-> Hdb]. split; [reflexivity|].
    exists ne, nr. split; [unfold Batch.adds; repeat split; congruence|].
    repeat split; assumption.
Qed.

Lemma filter_keys {V} (Q : string -> Prop) `{∀ k, Decision (Q k)}
    (l : list (string * V)) :
  (filter (fun kv => Q kv.1) l).*1 = filter Q l.*1.
Proof.
  induction l as [|[k v] l IH]; [reflexivity|].
  rewrite fmap_cons, !filter_cons. cbn [fst].
  destruct (decide (Q k)); [rewrite fmap_cons; cbn [fst]; f_equal; exact IH|exact IH].
Qed.

(** X15 ([generate_and_save_events] with [generate_and_save_response]).  A
    batch never raises, whatever the random source draws and whichever
    commits fail, and it only adds rows: the events and the responses that
    were stored before are still there, unchanged and in their order, and
    the batch adds at most one response for each anomalous event that it
    adds.  With a source whose [randint] respects its bounds it adds at
    most eight events. *)
Theorem batch_only_adds_rows `{!RandomRange.Bounded rng} (w : App.World rng) :
  let outcome := App.generate_and_save_events w in
  outcome.1 = Ok tt
  ∧ ∃ new_events new_responses,
      Batch.adds w outcome.2 new_events new_responses
      ∧ (length new_responses ≤ Batch.anomalous new_events)%nat
      ∧ (Batch.anomalous new_events ≤ length new_events)%nat
      ∧ (length new_events ≤ 8)%nat.
Proof.
  cbv zeta.
  destruct (batch_spec w)
    as (num_events & w1 & w' & Hdraw & -> & ne & nr & Hadds & Hlen & _ & _ & Hcount).
  split; [reflexivity|]. exists ne, nr. split; [exact Hadds|].
  split; [exact Hcount|]. split; [apply anomalous_le|].
  pose proof (RandomRange.randint_range 3 8 w ltac:(lia)) as Hrange.
  unfold Random.randint in Hdraw.
  destruct (Random.draw_randint 3 8 w) as [n w0]. injection Hdraw as -> _.
  cbn [fst] in Hrange. lia.
Qed.

(** X16 ([generate_and_save_events]).  Every event that a batch stores is
    a flow between two different addresses of the topology of app.py, to
    one of the ten listed destination ports, with the status [normal] or
    [anomalous] and with a feature dictionary that has exactly the 35 keys
    of [Config.IMPORTANT_FEATURES], in their order. *)
Theorem batch_events_are_flows (w : App.World rng) :
  ∃ new_events,
    App.events (App.db (App.generate_and_save_events w).2)
    = (App.events (App.db w) ++ new_events)%list
    ∧ Forall (fun e =>
        App.Event.src_ip e ∈ App.get_all_ips
        ∧ App.Event.dst_ip e ∈ App.get_all_ips
        ∧ App.Event.src_ip e ≠ App.Event.dst_ip e
        ∧ App.Event.dst_port e ∈ [22; 23; 53; 80; 443; 993; 995; 3306; 5432; 8080]%Z
        ∧ App.Event.status e ∈ ["normal"; "anomalous"]
        ∧ (App.Event.features e).*1 = Config.IMPORTANT_FEATURES) new_events.
Proof.
  destruct (batch_spec w)
    as (num_events & w1 & w' & _ & -> & ne & nr & (_ & He & _) & _ & Hev & _).
  exists ne. split; [exact He|exact Hev].
Qed.

(** X17 ([generate_and_save_response] as [generate_and_save_events] calls
    it).  Every response that a batch stores answers an anomalous event
    stored by the same batch: it carries the [log_id], the addresses and
    the ports of that event, its features are those of the event's features
    that are RCA features, which are exactly the nine of
    [Config.RCA_TYPE1_FEATURES], and each of its two response types is one
    that [response_types] lists for its anomaly type. *)
Theorem batch_responses_answer_anomalous_events (w : App.World rng) :
  ∃ new_events new_responses,
    Batch.adds w (App.generate_and_save_events w).2 new_events new_responses
    ∧ Forall (Batch.response_ok new_events) new_responses
    ∧ Forall (fun r => (App.Response.features r).*1 = Config.RCA_TYPE1_FEATURES)
        new_responses.
Proof.
  destruct (batch_spec w)
    as (num_events & w1 & w' & _ & -> & ne & nr & Hadds & _ & Hev & Hre & _).
  exists ne, nr. split; [exact Hadds|]. split; [exact Hre|].
  rewrite Forall_forall in Hev. apply Forall_forall. intros r Hr.
  rewrite Forall_forall in Hre.
  destruct (Hre r Hr) as (e & He & _ & _ & _ & _ & _ & _ & Hfeatures & _).
  destruct (Hev e He) as (_ & _ & _ & _ & _ & Hkeys).
  rewrite Hfeatures.
  pose proof (filter_keys (fun k => k ∈ Config.RCA_TYPE1_FEATURES)
                (App.Event.features e)) as Hfilter.
  cbv beta in Hfilter. rewrite Hfilter, Hkeys. vm_compute. reflexivity.
Qed.

End BatchRows.

(** A batch of eight anomalous flows, the second commit of which fails. *)
Lemma batch_only_adds_rows_witness :
  let w := Samples.world Samples.second Samples.second_commit_raises in
  (App.generate_and_save_events w).1 = Py.Ok tt
  ∧ ∃ new_events new_responses,
      Batch.adds w (App.generate_and_save_events w).2 new_events new_responses
      ∧ (length new_events ≤ 8)%nat.
Proof.
  cbv zeta.
  destruct (batch_only_adds_rows
              (Samples.world Samples.second Samples.second_commit_raises))
    as (Hok & ne & nr & Hadds & _ & _ & Hlen).
  split; [exact Hok|]. exists ne, nr. split; assumption.
Defined.

(** ** The features of a row *)

Section RowFeatures.

Import Py.

Variable float_of_str : string -> option pyfloat.




(** [float] on integers around the two limits: a tie goes to the even
    significand, and the largest integer that converts is the one just
    below [2 ** 1024 - 2 ** 970]. *)
Example float_of_int_rounds :
  ImportantFeatures.float_of_int (2 ^ 53 + 1) = Some (Finite (inject_Z (2 ^ 53)))
  ∧ ImportantFeatures.float_of_int (2 ^ 53 + 3) = Some (Finite (inject_Z (2 ^ 53 + 4)))
  ∧ ImportantFeatures.float_of_int (- (2 ^ 53 + 1)) = Some (Finite (inject_Z (- 2 ^ 53)))
  ∧ ImportantFeatures.float_of_int (2 ^ 1024 - 2 ^ 970 - 1)
    = Some (Finite (inject_Z (2 ^ 1024 - 2 ^ 971)))
  ∧ ImportantFeatures.float_of_int (2 ^ 1024 - 2 ^ 970) = None
  ∧ ImportantFeatures.float_of_int (10 ^ 400) = None.
Proof. repeat split; vm_compute; reflexivity. Qed.


End RowFeatures.

(** ** The polling of the data directory *)

Section Polling.

Import Py.

Lemma latest_of_cons (rest : list Generator.File) (first f : Generator.File) :
  Engine.latest (first :: rest) = Some f ->
  (f = first ∨ f ∈ rest) ∧ (first.2 ≤ f.2)%Z ∧ ∀ g, g ∈ rest -> (g.2 ≤ f.2)%Z.
Proof.
  revert first. induction rest as [|g rest IH]; intros first Hlatest.
  - injection Hlatest as <-. split; [left; reflexivity|]. split; [lia|].
    intros g Hg. apply elem_of_nil in Hg. contradiction.
  - assert (Hnext : Engine.latest
                      ((if bool_decide (first.2 < g.2)%Z then g else first) :: rest)
                    = Some f) by exact Hlatest.
    apply IH in Hnext as (Hwhere & Hge & Hall).
    case_bool_decide as Hlt.
    + split; [right; destruct Hwhere as [->|Hin];
              [apply elem_of_cons; left; reflexivity
              |apply elem_of_cons; right; exact Hin]|].
      split; [lia|]. intros g' Hg'. apply elem_of_cons in Hg' as [->|Hg'];
        [exact Hge|apply Hall, Hg'].
    + split; [destruct Hwhere as [->|Hin];
              [left; reflexivity|right; apply elem_of_cons; right; exact Hin]|].
      split; [exact Hge|]. intros g' Hg'. apply elem_of_cons in Hg' as [->|Hg'];
        [lia|apply Hall, Hg'].
Qed.

Lemma latest_is_newest (csv_files : list Generator.File) (f : Generator.File) :
  Engine.latest csv_files = Some f ->
  f ∈ csv_files ∧ ∀ g, g ∈ csv_files -> (g.2 ≤ f.2)%Z.
Proof.
  destruct csv_files as [|first rest]; [discriminate|]. intros Hlatest.
  apply latest_of_cons in Hlatest as (Hwhere & Hge & Hall). split.
  - destruct Hwhere as [->|Hin]; apply elem_of_cons; [left; reflexivity|right; exact Hin].
  - intros g Hg. apply elem_of_cons in Hg as [->|Hg]; [exact Hge|apply Hall, Hg].
Qed.

Lemma read_file_is_processed (rows : list Preprocess.Row) (s : Preprocess.State) :
  ∃ processed_count anomaly_count s',
    Preprocess.process_csv_file (Ok rows) s
    = (Preprocess.Processed processed_count anomaly_count, s').
Proof.
  unfold Preprocess.process_csv_file. rewrite bind_unfold. cbv beta iota.
  rewrite bind_unfold.
  destruct (csv_rows_are_isolated rows
              (Preprocess.mkState (Preprocess.events s) (Preprocess.commits s)
                 (Preprocess.commit_raises s) 0 0 (Preprocess.logged s)))
    as (s' & -> & _).
  unfold Preprocess.summary. eauto.
Qed.

(** X19 ([PreprocessingEngine._process_latest_csv]).  The file that a poll
    processes is a newest file of the data directory.  When it can be read
    it is recorded as processed, and every later poll that finds the same
    file newest changes nothing: no row of it is stored a second time.
    When it cannot be read it is not recorded, no event is stored, and the
    next poll tries it again. *)
Theorem processed_file_is_not_processed_again
    (csv_files : list Generator.File)
    (read_csv : string -> result (list Preprocess.Row))
    (self : Engine.t) (s : Preprocess.State) (latest_file : Generator.File) :
  Engine.latest csv_files = Some latest_file ->
  let outcome := Engine._process_latest_csv csv_files read_csv self s in
  (latest_file ∈ csv_files ∧ ∀ g, g ∈ csv_files -> (g.2 ≤ latest_file.2)%Z)
  ∧ (∀ rows, read_csv latest_file.1 = Ok rows ->
       Engine.last_processed outcome.1 = Some latest_file.1
       ∧ ∀ csv_files' read_csv' g,
           Engine.latest csv_files' = Some g -> g.1 = latest_file.1 ->
           Engine._process_latest_csv csv_files' read_csv' outcome.1 outcome.2
           = outcome)
  ∧ (∀ e, read_csv latest_file.1 = Raise e ->
       Engine.last_processed self ≠ Some latest_file.1 ->
       outcome.1 = self
       ∧ Preprocess.events outcome.2 = Preprocess.events s).
Proof.
  intros Hlatest. cbv zeta. split; [apply latest_is_newest, Hlatest|].
  destruct (Engine._process_latest_csv csv_files read_csv self s)
    as [self1 s1] eqn:Hrun.
  unfold Engine._process_latest_csv in Hrun. rewrite Hlatest in Hrun.
  cbn [fst snd]. split.
  - intros rows Hread.
    assert (Hlast1 : Engine.last_processed self1 = Some latest_file.1).
    { case_bool_decide as Hlast.
      - injection Hrun as <- _. exact Hlast.
      - rewrite Hread in Hrun.
        destruct (read_file_is_processed rows s) as (p & a & s' & Hprocessed).
        rewrite Hprocessed in Hrun. injection Hrun as <- _. reflexivity. }
    split; [exact Hlast1|].
    intros csv_files' read_csv' g Hg Hname.
    unfold Engine._process_latest_csv. rewrite Hg, Hname.
    rewrite bool_decide_eq_true_2 by exact Hlast1. reflexivity.
  - intros e Hread Hnew. rewrite bool_decide_eq_false_2 in Hrun by exact Hnew.
    rewrite Hread in Hrun. unfold Preprocess.process_csv_file in Hrun.
    rewrite bind_unfold in Hrun. cbn in Hrun. injection Hrun as <- <-.
    split; reflexivity.
Qed.

End Polling.

(** Two files, the newer of which is read and stored. *)
Lemma processed_file_is_not_processed_again_witness :
  let csv_files := [("network_data_1.csv", 10%Z); ("network_data_2.csv", 20%Z)] in
  let read_csv := fun _ : string => Py.Ok Samples.frame in
  let outcome :=
    Engine._process_latest_csv csv_files read_csv Engine.init
      (Samples.csv_session (fun _ => false)) in
  Engine.last_processed outcome.1 = Some "network_data_2.csv"
  ∧ length (Preprocess.events outcome.2) = 3%nat
  ∧ Engine._process_latest_csv csv_files read_csv outcome.1 outcome.2 = outcome.
Proof.
  cbv zeta.
  destruct (processed_file_is_not_processed_again
              [("network_data_1.csv", 10%Z); ("network_data_2.csv", 20%Z)]
              (fun _ : string => Py.Ok Samples.frame) Engine.init
              (Samples.csv_session (fun _ => false))
              ("network_data_2.csv", 20%Z) eq_refl) as (_ & Hread & _).
  destruct (Hread Samples.frame eq_refl) as [Hlast Hagain].
  split; [exact Hlast|]. split; [vm_compute; reflexivity|].
  apply (Hagain _ _ ("network_data_2.csv", 20%Z)); reflexivity.
Defined.

(** ** The monitoring requests of main.py *)

Section Monitoring.

Lemma handle_start_monitors (utcnow : Z) (sys : Main.System) :
  StateManager.is_monitoring (Main.state_manager (Main.handle_start_monitoring utcnow sys))
  = true.
Proof.
  unfold Main.handle_start_monitoring.
  destruct (StateManager.is_monitoring (Main.state_manager sys)) eqn:Hmon.
  - exact Hmon.
  - reflexivity.
Qed.

Lemma handle_stop_monitors (utcnow : Z) (sys : Main.System) :
  StateManager.is_monitoring (Main.state_manager (Main.handle_stop_monitoring utcnow sys))
  = false.
Proof.
  unfold Main.handle_stop_monitoring.
  destruct (StateManager.is_monitoring (Main.state_manager sys)) eqn:Hmon.
  - reflexivity.
  - exact Hmon.
Qed.

(** X20 ([handle_start_monitoring], [handle_stop_monitoring]).  A start
    request that follows a start request, and a stop request that follows a
    stop request, is answered with an error message and changes nothing
    else: the components, the monitoring flag and the start time of the
    first request are kept. *)
Theorem repeated_monitoring_request_is_refused
    (first again : Z) (sys : Main.System) :
  let started := Main.handle_start_monitoring first sys in
  let stopped := Main.handle_stop_monitoring first sys in
  Main.handle_start_monitoring again started
  = Main.emit (Main.error "Monitoring already active") started
  ∧ Main.handle_stop_monitoring again stopped
    = Main.emit (Main.error "Monitoring not active") stopped
  ∧ StateManager._start_time (Main.state_manager
                                (Main.handle_start_monitoring again started))
    = StateManager._start_time (Main.state_manager started).
Proof.
  cbv zeta.
  assert (Hstart : Main.handle_start_monitoring again
                     (Main.handle_start_monitoring first sys)
                   = Main.emit (Main.error "Monitoring already active")
                       (Main.handle_start_monitoring first sys)).
  { unfold Main.handle_start_monitoring at 1. rewrite handle_start_monitors.
    reflexivity. }
  split; [exact Hstart|]. split.
  - unfold Main.handle_stop_monitoring at 1. rewrite handle_stop_monitors. reflexivity.
  - rewrite Hstart. reflexivity.
Qed.

(** X21 ([handle_start_monitoring], [handle_stop_monitoring],
    [start_monitoring_process], [stop_monitoring_process],
    [DataGenerator.start] and [stop], [start_processing] and
    [stop_processing]).  After any sequence of start and stop requests to
    the created application, the data generator runs exactly when main.py's
    monitoring flag is set, and so does the preprocessing engine; the start
    time is recorded exactly when the flag is set. *)
Theorem components_follow_the_monitoring_flag (sys : Main.System) :
  Main.reachable sys ->
  ∃ generator engine,
    Main.data_generator sys = Some generator
    ∧ Main.preprocessing_engine sys = Some engine
    ∧ Generator.is_running generator
      = StateManager.is_monitoring (Main.state_manager sys)
    ∧ Engine.processing engine = StateManager.is_monitoring (Main.state_manager sys)
    ∧ (is_Some (StateManager._start_time (Main.state_manager sys))
       ↔ StateManager.is_monitoring (Main.state_manager sys) = true).
Proof.
  induction 1 as [|r sys Hreach (generator & engine & Hg & He & Hrun & Hproc & Htime)].
  - eexists _, _. split; [reflexivity|]. split; [reflexivity|].
    split; [reflexivity|]. split; [reflexivity|].
    cbn. split; [intros [? ?]; discriminate|discriminate].
  - assert (Hkept : ∀ m,
              ∃ generator engine,
                Main.data_generator (Main.emit m sys) = Some generator
                ∧ Main.preprocessing_engine (Main.emit m sys) = Some engine
                ∧ Generator.is_running generator
                  = StateManager.is_monitoring (Main.state_manager (Main.emit m sys))
                ∧ Engine.processing engine
                  = StateManager.is_monitoring (Main.state_manager (Main.emit m sys))
                ∧ (is_Some (StateManager._start_time
                              (Main.state_manager (Main.emit m sys)))
                   ↔ StateManager.is_monitoring (Main.state_manager (Main.emit m sys))
                     = true)).
    { intros m. exists generator, engine.
      split; [exact Hg|]. split; [exact He|]. split; [exact Hrun|].
      split; [exact Hproc|exact Htime]. }
    destruct r as [utcnow|utcnow]; cbn [Main.handle].
    + unfold Main.handle_start_monitoring.
      destruct (StateManager.is_monitoring (Main.state_manager sys)) eqn:Hmon;
        [apply Hkept|].
      unfold Main.start_monitoring_process. rewrite Hg, He.
      unfold Generator.is_running in Hrun. unfold Generator.is_running, Generator.start.
      rewrite Hrun. unfold Engine.start_processing. rewrite Hproc.
      cbn [negb snd Main.emit Main.data_generator Main.preprocessing_engine
           Main.state_manager].
      eexists _, _. split; [reflexivity|]. split; [reflexivity|].
      split; [reflexivity|]. split; [reflexivity|].
      cbn. split; [reflexivity|eauto].
    + unfold Main.handle_stop_monitoring.
      destruct (StateManager.is_monitoring (Main.state_manager sys)) eqn:Hmon;
        [|apply Hkept].
      unfold Main.stop_monitoring_process. rewrite Hg, He.
      unfold Generator.is_running in Hrun. unfold Generator.is_running, Generator.stop.
      rewrite Hrun. unfold Engine.stop_processing.
      cbn [negb snd Main.emit Main.data_generator Main.preprocessing_engine
           Main.state_manager].
      eexists _, _. split; [reflexivity|]. split; [reflexivity|].
      split; [reflexivity|]. split; [reflexivity|].
      cbn. split; [intros [? ?]; discriminate|discriminate].
Qed.

(** X22 (the two [StateManager] objects).  The handlers of main.py set the
    flag of the [StateManager] that [create_app] makes; the [state_manager]
    of utils/core.py, which the preprocessing loop and the [/status] route
    read, is a different object that no request changes.  After any
    sequence of start and stop requests it is as it was created: the
    route reports [stopped], and a turn of the preprocessing loop reads no
    file and stores nothing. *)
Theorem requests_leave_the_imported_registry_unset (sys : Main.System) :
  Main.reachable sys ->
  Main.core_state_manager sys = StateManager.init
  ∧ Main.monitoring_status sys = "stopped"
  ∧ ∀ csv_files read_csv engine s,
      Engine._processing_loop_turn (Main.core_state_manager sys) csv_files read_csv
        engine s
      = (engine, s).
Proof.
  intros Hreach.
  assert (Hcore : Main.core_state_manager sys = StateManager.init).
  { induction Hreach as [|r sys Hreach IH]; [reflexivity|].
    destruct r as [utcnow|utcnow]; cbn [Main.handle].
    - unfold Main.handle_start_monitoring.
      destruct (StateManager.is_monitoring (Main.state_manager sys)); exact IH.
    - unfold Main.handle_stop_monitoring.
      destruct (StateManager.is_monitoring (Main.state_manager sys)); exact IH. }
  split; [exact Hcore|]. unfold Main.monitoring_status. rewrite Hcore.
  split; reflexivity.
Qed.

End Monitoring.

(** The application after a start request. *)
Lemma components_follow_the_monitoring_flag_witness :
  let sys := Main.handle (Main.start_monitoring 5) Main.created in
  Main.reachable sys
  ∧ StateManager.is_monitoring (Main.state_manager sys) = true
  ∧ ∃ generator engine,
      Main.data_generator sys = Some generator
      ∧ Main.preprocessing_engine sys = Some engine
      ∧ Generator.is_running generator = true
      ∧ Engine.processing engine = true.
Proof.
  cbv zeta.
  assert (Hreach : Main.reachable (Main.handle (Main.start_monitoring 5) Main.created))
    by (apply Main.reachable_handle, Main.reachable_created).
  split; [exact Hreach|]. split; [reflexivity|].
  destruct (components_follow_the_monitoring_flag _ Hreach)
    as (generator & engine & Hg & He & Hrun & Hproc & _).
  exists generator, engine. repeat split; assumption.
Defined.

Lemma requests_leave_the_imported_registry_unset_witness :
  let sys := Main.handle (Main.start_monitoring 5) Main.created in
  Main.reachable sys
  ∧ StateManager.is_monitoring (Main.state_manager sys) = true
  ∧ Main.monitoring_status sys = "stopped".
Proof.
  cbv zeta.
  assert (Hreach : Main.reachable (Main.handle (Main.start_monitoring 5) Main.created))
    by (apply Main.reachable_handle, Main.reachable_created).
  split; [exact Hreach|]. split; [reflexivity|].
  apply (requests_leave_the_imported_registry_unset _ Hreach).
Defined.

(** ** A batch whose commits all succeed *)

Section BatchRuns.

Import Py.

Context {rng : Type} `{Random.Source rng}.













End BatchRuns.


(** ** The events of a processed file *)

Section CsvFile.

Import Py.

Lemma event_id_fresh (rows : list Event.t) (e : Event.t) :
  e ∈ rows -> (Event.id e < Preprocess.next_id rows)%Z.
Proof.
  unfold Preprocess.next_id. induction rows as [|a rows IH]; intros Hin.
  - apply elem_of_nil in Hin. contradiction.
  - cbn [foldr]. apply elem_of_cons in Hin as [->|Hin]; [lia|].
    specialize (IH Hin). lia.
Qed.

(** Setting the flag on the row with the fresh key touches that row only. *)
Lemma mark_anomalous_fresh (rows : list Event.t) (e : Event.t) :
  Event.id e = Preprocess.next_id rows ->
  Preprocess.mark_anomalous (Preprocess.next_id rows) (rows ++ [e])
  = (rows ++ [Event.mk (Event.id e) (Event.log_id e) (Event.timestamp e)
                (Event.src_ip e) (Event.dst_ip e) (Event.src_port e)
                (Event.dst_port e) true])%list.
Proof.
  intros Hid. unfold Preprocess.mark_anomalous. rewrite fmap_app. f_equal.
  - transitivity (id <$> rows); [|apply list_fmap_id].
    apply list_fmap_ext. intros i x Hx.
    apply list_elem_of_lookup_2 in Hx. apply event_id_fresh in Hx.
    rewrite bool_decide_eq_false_2 by lia. reflexivity.
  - cbn. rewrite bool_decide_eq_true_2 by exact Hid. reflexivity.
Qed.

(** What one turn of the loop of [process_csv_file] does to the session
    and to the two counters. *)
Lemma process_row_appends (row : Preprocess.Row) (s : Preprocess.State) :
  ∃ s' new,
    Preprocess.process_row row s = (Ok tt, s')
    ∧ Preprocess.events s' = (Preprocess.events s ++ new)%list
    ∧ Event.log_id <$> new `sublist_of` [Preprocess.log_id row]
    ∧ (Preprocess.processed_count s' ≤ Preprocess.processed_count s + length new)%nat
    ∧ (Preprocess.anomaly_count s + length (filter (fun e => Event.is_anomalous e = true) new)
       ≤ Preprocess.anomaly_count s')%nat
    ∧ (Preprocess.anomaly_count s'
       ≤ Preprocess.anomaly_count s
         + length (filter (fun r => Preprocess.prediction_result r = Some true) [row]))%nat.
Proof.
  unfold Preprocess.process_row, try_except, Preprocess.save_and_predict.
  cbv [mbind St_bind mret St_ret Preprocess.commit Preprocess.count_anomaly
       Preprocess.count_processed Preprocess.log_error].
  rewrite filter_cons, filter_nil.
  destruct (Preprocess.commit_raises s (Preprocess.commits s)) eqn:H1.
  - eexists _, []. split; [reflexivity|]. cbn. rewrite app_nil_r.
    split; [reflexivity|]. split; [apply sublist_nil_l|].
    destruct (decide _); cbn; lia.
  - case_bool_decide as Hpred; cbn [Preprocess.commit_raises Preprocess.commits
                                     Preprocess.events].
    + destruct (decide _) as [_|Hno]; [|contradiction].
      destruct (Preprocess.commit_raises s (S (Preprocess.commits s))) eqn:H2.
      * eexists _, [_]. split; [reflexivity|]. cbn.
        split; [reflexivity|]. split; [reflexivity|].
        destruct (decide _); [discriminate|]. cbn. lia.
      * destruct (Preprocess.session_closed row).
        -- eexists _, [_]. split; [reflexivity|]. cbn.
           split; [reflexivity|]. split; [reflexivity|].
           destruct (decide _); [discriminate|]. cbn. lia.
        -- eexists _, [_]. split; [reflexivity|].
           cbn [Preprocess.events Preprocess.processed_count Preprocess.anomaly_count].
           split; [apply mark_anomalous_fresh; reflexivity|].
           cbn. split; [reflexivity|].
           destruct (decide _); cbn; lia.
    + destruct (decide _) as [Hyes|_]; [contradiction|].
      eexists _, [_]. split; [reflexivity|]. cbn.
      split; [reflexivity|]. split; [reflexivity|].
      destruct (decide _); [discriminate|]. cbn. lia.
Qed.

Lemma for_rows_appends (rows : list Preprocess.Row) (s : Preprocess.State) :
  ∃ s' new,
    Preprocess.for_rows rows s = (Ok tt, s')
    ∧ Preprocess.events s' = (Preprocess.events s ++ new)%list
    ∧ Event.log_id <$> new `sublist_of` Preprocess.log_id <$> rows
    ∧ (Preprocess.processed_count s' ≤ Preprocess.processed_count s + length new)%nat
    ∧ (Preprocess.anomaly_count s + length (filter (fun e => Event.is_anomalous e = true) new)
       ≤ Preprocess.anomaly_count s')%nat
    ∧ (Preprocess.anomaly_count s'
       ≤ Preprocess.anomaly_count s
         + length (filter (fun r => Preprocess.prediction_result r = Some true) rows))%nat.
Proof.
  revert s. induction rows as [|row rows IH]; intros s.
  - exists s, []. split; [reflexivity|]. rewrite app_nil_r.
    split; [reflexivity|]. split; [reflexivity|]. cbn. lia.
  - destruct (process_row_appends row s)
      as (s1 & new1 & Hrow & Hev1 & Hids1 & Hp1 & Hlow1 & Hup1).
    destruct (IH s1) as (s2 & new2 & Hrest & Hev2 & Hids2 & Hp2 & Hlow2 & Hup2).
    exists s2, (new1 ++ new2)%list. cbn [Preprocess.for_rows].
    rewrite (bind_returns _ _ _ _ _ Hrow).
    split; [exact Hrest|]. split; [rewrite Hev2, Hev1, app_assoc; reflexivity|].
    split.
    { rewrite fmap_app, fmap_cons.
      change (Preprocess.log_id row :: (Preprocess.log_id <$> rows))
        with ([Preprocess.log_id row] ++ (Preprocess.log_id <$> rows))%list.
      apply sublist_app; assumption. }
    rewrite filter_app, !length_app.
    change (row :: rows) with ([row] ++ rows)%list.
    rewrite filter_app, length_app. lia.
Qed.

(** The sample frame with no failing commit: the third row is predicted
    anomalous and counted, but the prediction has closed the session, so no
    stored event carries the flag. *)
Example csv_flag_of_a_detached_event :
  let '(result, s) :=
    Preprocess.process_csv_file (Ok Samples.frame) (Samples.csv_session (fun _ => false)) in
  result = Preprocess.Processed 3 1
  ∧ Event.is_anomalous <$> Preprocess.events s = [false; false; false].
Proof. vm_compute. split; reflexivity. Qed.

(** X24.  [process_csv_file]: when the file can be read, the call reports
    success, whichever commits fail.  The events stored before are kept
    as they are and the events of the file are appended after them, at most
    one per row and in the order of the rows; [processed_count] is at most
    the number of events appended, and [anomaly_count] lies between the
    number of appended events flagged anomalous and the number of rows
    predicted anomalous. *)
Theorem csv_file_appends_its_events (rows : list Preprocess.Row) (s : Preprocess.State) :
  ∃ processed anomalies new s',
    Preprocess.process_csv_file (Ok rows) s
    = (Preprocess.Processed processed anomalies, s')
    ∧ Preprocess.events s' = (Preprocess.events s ++ new)%list
    ∧ Event.log_id <$> new `sublist_of` Preprocess.log_id <$> rows
    ∧ (processed ≤ length new)%nat
    ∧ (length (filter (fun e => Event.is_anomalous e = true) new) ≤ anomalies)%nat
    ∧ (anomalies
       ≤ length (filter (fun r => Preprocess.prediction_result r = Some true) rows))%nat.
Proof.
  unfold Preprocess.process_csv_file.
  set (s0 := Preprocess.mkState _ _ _ 0 0 _).
  destruct (for_rows_appends rows s0)
    as (s' & new & Hloop & Hev & Hids & Hp & Hlow & Hup).
  exists (Preprocess.processed_count s'), (Preprocess.anomaly_count s'), new, s'.
  cbv [mbind St_bind]. rewrite Hloop. unfold Preprocess.summary.
  split; [reflexivity|]. split; [exact Hev|]. split; [exact Hids|].
  cbn in Hp, Hlow, Hup. repeat split; lia.
Qed.

End CsvFile.
